(** * fear_n_greed_bot: the data pipeline of [main.py]

    A shallow embedding of the functions of [src/main.py] that fetch the
    CNN Fear & Greed document, extract the historical points, normalise
    them with pandas and deliver charts, together with the properties the
    specification states about them.

    Conventions of the embedding.
    - A parsed JSON document is a value of [json]; a Python [dict] is an
      association list read through its first binding of a key.
    - A JSON number is [JNum x] with [x : pyfloat]: a rational (a Python
      [int] of any size, or the value of a [float]), an infinity or NaN.
    - A text is a [string] of ASCII characters; what Python does to a text
      with other characters is left to the library.
    - A pandas [Timestamp] is a number of nanoseconds since the epoch,
      [None] standing for [NaT].
    - A function that logs and may raise is a computation in the monad [M]:
      an outcome together with the log lines it emitted.
    - pandas, requests and the Unicode tables of Python are not part of the
      repository.  The calls [main.py] makes to them are the operations of
      the class [Library]; the class states, as laws, what is relied on:
      the contract of [sort_values], and the conversion of the plainest
      cells.  Every property of the first part holds for every library that
      satisfies these laws. *)

From Stdlib Require Import ZArith QArith Qabs String Ascii List Bool Lia.
From Stdlib Require Import Sorted Permutation.
Import ListNotations.
Local Open Scope string_scope.
Local Open Scope list_scope.
Local Open Scope Z_scope.

Set Implicit Arguments.
Set Warnings "-register-all".

(* ================================================================= *)
(** ** Python values *)

Inductive pyfloat : Type :=
| FFin (q : Q)
| FInf (negative : bool)
| FNaN.

Inductive json : Type :=
| JNull
| JBool (b : bool)
| JNum (x : pyfloat)
| JStr (s : string)
| JArr (items : list json)
| JObj (fields : list (string * json)).

(** The JSON number that is the integer [z]. *)
Definition number (z : Z) : json := JNum (FFin (inject_Z z)).

Inductive exn : Type :=
| TypeError
| KeyError
| ValueError
| AttributeError
| OverflowError
| OutOfBoundsDatetime
| RequestException
| JSONDecodeError
| TelegramError
| OSError.

Inductive outcome (A : Type) : Type :=
| Ok (a : A)
| Raise (e : exn).
Arguments Ok {A} a.
Arguments Raise {A} e.

Definition obind {A B} (m : outcome A) (f : A -> outcome B) : outcome B :=
  match m with
  | Ok a => f a
  | Raise e => Raise e
  end.

Fixpoint omap {A B} (f : A -> outcome B) (l : list A) : outcome (list B) :=
  match l with
  | [] => Ok []
  | a :: l' => obind (f a) (fun b => obind (omap f l') (fun bs => Ok (b :: bs)))
  end.

(** [d.get(key)] and [key in d] on a dict. *)
Fixpoint dict_get (key : string) (fields : list (string * json)) : option json :=
  match fields with
  | [] => None
  | (k, v) :: rest => if String.eqb k key then Some v else dict_get key rest
  end.

Definition dict_has (key : string) (fields : list (string * json)) : bool :=
  match dict_get key fields with Some _ => true | None => false end.

Definition is_str_eq (key : string) (j : json) : bool :=
  match j with JStr s => String.eqb s key | _ => false end.

Definition is_substring (key s : string) : bool :=
  match index 0 key s with Some _ => true | None => false end.

(** [key in obj]: membership in a dict's keys or a list's items, substring
    test on a string, [TypeError] on anything else. *)
Definition py_in (key : string) (obj : json) : outcome bool :=
  match obj with
  | JObj fields => Ok (dict_has key fields)
  | JArr items => Ok (existsb (is_str_eq key) items)
  | JStr s => Ok (is_substring key s)
  | _ => Raise TypeError
  end.

(** [obj[key]] with a string key. *)
Definition py_getitem (obj : json) (key : string) : outcome json :=
  match obj with
  | JObj fields =>
      match dict_get key fields with Some v => Ok v | None => Raise KeyError end
  | _ => Raise TypeError
  end.

(** [obj.get(key)]: only a dict has the method; a missing key gives [None]. *)
Definition py_get (obj : json) (key : string) : outcome json :=
  match obj with
  | JObj fields =>
      Ok (match dict_get key fields with Some v => v | None => JNull end)
  | _ => Raise AttributeError
  end.

Definition is_dict (j : json) : bool :=
  match j with JObj _ => true | _ => false end.

Definition is_list (j : json) : bool :=
  match j with JArr _ => true | _ => false end.

Definition is_none (j : json) : bool :=
  match j with JNull => true | _ => false end.

(** The first magnitude that no longer converts to a [float]: the
    conversion of an [int] rounds to 53 bits, halves to even, and
    overflows from here on. *)
Definition FLOAT_LIMIT : Z := 2 ^ 1024 - 2 ^ 970.

Definition too_large (q : Q) : bool :=
  Qle_bool (inject_Z FLOAT_LIMIT) (Qabs q).

(* ================================================================= *)
(** ** Text *)

Definition is_digit (c : ascii) : bool :=
  let n := nat_of_ascii c in (48 <=? n)%nat && (n <=? 57)%nat.

Definition digit_of (c : ascii) : Z := Z.of_nat (nat_of_ascii c) - 48.

(** The number a run of decimal digits denotes, after [acc]. *)
Fixpoint digits_value (acc : Z) (s : string) : option Z :=
  match s with
  | EmptyString => Some acc
  | String c s' =>
      if is_digit c then digits_value (10 * acc + digit_of c) s' else None
  end.

(** A text made of decimal digits only, at least one. *)
Definition decimal (s : string) : option Z :=
  match s with
  | EmptyString => None
  | String _ _ => digits_value 0 s
  end.

Definition has_digit (s : string) : bool :=
  existsb is_digit (list_ascii_of_string s).

Definition lower (c : ascii) : ascii :=
  let n := nat_of_ascii c in
  if (65 <=? n)%nat && (n <=? 90)%nat then ascii_of_nat (n + 32) else c.

Definition upper (c : ascii) : ascii :=
  let n := nat_of_ascii c in
  if (97 <=? n)%nat && (n <=? 122)%nat then ascii_of_nat (n - 32) else c.

Definition lowercase (s : string) : string :=
  string_of_list_ascii (map lower (list_ascii_of_string s)).

(** The text spells an infinity somewhere. *)
Definition names_infinity (s : string) : bool :=
  is_substring "inf" (lowercase s).

Definition is_ascii (s : string) : bool :=
  forallb (fun c => (nat_of_ascii c <? 128)%nat) (list_ascii_of_string s).

(** [s.replace(a, b)] for one-character [a] and [b]. *)
Fixpoint str_replace (a b : ascii) (s : string) : string :=
  match s with
  | EmptyString => EmptyString
  | String c s' => String (if Ascii.eqb c a then b else c) (str_replace a b s')
  end.

Definition is_cased (c : ascii) : bool :=
  let n := nat_of_ascii c in
  ((65 <=? n)%nat && (n <=? 90)%nat) || ((97 <=? n)%nat && (n <=? 122)%nat).

(** [s.title()] on ASCII text: a letter that follows a letter is lowered,
    any other letter is raised, the rest is kept. *)
Fixpoint title_from (previous_is_cased : bool) (s : string) : string :=
  match s with
  | EmptyString => EmptyString
  | String c s' =>
      String (if previous_is_cased then lower c else upper c)
             (title_from (is_cased c) s')
  end.

(* ================================================================= *)
(** ** Logging and the computation monad *)

Inductive level : Type := INFO | WARNING | ERROR.

(** One constructor per logged message; the key of the series the message
    is about is kept where the text interpolates or names it. *)
Inductive event : Type :=
| MissingKey (key : string)
| DictType (v : json)
| DictContent (v : json)
| NotDictOrNoData (key : string)
| ActualContent (v : json)
| DataNotList (key : string)
| DataType (v : json)
| EmptyList (key : string)
| ListLength (key : string) (n : nat)
| FirstItem (v : json)
| SkippedItem (key : string) (item : json)
| ExtractedLength (n : nat)
| NoPoints (key : string)
| EmptyAfterProcessing (key : string)
| Processed (key : string) (n : nat)
| RequestFailed (key : string)
| DecodeFailed (key : string)
| Unexpected (key : string) (e : exn)
| CurrentMissingField
| CurrentRead (score rating : json).

Definition log : Type := list (level * event).

Definition M (A : Type) : Type := (outcome A * log)%type.

Definition ret {A} (a : A) : M A := (Ok a, []).

Definition bind {A B} (m : M A) (f : A -> M B) : M B :=
  match m with
  | (Ok a, l) => let (r, l') := f a in (r, l ++ l')
  | (Raise e, l) => (Raise e, l)
  end.

Definition lift {A} (o : outcome A) : M A := (o, []).

Definition logger (lv : level) (ev : event) : M unit := (Ok tt, [(lv, ev)]).

(** [try: body  except Exception as e: handler e]. *)
Definition try_except {A} (body : M A) (handler : exn -> M A) : M A :=
  match body with
  | (Ok a, l) => (Ok a, l)
  | (Raise e, l) => let (r, l') := handler e in (r, l ++ l')
  end.

Declare Scope py_scope.
Delimit Scope py_scope with py.
Notation "x <- m ;; k" := (bind m (fun x => k))
  (at level 61, m at next level, right associativity) : py_scope.
Notation "m ;;; k" := (bind m (fun _ => k))
  (at level 61, right associativity) : py_scope.
Local Open Scope py_scope.

(** What the caller receives: the value returned, [None] included. *)
Definition returned {A} (m : M (option A)) : option A :=
  match fst m with
  | Ok r => r
  | Raise _ => None
  end.

Definition logged {A} (m : M A) : log := snd m.

(* ================================================================= *)
(** ** Cells and frames *)

Definition isna (x : pyfloat) : bool :=
  match x with FNaN => true | _ => false end.

(** A [datetime64[ns]] cell: nanoseconds since the epoch, [None] is NaT. *)
Definition stamp : Type := option Z.

Definition NS_PER_MS : Z := 1000000.
Definition NS_PER_DAY : Z := 86400 * 1000 * NS_PER_MS.

Record row (T V : Type) : Type := mkRow {
  index : nat;
  timestamp : T;
  value : V
}.

Definition DataFrame (T V : Type) : Type := list (row T V).

Definition Frame : Type := DataFrame stamp pyfloat.

(** One dict appended to [time_series_data]. *)
Record entry : Type := mkEntry {
  entry_timestamp : json;
  entry_value : json
}.

(** One row per dict, labelled from [i] on. *)
Fixpoint frame_from (i : nat) (records : list entry) : DataFrame json json :=
  match records with
  | [] => []
  | e :: rest =>
      mkRow i (entry_timestamp e) (entry_value e) :: frame_from (S i) rest
  end.

(** Ascending order of instants, NaT after every instant. *)
Definition stamp_le (a b : stamp) : bool :=
  match a, b with
  | _, None => true
  | None, Some _ => false
  | Some x, Some y => x <=? y
  end.

Definition row_le {V} (a b : row stamp V) : Prop :=
  stamp_le (timestamp a) (timestamp b) = true.

(** A frame in ascending order of its timestamp column. *)
Definition ascending {V} (df : DataFrame stamp V) : Prop :=
  StronglySorted row_le df.

(** The number in the cell fits a [float]. *)
Definition fits (j : json) : bool :=
  match j with
  | JNum (FFin q) => negb (too_large q)
  | _ => true
  end.

Definition fits_entry (e : entry) : bool :=
  fits (entry_timestamp e) && fits (entry_value e).

(* ================================================================= *)
(** ** The libraries

    The operations [main.py] calls in requests, pandas and [str], and the
    laws they are known to obey.
    - [json_error] is what [response.json()] raises when the body is not
      JSON (which class it belongs to depends on the version of requests).
    - [pd_DataFrame] is [pd.DataFrame(records)]: when it returns, the frame
      has one row per dict, labelled 0, 1, 2, ...; it returns whenever
      every number in the dicts fits a [float].
    - [to_datetime_ms] is [pd.to_datetime(..., unit='ms')] on one cell: an
      integer count of milliseconds within the range of a 64-bit instant
      gives that instant; a boolean is refused.
    - [sort_values] is [df.sort_values('timestamp')]: an ascending
      arrangement of the rows, NaT last.  The default sorting kind does not
      promise the order of rows with equal timestamps, and no law does.
    - [to_numeric_coerce] is [pd.to_numeric(..., errors='coerce')] on one
      cell: [None] and a text without digits give NaN, an integer and a
      short text of digits give their number, an integer too large for a
      [float] raises [OverflowError].
    - [title_beyond_ascii] is [str.title] on a text that is not ASCII. *)

Class Library : Type := {
  json_error : exn;
  pd_DataFrame : list entry -> outcome (DataFrame json json);
  to_datetime_ms : json -> outcome stamp;
  sort_values : forall V : Type, DataFrame stamp V -> DataFrame stamp V;
  to_numeric_coerce : json -> outcome pyfloat;
  title_beyond_ascii : string -> string;

  pd_DataFrame_rows :
    forall records df,
      pd_DataFrame records = Ok df -> df = frame_from 0 records;
  pd_DataFrame_fits :
    forall records,
      forallb fits_entry records = true ->
      pd_DataFrame records = Ok (frame_from 0 records);
  to_datetime_ms_integer :
    forall z,
      - 2 ^ 63 < z * NS_PER_MS < 2 ^ 63 ->
      to_datetime_ms (number z) = Ok (Some (z * NS_PER_MS));
  to_datetime_ms_bool :
    forall b, exists e, to_datetime_ms (JBool b) = Raise e;
  sort_values_perm :
    forall V (df : DataFrame stamp V), Permutation (sort_values df) df;
  sort_values_ascending :
    forall V (df : DataFrame stamp V), ascending (sort_values df);
  to_numeric_null : to_numeric_coerce JNull = Ok FNaN;
  to_numeric_integer :
    forall z,
      Z.abs z <= 2 ^ 53 ->
      to_numeric_coerce (number z) = Ok (FFin (inject_Z z));
  to_numeric_overflow :
    forall z,
      2 ^ 1024 <= Z.abs z ->
      to_numeric_coerce (number z) = Raise OverflowError;
  to_numeric_decimal :
    forall s z,
      decimal s = Some z -> (String.length s <= 15)%nat ->
      to_numeric_coerce (JStr s) = Ok (FFin (inject_Z z));
  to_numeric_text :
    forall s,
      has_digit s = false -> names_infinity s = false ->
      to_numeric_coerce (JStr s) = Ok FNaN
}.
Arguments sort_values {Library} {V} df.

(* ================================================================= *)
(** ** The HTTP exchange *)

(** What [requests.get], [raise_for_status] and [response.json()] can give. *)
Inductive response : Type :=
| HttpOk (body : json)
| HttpStatusError (status : Z)
| ConnectionFailed
| BodyNotJson.

Definition fetch_json {lib : Library} (resp : response) : M json :=
  match resp with
  | HttpOk body => ret body
  | HttpStatusError _ => lift (Raise RequestException)
  | ConnectionFailed => lift (Raise RequestException)
  | BodyNotJson => lift (Raise json_error)
  end.

(* ================================================================= *)
(** ** pandas: the steps of the normalisation *)

(** pandas dispatches on the dtype of the column it is given: a column that
    already holds instants (numbers) is returned as it is. *)
Class ToDatetime (T : Type) : Type := to_datetime : T -> outcome stamp.
Class ToNumeric (V : Type) : Type := to_numeric : V -> outcome pyfloat.

#[export] Instance ToDatetime_json {lib : Library} : ToDatetime json :=
  to_datetime_ms.
#[export] Instance ToDatetime_stamp : ToDatetime stamp := fun t => Ok t.
#[export] Instance ToNumeric_json {lib : Library} : ToNumeric json :=
  to_numeric_coerce.
#[export] Instance ToNumeric_pyfloat : ToNumeric pyfloat := fun x => Ok x.

(** [df['timestamp'] = pd.to_datetime(df['timestamp'], unit='ms')]. *)
Definition convert_timestamp {T V} `{ToDatetime T} (df : DataFrame T V)
  : outcome (DataFrame stamp V) :=
  omap (fun r => obind (to_datetime (timestamp r))
                   (fun t => Ok (mkRow (index r) t (value r)))) df.

(** [pd.Timestamp.now().normalize() - pd.Timedelta(days=365)], for the
    wall clock reading [now] in nanoseconds. *)
Definition normalize_day (now : Z) : Z := now - now mod NS_PER_DAY.

Definition last_year (now : Z) : Z := normalize_day now - 365 * NS_PER_DAY.

(** [timestamp >= cutoff]; a comparison with NaT is false. *)
Definition stamp_ge (t : stamp) (cutoff : Z) : bool :=
  match t with
  | Some z => cutoff <=? z
  | None => false
  end.

(** [df[df['timestamp'] >= last_year]]. *)
Definition recent {V} (cutoff : Z) (df : DataFrame stamp V) : DataFrame stamp V :=
  filter (fun r => stamp_ge (timestamp r) cutoff) df.

(** [df['value'] = pd.to_numeric(df['value'], errors='coerce')]: the
    conversion of a cell may raise, and then the whole call does. *)
Definition convert_value {T V} `{ToNumeric V} (df : DataFrame T V)
  : outcome (DataFrame T pyfloat) :=
  omap (fun r => obind (to_numeric (value r))
                   (fun x => Ok (mkRow (index r) (timestamp r) x))) df.

(** [df.dropna(subset=['value'])]. *)
Definition dropna {T} (df : DataFrame T pyfloat) : DataFrame T pyfloat :=
  filter (fun r => negb (isna (value r))) df.

Definition empty {A} (l : list A) : bool :=
  match l with [] => true | _ :: _ => false end.

(** The normalisation of [get_fear_greed_data], from the conversion of the
    timestamps to the removal of the rows without a number. *)
Definition normalize {lib : Library} {T V} `{ToDatetime T} `{ToNumeric V}
  (now : Z) (df : DataFrame T V) : outcome Frame :=
  obind (convert_timestamp df) (fun df =>
  let df := sort_values df in
  let last_year := last_year now in
  let df := recent last_year df in
  obind (convert_value df) (fun df =>
  let df := dropna df in
  Ok df)).

(* ================================================================= *)
(** ** get_fear_greed_data *)

Definition HISTORICAL : string := "fear_and_greed_historical".

(** [isinstance(item, dict) and 'x' in item and 'y' in item], with the
    dict that is appended when it holds. *)
Definition item_entry (item : json) : option entry :=
  match item with
  | JObj fields =>
      match dict_get "x" fields, dict_get "y" fields with
      | Some x, Some y => Some (mkEntry x y)
      | _, _ => None
      end
  | _ => None
  end.

Fixpoint time_series_data (items : list json) : M (list entry) :=
  match items with
  | [] => ret []
  | item :: rest =>
      match item_entry item with
      | Some e =>
          es <- time_series_data rest ;; ret (e :: es)
      | None =>
          logger WARNING (SkippedItem HISTORICAL item) ;;;
          time_series_data rest
      end
  end.

(** [not isinstance(d, dict) or 'data' not in d]. *)
Definition lacks_data (d : json) : bool :=
  match d with
  | JObj fields => negb (dict_has "data" fields)
  | _ => true
  end.

Definition get_fear_greed_data {lib : Library} (resp : response) (now : Z)
  : M (option Frame) :=
  try_except
    (data <- fetch_json resp ;;
     present <- lift (py_in HISTORICAL data) ;;
     if negb present then
       logger ERROR (MissingKey HISTORICAL) ;;; ret None
     else
     historical_data_dict <- lift (py_getitem data HISTORICAL) ;;
     logger INFO (DictType historical_data_dict) ;;;
     logger INFO (DictContent historical_data_dict) ;;;
     if lacks_data historical_data_dict then
       logger ERROR (NotDictOrNoData HISTORICAL) ;;;
       logger INFO (ActualContent historical_data_dict) ;;; ret None
     else
     actual_historical_list <- lift (py_getitem historical_data_dict "data") ;;
     match actual_historical_list with
     | JArr [] =>
         logger ERROR (EmptyList HISTORICAL) ;;; ret None
     | JArr ((first :: _) as items) =>
         logger INFO (ListLength HISTORICAL (length items)) ;;;
         logger INFO (FirstItem first) ;;;
         records <- time_series_data items ;;
         logger INFO (ExtractedLength (length records)) ;;;
         if empty records then
           logger ERROR (NoPoints HISTORICAL) ;;; ret None
         else
         df <- lift (pd_DataFrame records) ;;
         df <- lift (normalize now df) ;;
         if empty df then
           logger ERROR (EmptyAfterProcessing HISTORICAL) ;;; ret None
         else
         logger INFO (Processed HISTORICAL (length df)) ;;; ret (Some df)
     | other =>
         logger ERROR (DataNotList HISTORICAL) ;;;
         logger INFO (DataType other) ;;; ret None
     end)
    (fun e =>
       match e with
       | RequestException =>
           logger ERROR (RequestFailed HISTORICAL) ;;; ret None
       | JSONDecodeError =>
           logger ERROR (DecodeFailed HISTORICAL) ;;; ret None
       | _ =>
           logger ERROR (Unexpected HISTORICAL e) ;;; ret None
       end).

(* ================================================================= *)
(** ** get_component_data *)

Fixpoint component_time_series_data (component_key : string)
  (items : list json) : M (list entry) :=
  match items with
  | [] => ret []
  | item :: rest =>
      match item with
      | JObj fields =>
          if dict_has "x" fields && dict_has "y" fields then
            x <- lift (py_getitem item "x") ;;
            y <- lift (py_getitem item "y") ;;
            es <- component_time_series_data component_key rest ;;
            ret (mkEntry x y :: es)
          else
            logger WARNING (SkippedItem component_key item) ;;;
            component_time_series_data component_key rest
      | _ =>
          logger WARNING (SkippedItem component_key item) ;;;
          component_time_series_data component_key rest
      end
  end.

Definition get_component_data {lib : Library} (component_key : string)
  (resp : response) (now : Z) : M (option Frame) :=
  try_except
    (data <- fetch_json resp ;;
     present <- lift (py_in component_key data) ;;
     if negb present then
       logger ERROR (MissingKey component_key) ;;; ret None
     else
     component_data_dict <- lift (py_getitem data component_key) ;;
     if lacks_data component_data_dict then
       logger ERROR (NotDictOrNoData component_key) ;;;
       logger INFO (ActualContent component_data_dict) ;;; ret None
     else
     actual_component_list <- lift (py_getitem component_data_dict "data") ;;
     if negb (is_list actual_component_list) then
       logger ERROR (DataNotList component_key) ;;;
       logger INFO (DataType actual_component_list) ;;; ret None
     else
     let items :=
       match actual_component_list with JArr items => items | _ => [] end in
     if empty items then
       logger ERROR (EmptyList component_key) ;;; ret None
     else
     logger INFO (ListLength component_key (length items)) ;;;
     records <- component_time_series_data component_key items ;;
     if empty records then
       logger ERROR (NoPoints component_key) ;;; ret None
     else
     df <- lift (pd_DataFrame records) ;;
     df <- lift (convert_timestamp df) ;;
     let df := sort_values df in
     let last_year := last_year now in
     let df := recent last_year df in
     df <- lift (convert_value df) ;;
     let df := dropna df in
     if empty df then
       logger ERROR (EmptyAfterProcessing component_key) ;;; ret None
     else
     logger INFO (Processed component_key (length df)) ;;; ret (Some df))
    (fun e =>
       match e with
       | RequestException =>
           logger ERROR (RequestFailed component_key) ;;; ret None
       | JSONDecodeError =>
           logger ERROR (DecodeFailed component_key) ;;; ret None
       | _ =>
           logger ERROR (Unexpected component_key e) ;;; ret None
       end).

(* ================================================================= *)
(** ** get_current_fear_greed and the caption *)

Definition CURRENT : string := "fear_and_greed".

(** Returns the pair [(score, rating)], or [(None, None)]. *)
Definition get_current_fear_greed {lib : Library} (resp : response)
  : M (json * json) :=
  try_except
    (data <- fetch_json resp ;;
     present <- lift (py_in CURRENT data) ;;
     if negb present then
       logger ERROR (MissingKey CURRENT) ;;; ret (JNull, JNull)
     else
     current_data <- lift (py_getitem data CURRENT) ;;
     score <- lift (py_get current_data "score") ;;
     rating <- lift (py_get current_data "rating") ;;
     if is_none score || is_none rating then
       logger ERROR CurrentMissingField ;;; ret (JNull, JNull)
     else
     logger INFO (CurrentRead score rating) ;;; ret (score, rating))
    (fun e =>
       match e with
       | RequestException =>
           logger ERROR (RequestFailed CURRENT) ;;; ret (JNull, JNull)
       | JSONDecodeError =>
           logger ERROR (DecodeFailed CURRENT) ;;; ret (JNull, JNull)
       | _ =>
           logger ERROR (Unexpected CURRENT e) ;;; ret (JNull, JNull)
       end).

(** [s.title()]. *)
Definition str_title {lib : Library} (s : string) : string :=
  if is_ascii s then title_from false s else title_beyond_ascii s.

(** [current_rating.replace('_', ' ').title()]. *)
Definition formatted_rating {lib : Library} (current_rating : string)
  : string :=
  str_title (str_replace "_" " " current_rating).

(* ================================================================= *)
(** ** The handlers that deliver the overall chart

    A handler runs against the working directory and the chat.  What the
    outside world answers is fixed by an [env]: the two HTTP answers, the
    clock, whether matplotlib manages to save the figure, and which of the
    calls to the chat succeed. *)

Inductive tail : Type := NoHistory | ChartFollows | NoChart.

Inductive text : Type :=
| Processing
| NoCurrentData
| Caption (scheduled : bool) (score : pyfloat) (rating : string) (t : tail)
| Failed.

Inductive sent : Type :=
| Message (t : text)
| Photo (path : string).

Record world : Type := mkWorld {
  files : list string;
  calls : nat;
  outbox : list sent
}.

Record env : Type := mkEnv {
  chat_id_set : bool;
  current_response : response;
  history_response : response;
  now : Z;
  render_ok : bool;
  telegram_ok : nat -> bool
}.

Definition H (A : Type) : Type := world -> outcome A * world.

Definition hret {A} (a : A) : H A := fun w => (Ok a, w).

Definition hbind {A B} (m : H A) (f : A -> H B) : H B :=
  fun w => match m w with
           | (Ok a, w') => f a w'
           | (Raise e, w') => (Raise e, w')
           end.

Definition hlift {A} (o : outcome A) : H A := fun w => (o, w).

Definition htry {A} (body : H A) (handler : exn -> H A) : H A :=
  fun w => match body w with
           | (Ok a, w') => (Ok a, w')
           | (Raise e, w') => handler e w'
           end.

(** [try: body  finally: cleanup]. *)
Definition hfinally {A} (body : H A) (cleanup : H unit) : H A :=
  fun w => match body w with
           | (r, w') =>
               match cleanup w' with
               | (Ok _, w'') => (r, w'')
               | (Raise e, w'') => (Raise e, w'')
               end
           end.

Declare Scope io_scope.
Delimit Scope io_scope with io.
Notation "x <- m ;; k" := (hbind m (fun x => k))
  (at level 61, m at next level, right associativity) : io_scope.
Notation "m ;;; k" := (hbind m (fun _ => k))
  (at level 61, right associativity) : io_scope.

Definition exists_file (path : string) (w : world) : bool :=
  existsb (String.eqb path) (files w).

(** A call to the chat ([reply_text], [edit_text], [send_message],
    [reply_photo], [send_photo]): it is counted, and it either goes out or
    raises. *)
Definition telegram (e : env) (m : sent) : H unit :=
  fun w =>
    if telegram_ok e (calls w) then
      (Ok tt, mkWorld (files w) (S (calls w)) (outbox w ++ [m]))
    else (Raise TelegramError, mkWorld (files w) (S (calls w)) (outbox w)).

(** [plt.savefig(filename)]. *)
Definition savefig (filename : string) : H unit :=
  fun w =>
    (Ok tt,
     mkWorld (if exists_file filename w then files w else filename :: files w)
             (calls w) (outbox w)).

(** [open(path, 'rb')]. *)
Definition open_rb (path : string) : H unit :=
  fun w => if exists_file path w then (Ok tt, w) else (Raise OSError, w).

(** [os.path.exists(path)] and [os.remove(path)]. *)
Definition os_path_exists (path : string) : H bool :=
  fun w => (Ok (exists_file path w), w).

Definition os_remove (path : string) : H unit :=
  fun w =>
    if exists_file path w then
      (Ok tt,
       mkWorld (filter (fun f => negb (String.eqb path f)) (files w))
               (calls w) (outbox w))
    else (Raise OSError, w).

(** [create_fear_greed_chart(df, filename)] for a frame that is not [None]:
    every failure of the drawing is caught inside and gives [None]. *)
Definition create_fear_greed_chart (e : env) (df : Frame) (filename : string)
  : H (option string) :=
  if empty df then hret None
  else if render_ok e then (savefig filename ;;; hret (Some filename))%io
  else hret None.

(** [f"{current_score:.2f}"]: the number that is shown with two decimals.
    An [int] is converted to a [float] first, which raises when it is too
    large. *)
Definition format_score (score : json) : outcome pyfloat :=
  match score with
  | JNum (FFin q) => if too_large q then Raise OverflowError else Ok (FFin q)
  | JNum x => Ok x
  | JBool b => Ok (FFin (if b then 1 else 0)%Q)
  | JStr _ => Raise ValueError
  | JNull | JArr _ | JObj _ => Raise TypeError
  end.

Definition format_rating {lib : Library} (rating : json) : outcome string :=
  match rating with
  | JStr s => Ok (formatted_rating s)
  | _ => Raise AttributeError
  end.

Definition caption {lib : Library} (scheduled : bool) (score rating : json)
  (t : tail) : H text :=
  (s <- hlift (format_score score) ;;
   r <- hlift (format_rating rating) ;;
   hret (Caption scheduled s r t))%io.

Definition current_pair (m : M (json * json)) : json * json :=
  match fst m with
  | Ok p => p
  | Raise _ => (JNull, JNull)
  end.

(** The [/feargreed] command. *)
Definition feargreed {lib : Library} (e : env) : H unit :=
  (telegram e (Message Processing) ;;;
   htry
     (let (current_score, current_rating) :=
        current_pair (get_current_fear_greed (current_response e)) in
      if is_none current_score || is_none current_rating then
        telegram e (Message NoCurrentData)
      else
      match returned (get_fear_greed_data (history_response e) (now e)) with
      | None =>
          message <- caption false current_score current_rating NoHistory ;;
          telegram e (Message message)
      | Some df_historical =>
          let chart_filename := "fear_greed_chart.png" in
          chart_path <- create_fear_greed_chart e df_historical chart_filename ;;
          match chart_path with
          | Some chart_path =>
              message <- caption false current_score current_rating ChartFollows ;;
              telegram e (Message message) ;;;
              open_rb chart_path ;;;
              telegram e (Photo chart_path)
          | None =>
              message <- caption false current_score current_rating NoChart ;;
              telegram e (Message message)
          end
      end)
     (fun _ => htry (telegram e (Message Failed)) (fun _ => hret tt)))%io.

(** The daily job. *)
Definition scheduled_feargreed {lib : Library} (e : env) : H unit :=
  if negb (chat_id_set e) then hret tt
  else
  (htry
     (let (current_score, current_rating) :=
        current_pair (get_current_fear_greed (current_response e)) in
      if is_none current_score || is_none current_rating then
        telegram e (Message NoCurrentData)
      else
      match returned (get_fear_greed_data (history_response e) (now e)) with
      | None =>
          message <- caption true current_score current_rating NoHistory ;;
          telegram e (Message message)
      | Some df_historical =>
          let chart_filename := "scheduled_fear_greed_chart.png" in
          chart_path <- create_fear_greed_chart e df_historical chart_filename ;;
          match chart_path with
          | Some chart_path =>
              message <- caption true current_score current_rating ChartFollows ;;
              telegram e (Message message) ;;;
              hfinally
                (open_rb chart_path ;;; telegram e (Photo chart_path))
                (present <- os_path_exists chart_path ;;
                 if present then os_remove chart_path else hret tt)
          | None =>
              message <- caption true current_score current_rating NoChart ;;
              telegram e (Message message)
          end
      end)
     (fun _ => htry (telegram e (Message Failed)) (fun _ => hret tt)))%io.

(* ================================================================= *)
(** ** The handlers that deliver the component charts

    [components] and [scheduled_components] keep three local variables,
    [media_group], [chart_files_to_delete] and [has_error], that the loop
    over [COMPONENTS_INFO] fills and that the [finally] block reads whatever
    happened in between.  They are part of the state of the handler, next
    to the working directory and the chat. *)

(** Key, title and colour of each component, in the order of the dict. *)
Definition COMPONENTS_INFO : list (string * (string * string)) :=
  [ ("market_momentum_sp500", ("Market Momentum (S&P 500)", "#1f77b4"));
    ("stock_price_strength", ("Stock Price Strength", "#2ca02c"));
    ("stock_price_breadth", ("Stock Price Breadth", "#d62728"));
    ("put_call_options", ("Put/Call Options", "#9467bd"));
    ("market_volatility_vix", ("Market Volatility (VIX)", "#8c564b"));
    ("junk_bond_demand", ("Junk Bond Demand", "#7f7f7f"));
    ("safe_haven_demand", ("Safe Haven Demand", "#bcbd22")) ].

Inductive notice : Type :=
| ComponentsProcessing
| ChartsFollow (scheduled : bool)
| PartialFailure
| NoChartAtAll (scheduled : bool)
| NoComponents (scheduled : bool)
| ComponentsFailed (scheduled : bool).

Inductive post : Type :=
| Notice (n : notice)
| Deleted
| MediaGroup (media : list string).

Record desk : Type := mkDesk {
  directory : world;
  posts : list post;
  media_group : list string;
  chart_files_to_delete : list string;
  has_error : bool
}.

(** What the outside world answers to a component handler: the chat and
    the clock as for the overall chart, and for each component key the
    answer of the server and whether the figure can be saved. *)
Record component_env : Type := mkComponentEnv {
  base : env;
  component_response : string -> response;
  component_render_ok : string -> bool
}.

Definition D (A : Type) : Type := desk -> outcome A * desk.

Definition dret {A} (a : A) : D A := fun d => (Ok a, d).

Definition dbind {A B} (m : D A) (f : A -> D B) : D B :=
  fun d => match m d with
           | (Ok a, d') => f a d'
           | (Raise e, d') => (Raise e, d')
           end.

Definition dtry {A} (body : D A) (handler : exn -> D A) : D A :=
  fun d => match body d with
           | (Ok a, d') => (Ok a, d')
           | (Raise e, d') => handler e d'
           end.

Definition dfinally {A} (body : D A) (cleanup : D unit) : D A :=
  fun d => match body d with
           | (r, d') =>
               match cleanup d' with
               | (Ok _, d'') => (r, d'')
               | (Raise e, d'') => (Raise e, d'')
               end
           end.

Declare Scope desk_scope.
Delimit Scope desk_scope with desk.
Notation "x <- m ;; k" := (dbind m (fun x => k))
  (at level 61, m at next level, right associativity) : desk_scope.
Notation "m ;;; k" := (dbind m (fun _ => k))
  (at level 61, right associativity) : desk_scope.

(** An action on the working directory, run from a component handler. *)
Definition in_directory {A} (m : H A) : D A :=
  fun d =>
    let (r, w) := m (directory d) in
    (r, mkDesk w (posts d) (media_group d) (chart_files_to_delete d)
               (has_error d)).

(** A call to the chat from a component handler. *)
Definition post_call (e : env) (p : post) : D unit :=
  fun d =>
    let w := directory d in
    let w' := mkWorld (files w) (S (calls w)) (outbox w) in
    if telegram_ok e (calls w) then
      (Ok tt, mkDesk w' (posts d ++ [p]) (media_group d)
                     (chart_files_to_delete d) (has_error d))
    else
      (Raise TelegramError,
       mkDesk w' (posts d) (media_group d) (chart_files_to_delete d)
              (has_error d)).

(** [media_group = []], [chart_files_to_delete = []], [has_error = False]. *)
Definition init_locals : D unit :=
  fun d => (Ok tt, mkDesk (directory d) (posts d) [] [] false).

Definition append_media (path : string) : D unit :=
  fun d => (Ok tt, mkDesk (directory d) (posts d) (media_group d ++ [path])
                          (chart_files_to_delete d) (has_error d)).

Definition append_file_to_delete (path : string) : D unit :=
  fun d => (Ok tt, mkDesk (directory d) (posts d) (media_group d)
                          (chart_files_to_delete d ++ [path]) (has_error d)).

Definition set_has_error : D unit :=
  fun d => (Ok tt, mkDesk (directory d) (posts d) (media_group d)
                          (chart_files_to_delete d) true).

Definition read_locals : D (list string * list string * bool) :=
  fun d => (Ok (media_group d, chart_files_to_delete d, has_error d), d).

(** [create_component_chart(df, title, filename, color)] for a frame that
    is not [None]: every failure of the drawing is caught inside. *)
Definition create_component_chart (ok : bool) (df : Frame)
  (title filename color : string) : H (option string) :=
  if empty df then hret None
  else if ok then (savefig filename ;;; hret (Some filename))%io
  else hret None.

(** [media_group[i:i+10]] and [range(0, n, 10)]. *)
Definition slice {A} (l : list A) (i : nat) : list A := firstn 10 (skipn i l).

Definition range_by_10 (n : nat) : list nat :=
  map (fun k => 10 * k)%nat (seq 0 ((n + 9) / 10)).

(** The groups in which the media are sent. *)
Definition batches {A} (l : list A) : list (list A) :=
  map (slice l) (range_by_10 (length l)).

Fixpoint send_groups (e : env) (groups : list (list string)) : D unit :=
  match groups with
  | [] => dret tt
  | group :: rest =>
      (post_call e (MediaGroup group) ;;; send_groups e rest)%desk
  end.

(** The loop of [components] over the components. *)
Fixpoint gather_charts {lib : Library} (ce : component_env)
  (info : list (string * (string * string))) : D unit :=
  match info with
  | [] => dret tt
  | (key, (title, color)) :: rest =>
      ((match returned (get_component_data key (component_response ce key)
                          (now (base ce))) with
        | Some component_df =>
            let chart_filename := ("component_" ++ key ++ "_chart.png")%string in
            chart_path <-
              in_directory
                (create_component_chart (component_render_ok ce key)
                   component_df title chart_filename color) ;;
            match chart_path with
            | Some chart_path =>
                in_directory (open_rb chart_path) ;;;
                append_media chart_path ;;;
                append_file_to_delete chart_path
            | None => set_has_error
            end
        | None => set_has_error
        end) ;;;
       gather_charts ce rest)%desk
  end.

(** [for f in chart_files_to_delete: try: os.remove(f) except: log]. *)
Fixpoint remove_each (paths : list string) : D unit :=
  match paths with
  | [] => dret tt
  | f :: rest =>
      (dtry (in_directory (os_remove f)) (fun _ => dret tt) ;;;
       remove_each rest)%desk
  end.

(** The [/components] command. *)
Definition components {lib : Library} (ce : component_env) : D unit :=
  let e := base ce in
  (post_call e (Notice ComponentsProcessing) ;;;
   init_locals ;;;
   gather_charts ce COMPONENTS_INFO ;;;
   dfinally
     (dtry
        (locals <- read_locals ;;
         let '(media_group, _, has_error) := locals in
         if negb (empty media_group) then
           post_call e Deleted ;;;
           post_call e (Notice (ChartsFollow false)) ;;;
           send_groups e (batches media_group) ;;;
           if has_error then post_call e (Notice PartialFailure) else dret tt
         else if has_error then post_call e (Notice (NoChartAtAll false))
         else post_call e (Notice (NoComponents false)))
        (fun _ =>
           dtry (post_call e (Notice (ComponentsFailed false)))
                (fun _ => dret tt)))
     (locals <- read_locals ;;
      let '(_, chart_files_to_delete, _) := locals in
      remove_each chart_files_to_delete))%desk.

(** The loop of [scheduled_components] over the components. *)
Fixpoint gather_scheduled_charts {lib : Library} (ce : component_env)
  (info : list (string * (string * string))) : D unit :=
  match info with
  | [] => dret tt
  | (key, (title, color)) :: rest =>
      ((match returned (get_component_data key (component_response ce key)
                          (now (base ce))) with
        | Some component_df =>
            let chart_filename :=
              ("scheduled_component_" ++ key ++ "_chart.png")%string in
            chart_path <-
              in_directory
                (create_component_chart (component_render_ok ce key)
                   component_df title chart_filename color) ;;
            match chart_path with
            | Some chart_path =>
                dtry
                  (in_directory (open_rb chart_path) ;;;
                   append_media chart_path ;;;
                   append_file_to_delete chart_path)
                  (fun _ =>
                     set_has_error ;;;
                     present <- in_directory (os_path_exists chart_path) ;;
                     if present then append_file_to_delete chart_path
                     else dret tt)
            | None => set_has_error
            end
        | None => set_has_error
        end) ;;;
       gather_scheduled_charts ce rest)%desk
  end.

(** [for f_path in chart_files_to_delete: if os.path.exists(f_path): try:
    os.remove(f_path) except: log]. *)
Fixpoint remove_each_existing (paths : list string) : D unit :=
  match paths with
  | [] => dret tt
  | f_path :: rest =>
      (present <- in_directory (os_path_exists f_path) ;;
       (if present then
          dtry (in_directory (os_remove f_path)) (fun _ => dret tt)
        else dret tt) ;;;
       remove_each_existing rest)%desk
  end.

(** The daily job for the components. *)
Definition scheduled_components {lib : Library} (ce : component_env)
  : D unit :=
  let e := base ce in
  if negb (chat_id_set e) then dret tt
  else
  (init_locals ;;;
   dfinally
     (dtry
        (gather_scheduled_charts ce COMPONENTS_INFO ;;;
         locals <- read_locals ;;
         let '(media_group, _, has_error) := locals in
         if negb (empty media_group) then
           post_call e (Notice (ChartsFollow true)) ;;;
           send_groups e (batches media_group) ;;;
           if has_error then post_call e (Notice PartialFailure) else dret tt
         else if has_error then post_call e (Notice (NoChartAtAll true))
         else post_call e (Notice (NoComponents true)))
        (fun _ =>
           dtry (post_call e (Notice (ComponentsFailed true)))
                (fun _ => dret tt)))
     (locals <- read_locals ;;
      let '(_, chart_files_to_delete, _) := locals in
      remove_each_existing chart_files_to_delete))%desk.


(* ================================================================= *)
(** ** Notions used in the statements *)

(** The dicts the loop of [time_series_data] appends: one for each item
    that is a dict with both fields, in the order of the items. *)
Fixpoint entries (items : list json) : list entry :=
  match items with
  | [] => []
  | item :: rest =>
      match item_entry item with
      | Some e => e :: entries rest
      | None => entries rest
      end
  end.

(** The value a series function hands back, without its log: the frame
    of the points under [key], or [None]. *)
Definition series_result {lib : Library} (key : string) (resp : response)
  (now : Z) : option Frame :=
  match resp with
  | HttpOk data =>
      match py_in key data, py_getitem data key with
      | Ok true, Ok d =>
          if lacks_data d then None
          else
            match py_getitem d "data" with
            | Ok (JArr items) =>
                if empty (entries items) then None
                else
                  match obind (pd_DataFrame (entries items)) (normalize now) with
                  | Ok df => if empty df then None else Some df
                  | Raise _ => None
                  end
            | _ => None
            end
      | _, _ => None
      end
  | _ => None
  end.

(** The row holds an instant between [lo] and [hi]. *)
Definition within (lo hi : Z) {V} (r : row stamp V) : Prop :=
  exists z, timestamp r = Some z /\ lo <= z <= hi.

(** The row holds an instant at or after [lo]. *)
Definition not_before (lo : Z) {V} (r : row stamp V) : Prop :=
  exists z, timestamp r = Some z /\ lo <= z.

(** The row [c] is the row [raw] with its timestamp converted. *)
Definition timestamp_converted {lib : Library} {V}
  (raw : row json V) (c : row stamp V) : Prop :=
  to_datetime_ms (timestamp raw) = Ok (timestamp c) /\
  index c = index raw /\ value c = value raw.

(** The row [c] is the row [r] with its value coerced. *)
Definition value_coerced {lib : Library} {T}
  (r : row T json) (c : row T pyfloat) : Prop :=
  to_numeric_coerce (value r) = Ok (value c) /\
  index c = index r /\ timestamp c = timestamp r.

(** A stable sort by insertion: rows of equal instants stay in their order
    of arrival. *)
Fixpoint insert_row {V} (r : row stamp V) (df : DataFrame stamp V)
  : DataFrame stamp V :=
  match df with
  | [] => [r]
  | r' :: df' =>
      if stamp_le (timestamp r) (timestamp r') then r :: df
      else r' :: insert_row r df'
  end.

Fixpoint stable_sort {V} (df : DataFrame stamp V) : DataFrame stamp V :=
  match df with
  | [] => []
  | r :: df' => insert_row r (stable_sort df')
  end.

(** What is left of one row once its value is coerced: the row with its
    number, or nothing when the coercion fails or gives no number. *)
Definition coerce_row {lib : Library} {T} (r : row T json)
  : list (row T pyfloat) :=
  match to_numeric_coerce (value r) with
  | Ok x => if isna x then [] else [mkRow (index r) (timestamp r) x]
  | Raise _ => []
  end.

(** Coercion as the specification words it: a point whose coercion fails
    is dropped, the others stay in order. *)
Definition coerce_or_drop {lib : Library} {T} (df : DataFrame T json)
  : DataFrame T pyfloat :=
  flat_map coerce_row df.

(** What is left of one row after the window and the coercion. *)
Definition kept_row {lib : Library} (cutoff : Z) (r : row stamp json)
  : list (row stamp pyfloat) :=
  if stamp_ge (timestamp r) cutoff then coerce_row r else [].

(** The steps in the words and in the order of the specification:
    conversion of the timestamps, stable ascending sort, coercion of the
    values with removal of the points that fail, window. *)
Definition normalize_as_specified {lib : Library} (now : Z)
  (df : DataFrame json json) : outcome Frame :=
  obind (convert_timestamp df) (fun converted =>
  let sorted := stable_sort converted in
  let coerced := coerce_or_drop sorted in
  Ok (recent (last_year now) coerced)).

(** Sample documents. *)
Definition point (x : Z) (y : json) : json :=
  JObj [("x", number x); ("y", y)].

Definition historical_document (items : list json) : json :=
  JObj [(HISTORICAL, JObj [("data", JArr items)])].

Definition scenario_items : list json :=
  [ point 1700000000000 (JStr "50");
    point 1700050000000 (number 60);
    point 1700100000000 JNull ].

(** 2023-11-17 05:46:40, some hours after the last point of the scenario. *)
Definition scenario_now : Z := 1700200000000 * NS_PER_MS.

Definition scenario_frame : Frame :=
  [ mkRow 0%nat (Some (1700000000000 * NS_PER_MS)) (FFin (50 # 1));
    mkRow 1%nat (Some (1700050000000 * NS_PER_MS)) (FFin (60 # 1)) ].

(** A point dated more than a day after [scenario_now]. *)
Definition future_items : list json := [ point 1700300000000 (number 50) ].

(** A single point, in the window, whose value is null. *)
Definition null_items : list json := [ point 1700100000000 JNull ].

(** Two points of the window; the value of the first is an integer of 401
    digits, too large for a [float]. *)
Definition huge_items : list json :=
  [ point 1700000000000 (number (10 ^ 400));
    point 1700050000000 (number 60) ].

(** Seventeen points of one instant, with the values 1 to 17. *)
Definition ties_items : list json :=
  map (fun k => point 1700000000000 (number (Z.of_nat k))) (seq 1 17).

(** The statement of the window with both bounds. *)
Definition window_claim {lib : Library} (resp : response) (now : Z) : Prop :=
  forall df, returned (get_fear_greed_data resp now) = Some df ->
             ascending df /\ Forall (within (last_year now) now) df.

(** The statement that the series handed back is the composition of the
    steps in the words and the order of the specification. *)
Definition steps_claim {lib : Library} (items : list json) (now : Z) : Prop :=
  forall out,
    normalize_as_specified now (frame_from 0 (entries items)) = Ok out ->
    empty out = false ->
    returned (get_fear_greed_data (HttpOk (historical_document items)) now)
    = Some out.

(** The statement that an empty series is handed back as it is. *)
Definition empty_series_claim {lib : Library} (items : list json) (now : Z)
  : Prop :=
  normalize now (frame_from 0 (entries items)) = Ok [] ->
  returned (get_fear_greed_data (HttpOk (historical_document items)) now)
  = Some [].

(** The statement that normalising a normalised series changes nothing. *)
Definition idempotence_claim {lib : Library} (now : Z)
  (df : DataFrame json json) : Prop :=
  forall out, normalize now df = Ok out -> normalize now out = Ok out.

(** The statement that the two failures of the extraction can be told
    apart by what is returned. *)
Definition distinct_failures_claim {lib : Library}
  (empty_doc missing_doc : json) (now : Z) : Prop :=
  returned (get_fear_greed_data (HttpOk empty_doc) now) <>
  returned (get_fear_greed_data (HttpOk missing_doc) now).

(** The statement that a point of the window whose value is a number is
    kept, whatever the values of the other points. *)
Definition numeric_points_kept_claim {lib : Library} (items : list json)
  (now : Z) : Prop :=
  forall i x y,
    nth_error items i = Some (point x (number y)) ->
    Z.abs y <= 2 ^ 53 ->
    last_year now <= x * NS_PER_MS ->
    exists df,
      returned (get_fear_greed_data (HttpOk (historical_document items)) now)
      = Some df /\
      In (mkRow i (Some (x * NS_PER_MS)) (FFin (inject_Z y))) df.

(** A document without the historical series. *)
Definition current_document : json :=
  JObj [(CURRENT, JObj [("score", JNum (FFin (85 # 2)));
                        ("rating", JStr "fear")])].

(** [isinstance(item, dict) and 'x' in item and 'y' in item]. *)
Definition well_formed (item : json) : bool :=
  match item with
  | JObj fields => dict_has "x" fields && dict_has "y" fields
  | _ => false
  end.

(** The dict made from an item: its two fields, read by subscript. *)
Definition made_from (item : json) (e : entry) : Prop :=
  py_getitem item "x" = Ok (entry_timestamp e) /\
  py_getitem item "y" = Ok (entry_value e).

(** The character shown for [c] when [previous] stands before it in the
    rating: an underscore becomes a space, a letter is raised at the start
    of a word and lowered inside it. *)
Definition titled_char (previous : option ascii) (c : ascii) : ascii :=
  let c := if Ascii.eqb c "_" then " "%char else c in
  match previous with
  | Some p => if is_cased p then lower c else upper c
  | None => upper c
  end.

(** The line with which a failed exchange is reported. *)
Definition failure_event {lib : Library} (resp : response) (key : string)
  : event :=
  match resp with
  | BodyNotJson =>
      match json_error with
      | RequestException => RequestFailed key
      | JSONDecodeError => DecodeFailed key
      | e => Unexpected key e
      end
  | _ => RequestFailed key
  end.

(** An answer of the chat and of matplotlib in which everything works. *)
Definition delivery_env : env :=
  mkEnv true (HttpOk current_document)
        (HttpOk (historical_document scenario_items)) scenario_now
        true (fun _ => true).

(** The same, except that the first call to the chat raises. *)
Definition caption_fails_env : env :=
  mkEnv true (HttpOk current_document)
        (HttpOk (historical_document scenario_items)) scenario_now
        true (fun n => negb (Nat.eqb n 0)).

Definition empty_directory : world := mkWorld [] 0 [].

(** The computation removes no file from the working directory. *)
Definition keeps {A} (m : H A) : Prop :=
  forall w path, In path (files w) -> In path (files (snd (m w))).

(** An error line of the log. *)
Definition is_error (line : level * event) : bool :=
  match fst line with ERROR => true | _ => false end.

Definition logs_error (l : log) : bool := existsb is_error l.

(** The server answered with a document. *)
Definition answered (resp : response) : bool :=
  match resp with HttpOk _ => true | _ => false end.

(** The log of a loop over [items] that skips the malformed ones. *)
Definition skipped (key : string) (items : list json) : log :=
  map (fun item => (WARNING, SkippedItem key item))
      (filter (fun item => negb (well_formed item)) items).

(** A document that holds one component series. *)
Definition component_document (key : string) (items : list json) : json :=
  JObj [(key, JObj [("data", JArr items)])].

(** The computation leaves the working directory as it is. *)
Definition untouched {A} (m : H A) : Prop :=
  forall w, files (snd (m w)) = files w.

(** The computation creates no file other than [name]. *)
Definition writes_only (name : string) {A} (m : H A) : Prop :=
  forall w path,
    In path (files (snd (m w))) -> In path (files w) \/ path = name.

(** The name of the chart file of a component. *)
Definition chart_name (scheduled : bool) (key : string) : string :=
  ((if scheduled then "scheduled_component_" else "component_")
     ++ key ++ "_chart.png")%string.

(** The component has data and its figure can be saved. *)
Definition drawn {lib : Library} (ce : component_env) (key : string) : bool :=
  match returned (get_component_data key (component_response ce key)
                    (now (base ce))) with
  | Some _ => component_render_ok ce key
  | None => false
  end.

(** The chart files of the components that are drawn, in order. *)
Definition drawn_charts {lib : Library} (ce : component_env)
  (scheduled : bool) (info : list (string * (string * string)))
  : list string :=
  map (fun i => chart_name scheduled (fst i))
      (filter (fun i => drawn ce (fst i)) info).

(** Some component is not drawn. *)
Definition some_missing {lib : Library} (ce : component_env)
  (info : list (string * (string * string))) : bool :=
  existsb (fun i => negb (drawn ce (fst i))) info.

(** The files of a directory other than [names]. *)
Definition without (names : list string) (fs : list string) : list string :=
  filter (fun f => negb (existsb (String.eqb f) names)) fs.

(** A server that has data for two of the components only. *)
Definition two_components_env : component_env :=
  mkComponentEnv delivery_env
    (fun key =>
       if String.eqb key "junk_bond_demand"
          || String.eqb key "market_volatility_vix"
       then HttpOk (component_document key scenario_items)
       else HttpOk current_document)
    (fun _ => true).

Definition empty_desk : desk := mkDesk empty_directory [] [] [] false.

(** The computation changes neither the files of the working directory nor
    the local variables of the handler. *)
Definition quiet {A} (m : D A) : Prop :=
  forall d,
    files (directory (snd (m d))) = files (directory d) /\
    media_group (snd (m d)) = media_group d /\
    chart_files_to_delete (snd (m d)) = chart_files_to_delete d /\
    has_error (snd (m d)) = has_error d.

(** The computation returns normally after posting [ps], and is [quiet]. *)
Definition posting (ps : list post) (m : D unit) : Prop :=
  forall d,
    fst (m d) = Ok tt /\
    posts (snd (m d)) = posts d ++ ps /\
    files (directory (snd (m d))) = files (directory d) /\
    media_group (snd (m d)) = media_group d /\
    chart_files_to_delete (snd (m d)) = chart_files_to_delete d /\
    has_error (snd (m d)) = has_error d.

(* ================================================================= *)
(** ** Two libraries for the examples

    The examples of the last part are run on [Sample], a library within
    the laws: requests from version 2.27 on, a stable sort, and conversions
    that answer as the laws say on the cells the laws speak of.  What it
    answers on other cells is a placeholder and is relied on nowhere.
    [Reordering] differs from it in the sort only: rows of equal instants
    come out in the reverse of their order of arrival, which the contract
    of [sort_values] allows as well. *)

Definition sample_to_datetime (j : json) : outcome stamp :=
  match j with
  | JNull => Ok None
  | JNum (FFin q) =>
      if (Z.pos (Qden q) =? 1)
         && (- 2 ^ 63 <? Qnum q * NS_PER_MS)
         && (Qnum q * NS_PER_MS <? 2 ^ 63)
      then Ok (Some (Qnum q * NS_PER_MS))
      else Raise OutOfBoundsDatetime
  | _ => Raise ValueError
  end.

Definition sample_to_numeric (j : json) : outcome pyfloat :=
  match j with
  | JNum (FFin q) => if too_large q then Raise OverflowError else Ok (FFin q)
  | JNum x => Ok x
  | JStr s =>
      match decimal s with
      | Some z => Ok (FFin (inject_Z z))
      | None => Ok FNaN
      end
  | JBool b => Ok (FFin (if b then 1 else 0)%Q)
  | JNull | JArr _ | JObj _ => Ok FNaN
  end.

Definition sample_DataFrame (records : list entry)
  : outcome (DataFrame json json) :=
  Ok (frame_from 0 records).

Definition reversing_sort {V} (df : DataFrame stamp V) : DataFrame stamp V :=
  stable_sort (rev df).

(** ** The two libraries are within the laws

    The order of instants and the stable sort come first, then the laws
    on the sample conversions. *)

Lemma stamp_le_trans a b c :
  stamp_le a b = true -> stamp_le b c = true -> stamp_le a c = true.
Proof.
  destruct a as [x|], b as [y|], c as [z|]; simpl; try congruence.
  rewrite !Z.leb_le. lia.
Qed.

Lemma stamp_le_total a b : stamp_le a b = false -> stamp_le b a = true.
Proof.
  destruct a as [x|], b as [y|]; simpl; try congruence.
  rewrite Z.leb_gt, Z.leb_le. lia.
Qed.

Lemma stamp_le_antisym a b :
  stamp_le a b = true -> stamp_le b a = true -> a = b.
Proof.
  destruct a as [x|], b as [y|]; simpl; try congruence.
  rewrite !Z.leb_le. intros. f_equal. lia.
Qed.

Section StableSort.
Context {V : Type}.
Implicit Types (r : row stamp V) (df : DataFrame stamp V).

Lemma insert_row_perm r df : Permutation (insert_row r df) (r :: df).
Proof.
  induction df as [|r' df IH]; simpl; [reflexivity|].
  destruct (stamp_le (timestamp r) (timestamp r')); [reflexivity|].
  rewrite IH. apply perm_swap.
Qed.

Lemma stable_sort_perm df : Permutation (stable_sort df) df.
Proof.
  induction df as [|r df IH]; simpl; [constructor|].
  rewrite insert_row_perm. now constructor.
Qed.

Lemma insert_row_ascending r df : ascending df -> ascending (insert_row r df).
Proof.
  unfold ascending.
  induction df as [|r' df IH]; simpl; intros Hs.
  - repeat constructor.
  - destruct (stamp_le (timestamp r) (timestamp r')) eqn:E.
    + constructor; [assumption|].
      apply StronglySorted_inv in Hs as [_ Hall].
      constructor; [exact E|].
      eapply Forall_impl; [|exact Hall].
      intros a Ha. unfold row_le in *. eauto using stamp_le_trans.
    + apply StronglySorted_inv in Hs as [Hs Hall].
      constructor; [auto|].
      eapply Permutation_Forall; [symmetry; apply insert_row_perm|].
      constructor; [|assumption].
      now apply stamp_le_total.
Qed.

Lemma stable_sort_ascending df : ascending (stable_sort df).
Proof.
  induction df as [|r df IH]; simpl; [constructor|].
  now apply insert_row_ascending.
Qed.
End StableSort.

Lemma too_large_integer z :
  too_large (inject_Z z) = (FLOAT_LIMIT <=? Z.abs z).
Proof.
  unfold too_large, Qle_bool, inject_Z, Qabs. cbn [Qnum Qden].
  now rewrite !Z.mul_1_r.
Qed.

Lemma sample_DataFrame_rows records df :
  sample_DataFrame records = Ok df -> df = frame_from 0 records.
Proof. now intros [= <-]. Qed.

Lemma sample_DataFrame_fits records :
  forallb fits_entry records = true ->
  sample_DataFrame records = Ok (frame_from 0 records).
Proof. reflexivity. Qed.

Lemma sample_to_datetime_integer z :
  - 2 ^ 63 < z * NS_PER_MS < 2 ^ 63 ->
  sample_to_datetime (number z) = Ok (Some (z * NS_PER_MS)).
Proof.
  intros [Hlo Hhi]. unfold sample_to_datetime, number, inject_Z.
  cbn [Qnum Qden].
  apply Z.ltb_lt in Hlo, Hhi. now rewrite Hlo, Hhi.
Qed.

Lemma sample_to_datetime_bool b :
  exists e, sample_to_datetime (JBool b) = Raise e.
Proof. now exists ValueError. Qed.

Lemma sample_to_numeric_integer z :
  Z.abs z <= 2 ^ 53 ->
  sample_to_numeric (number z) = Ok (FFin (inject_Z z)).
Proof.
  intros Hz. unfold sample_to_numeric, number.
  rewrite too_large_integer.
  assert (Hlim : 2 ^ 53 < FLOAT_LIMIT) by (vm_compute; reflexivity).
  destruct (FLOAT_LIMIT <=? Z.abs z) eqn:E; [|reflexivity].
  apply Z.leb_le in E. lia.
Qed.

Lemma sample_to_numeric_overflow z :
  2 ^ 1024 <= Z.abs z ->
  sample_to_numeric (number z) = Raise OverflowError.
Proof.
  intros Hz. unfold sample_to_numeric, number.
  rewrite too_large_integer.
  assert (Hlim : FLOAT_LIMIT < 2 ^ 1024) by (vm_compute; reflexivity).
  destruct (FLOAT_LIMIT <=? Z.abs z) eqn:E; [reflexivity|].
  apply Z.leb_gt in E. lia.
Qed.

Lemma sample_to_numeric_decimal s z :
  decimal s = Some z -> (String.length s <= 15)%nat ->
  sample_to_numeric (JStr s) = Ok (FFin (inject_Z z)).
Proof. intros Hs _. unfold sample_to_numeric. now rewrite Hs. Qed.

Lemma decimal_has_digit s : has_digit s = false -> decimal s = None.
Proof.
  destruct s as [|c s]; [reflexivity|].
  unfold has_digit. cbn [list_ascii_of_string existsb decimal digits_value].
  intros Hs. apply orb_false_iff in Hs as [Hc _]. now rewrite Hc.
Qed.

Lemma sample_to_numeric_text s :
  has_digit s = false -> names_infinity s = false ->
  sample_to_numeric (JStr s) = Ok FNaN.
Proof.
  intros Hs _. unfold sample_to_numeric. now rewrite (decimal_has_digit _ Hs).
Qed.

Lemma reversing_sort_perm V (df : DataFrame stamp V) :
  Permutation (reversing_sort df) df.
Proof.
  unfold reversing_sort. rewrite stable_sort_perm.
  symmetry. apply Permutation_rev.
Qed.

Lemma reversing_sort_ascending V (df : DataFrame stamp V) :
  ascending (reversing_sort df).
Proof. apply stable_sort_ascending. Qed.

Definition Sample : Library := {|
  json_error := RequestException;
  pd_DataFrame := sample_DataFrame;
  to_datetime_ms := sample_to_datetime;
  sort_values := @stable_sort;
  to_numeric_coerce := sample_to_numeric;
  title_beyond_ascii := fun s => s;
  pd_DataFrame_rows := sample_DataFrame_rows;
  pd_DataFrame_fits := sample_DataFrame_fits;
  to_datetime_ms_integer := sample_to_datetime_integer;
  to_datetime_ms_bool := sample_to_datetime_bool;
  sort_values_perm := @stable_sort_perm;
  sort_values_ascending := @stable_sort_ascending;
  to_numeric_null := eq_refl;
  to_numeric_integer := sample_to_numeric_integer;
  to_numeric_overflow := sample_to_numeric_overflow;
  to_numeric_decimal := sample_to_numeric_decimal;
  to_numeric_text := sample_to_numeric_text
|}.

Definition Reordering : Library := {|
  json_error := RequestException;
  pd_DataFrame := sample_DataFrame;
  to_datetime_ms := sample_to_datetime;
  sort_values := @reversing_sort;
  to_numeric_coerce := sample_to_numeric;
  title_beyond_ascii := fun s => s;
  pd_DataFrame_rows := sample_DataFrame_rows;
  pd_DataFrame_fits := sample_DataFrame_fits;
  to_datetime_ms_integer := sample_to_datetime_integer;
  to_datetime_ms_bool := sample_to_datetime_bool;
  sort_values_perm := reversing_sort_perm;
  sort_values_ascending := reversing_sort_ascending;
  to_numeric_null := eq_refl;
  to_numeric_integer := sample_to_numeric_integer;
  to_numeric_overflow := sample_to_numeric_overflow;
  to_numeric_decimal := sample_to_numeric_decimal;
  to_numeric_text := sample_to_numeric_text
|}.

(* ================================================================= *)
(** * Properties that hold for every library *)

Section Properties.
Context {lib : Library}.

Example last_year_sample :
  last_year scenario_now = 1668643200000 * NS_PER_MS.
Proof. reflexivity. Qed.

(** ** Rows *)

Lemma row_eta {T V} (r : row T V) : mkRow (index r) (timestamp r) (value r) = r.
Proof. now destruct r. Qed.

(** ** Frames in order *)

Lemma NoDup_map_eq {A B} (f : A -> B) (l : list A) x y :
  NoDup (map f l) -> In x l -> In y l -> f x = f y -> x = y.
Proof.
  induction l as [|a l IH]; simpl; intros Hnd Hx Hy Hxy; [contradiction|].
  inversion Hnd as [|? ? Hnin Hnd']; subst.
  destruct Hx as [->|Hx], Hy as [->|Hy]; auto.
  - exfalso. apply Hnin. rewrite Hxy. now apply in_map.
  - exfalso. apply Hnin. rewrite <- Hxy. now apply in_map.
Qed.

Section Sorting.
Context {V : Type}.
Implicit Types (r : row stamp V) (df : DataFrame stamp V).

Lemma ascending_filter (p : row stamp V -> bool) df :
  ascending df -> ascending (filter p df).
Proof.
  unfold ascending.
  induction df as [|r df IH]; simpl; intros Hs; [constructor|].
  apply StronglySorted_inv in Hs as [Hs Hall].
  destruct (p r); [|auto].
  constructor; [auto|].
  apply Forall_forall. intros a Ha. apply filter_In in Ha as [Ha _].
  rewrite Forall_forall in Hall. auto.
Qed.

(** Where no two rows share an instant, the ascending arrangement of a
    frame is unique: every sorting kind returns the same frame. *)
Lemma ascending_unique df df' :
  NoDup (map (@timestamp stamp V) df) ->
  Permutation df df' -> ascending df -> ascending df' -> df = df'.
Proof.
  unfold ascending. revert df'.
  induction df as [|a l1 IH]; intros l2 Hnd Hp Hs1 Hs2.
  - apply Permutation_nil in Hp. now subst.
  - destruct l2 as [|b l2].
    { symmetry in Hp. now apply Permutation_nil in Hp. }
    apply StronglySorted_inv in Hs1 as [Hs1 Ha].
    apply StronglySorted_inv in Hs2 as [Hs2 Hb].
    assert (Hab : a = b).
    { assert (Hina : In a (b :: l2))
        by (eapply Permutation_in; [exact Hp|now left]).
      assert (Hinb : In b (a :: l1))
        by (eapply Permutation_in; [symmetry; exact Hp|now left]).
      destruct Hina as [->|Hina]; [reflexivity|].
      destruct Hinb as [->|Hinb]; [reflexivity|].
      rewrite Forall_forall in Ha, Hb.
      apply (@NoDup_map_eq _ _ (@timestamp stamp V) (a :: l1));
        [assumption|now left|now right|].
      apply stamp_le_antisym; [apply Ha, Hinb|apply Hb, Hina]. }
    subst b. f_equal.
    apply IH; [now inversion Hnd|now apply Permutation_cons_inv in Hp|
               assumption..].
Qed.

(** On a frame in order whose instants are pairwise distinct the sort of
    the library changes nothing. *)
Lemma sort_values_distinct df :
  NoDup (map (@timestamp stamp V) df) -> ascending df -> sort_values df = df.
Proof.
  intros Hnd Hasc. symmetry. apply ascending_unique; try assumption.
  - symmetry. apply sort_values_perm.
  - apply sort_values_ascending.
Qed.
End Sorting.

(** The order of a frame is a matter of its timestamp column alone. *)
Lemma ascending_timestamps {V} (df : DataFrame stamp V) :
  ascending df <->
  StronglySorted (fun a b => stamp_le a b = true) (map (@timestamp stamp V) df).
Proof.
  unfold ascending. induction df as [|r df IH]; cbn [map].
  - split; constructor.
  - split; intros Hs; apply StronglySorted_inv in Hs as [Hs Hall];
      (constructor; [now apply IH|]).
    + apply Forall_map. exact Hall.
    + apply Forall_map in Hall. exact Hall.
Qed.

Lemma ascending_same_timestamps {V W} (d : DataFrame stamp V)
  (c : DataFrame stamp W) :
  map (@timestamp stamp W) c = map (@timestamp stamp V) d ->
  ascending d -> ascending c.
Proof.
  intros Heq Hd. apply ascending_timestamps. rewrite Heq.
  now apply ascending_timestamps.
Qed.

(** Replacing each row by at most one row of the same instant keeps the
    order. *)
Lemma ascending_flat_map {V W} (f : row stamp V -> list (row stamp W))
  (df : DataFrame stamp V) :
  (forall r c, In c (f r) -> timestamp c = timestamp r) ->
  (forall r, (length (f r) <= 1)%nat) ->
  ascending df -> ascending (flat_map f df).
Proof.
  intros Hts Hone. unfold ascending.
  induction 1 as [|r df Hs IH Hall]; cbn [flat_map]; [constructor|].
  pose proof (Hts r) as Hr. pose proof (Hone r) as Hlen.
  destruct (f r) as [|c [|c' rest]]; cbn [app length] in *; [assumption| |lia].
  constructor; [assumption|].
  apply Forall_forall. intros c2 Hc2.
  apply in_flat_map in Hc2 as (r2 & Hr2 & Hc2).
  rewrite Forall_forall in Hall. specialize (Hall r2 Hr2).
  unfold row_le in *. rewrite (Hr c (or_introl eq_refl)), (Hts r2 c2 Hc2).
  exact Hall.
Qed.

(** ** Lists of outcomes *)

Lemma omap_In {A B} (f : A -> outcome B) (l : list A) (l' : list B) :
  omap f l = Ok l' ->
  forall b, In b l' <-> exists a, In a l /\ f a = Ok b.
Proof.
  revert l'. induction l as [|a l IH]; cbn [omap]; intros l'.
  - intros [= <-] b. split; [intros []|intros (a & [] & _)].
  - destruct (f a) as [b0|] eqn:Ea; cbn [obind]; [|discriminate].
    destruct (omap f l) as [bs|]; cbn [obind]; [|discriminate].
    intros [= <-] b. specialize (IH bs eq_refl b). split.
    + intros [<-|Hin]; [exists a; split; [now left|assumption]|].
      apply IH in Hin as (a' & Ha' & Hf). exists a'. split; [now right|assumption].
    + intros (a' & [<-|Ha'] & Hf).
      * left. congruence.
      * right. apply IH. now exists a'.
Qed.

Lemma omap_raise {A B} (f : A -> outcome B) (l : list A) a e :
  In a l -> f a = Raise e -> exists e', omap f l = Raise e'.
Proof.
  induction l as [|a0 l IH]; cbn [omap]; intros Hin Hf; [contradiction|].
  destruct Hin as [->|Hin].
  - rewrite Hf. now exists e.
  - destruct (f a0) as [b0|e0]; cbn [obind]; [|now exists e0].
    destruct (IH Hin Hf) as (e' & ->). now exists e'.
Qed.

Lemma omap_map {A B C} (f : A -> outcome B) (g : A -> C) (h : B -> C)
  (l : list A) (l' : list B) :
  (forall a b, f a = Ok b -> h b = g a) ->
  omap f l = Ok l' -> map h l' = map g l.
Proof.
  intros Hfg. revert l'. induction l as [|a l IH]; cbn [omap]; intros l'.
  - now intros [= <-].
  - destruct (f a) as [b0|] eqn:Ea; cbn [obind]; [|discriminate].
    destruct (omap f l) as [bs|]; cbn [obind]; [|discriminate].
    intros [= <-]. cbn [map]. now rewrite (Hfg a b0 Ea), (IH bs eq_refl).
Qed.

Lemma omap_Forall2 {A B} (f : A -> outcome B) (l : list A) (l' : list B) :
  omap f l = Ok l' -> Forall2 (fun a b => f a = Ok b) l l'.
Proof.
  revert l'. induction l as [|a l IH]; cbn [omap]; intros l'.
  - intros [= <-]. constructor.
  - destruct (f a) as [b0|] eqn:Ea; cbn [obind]; [|discriminate].
    destruct (omap f l) as [bs|]; cbn [obind]; [|discriminate].
    intros [= <-]. constructor; [assumption|now apply IH].
Qed.

Lemma omap_total {A B} (f : A -> outcome B) (l : list A) :
  Forall (fun a => exists b, f a = Ok b) l -> exists l', omap f l = Ok l'.
Proof.
  induction 1 as [|a l (b & Hb) _ (l' & IH)]; cbn [omap].
  - now exists [].
  - rewrite Hb, IH. cbn [obind]. now exists (b :: l').
Qed.

Lemma omap_filter {A B} (f : A -> outcome B) (p : A -> bool) (q : B -> bool)
  (l : list A) (l' : list B) :
  (forall a b, f a = Ok b -> q b = p a) ->
  omap f l = Ok l' -> omap f (filter p l) = Ok (filter q l').
Proof.
  intros Hpq. revert l'. induction l as [|a l IH]; cbn [omap filter]; intros l'.
  - now intros [= <-].
  - destruct (f a) as [b0|] eqn:Ea; cbn [obind]; [|discriminate].
    destruct (omap f l) as [bs|]; cbn [obind]; [|discriminate].
    intros [= <-]. cbn [filter]. rewrite (Hpq a b0 Ea).
    specialize (IH bs eq_refl).
    destruct (p a); [|exact IH].
    cbn [omap]. now rewrite Ea, IH.
Qed.

(** ** The steps of the normalisation *)

Section Steps.
Context {T V : Type}.

Lemma convert_timestamp_stamp (df : DataFrame stamp V) :
  convert_timestamp df = Ok df.
Proof.
  unfold convert_timestamp, to_datetime, ToDatetime_stamp.
  induction df as [|r df IH]; simpl in *; [reflexivity|].
  rewrite IH. simpl. now rewrite row_eta.
Qed.

Lemma convert_value_pyfloat (df : DataFrame T pyfloat) :
  convert_value df = Ok df.
Proof.
  unfold convert_value, to_numeric, ToNumeric_pyfloat.
  induction df as [|r df IH]; simpl in *; [reflexivity|].
  rewrite IH. simpl. now rewrite row_eta.
Qed.

Lemma filter_all {A} (p : A -> bool) (l : list A) :
  Forall (fun a => p a = true) l -> filter p l = l.
Proof.
  induction 1 as [|a l Ha Hl IH]; simpl; [reflexivity|].
  now rewrite Ha, IH.
Qed.

Lemma Forall_filter_true {A} (p : A -> bool) (l : list A) :
  Forall (fun a => p a = true) (filter p l).
Proof. apply Forall_forall. intros a Ha. now apply filter_In in Ha. Qed.

Lemma filter_comm {A} (p q : A -> bool) (l : list A) :
  filter p (filter q l) = filter q (filter p l).
Proof.
  induction l as [|a l IH]; simpl; [reflexivity|].
  destruct (p a) eqn:Ep, (q a) eqn:Eq; simpl; rewrite ?Ep, ?Eq, IH; reflexivity.
Qed.

(** The coercion keeps the labels and the timestamps, row by row. *)
Lemma convert_value_timestamps `{ToNumeric V} (df : DataFrame T V)
  (c : DataFrame T pyfloat) :
  convert_value df = Ok c ->
  map (@timestamp T pyfloat) c = map (@timestamp T V) df /\
  map (@index T pyfloat) c = map (@index T V) df.
Proof.
  intros Hc. unfold convert_value in Hc. split.
  - refine (@omap_map _ _ _ _ (@timestamp T V) (@timestamp T pyfloat) _ _ _ Hc).
    intros a b. destruct (to_numeric (value a)); [|discriminate].
    now intros [= <-].
  - refine (@omap_map _ _ _ _ (@index T V) (@index T pyfloat) _ _ _ Hc).
    intros a b. destruct (to_numeric (value a)); [|discriminate].
    now intros [= <-].
Qed.

(** A selection on the timestamps can be made before or after a coercion
    that succeeds. *)
Lemma convert_value_filter `{ToNumeric V} (p : T -> bool)
  (df : DataFrame T V) (c : DataFrame T pyfloat) :
  convert_value df = Ok c ->
  convert_value (filter (fun r => p (timestamp r)) df)
  = Ok (filter (fun r => p (timestamp r)) c).
Proof.
  apply omap_filter. intros a b.
  destruct (to_numeric (value a)); [|discriminate]. now intros [= <-].
Qed.
End Steps.

(** What [normalize] has computed when it returns. *)
Lemma normalize_Ok {T V} `{ToDatetime T} `{ToNumeric V}
  (now : Z) (df : DataFrame T V) (out : Frame) :
  normalize now df = Ok out ->
  exists d c,
    convert_timestamp df = Ok d /\
    convert_value (recent (last_year now) (sort_values d)) = Ok c /\
    out = dropna c.
Proof.
  unfold normalize.
  destruct (convert_timestamp df) as [d|e]; cbn [obind]; [|discriminate].
  destruct (convert_value _) as [c|e] eqn:Ec; cbn [obind]; [|discriminate].
  intros [= <-]. now exists d, c.
Qed.

Lemma normalize_ascending {T V} `{ToDatetime T} `{ToNumeric V}
  (now : Z) (df : DataFrame T V) (out : Frame) :
  normalize now df = Ok out -> ascending out.
Proof.
  intros Hn. apply normalize_Ok in Hn as (d & c & _ & Hc & ->).
  apply ascending_filter.
  apply convert_value_timestamps in Hc as [Hts _].
  eapply ascending_same_timestamps; [exact Hts|].
  apply ascending_filter, sort_values_ascending.
Qed.

Lemma normalize_recent {T V} `{ToDatetime T} `{ToNumeric V}
  (now : Z) (df : DataFrame T V) (out : Frame) :
  normalize now df = Ok out ->
  Forall (fun r => stamp_ge (timestamp r) (last_year now) = true) out.
Proof.
  intros Hn. apply normalize_Ok in Hn as (d & c & _ & Hc & ->).
  apply Forall_forall. intros r Hr.
  apply filter_In in Hr as [Hr _].
  unfold convert_value in Hc.
  apply (omap_In _ _ Hc) in Hr as (r0 & Hr0 & Hf).
  destruct (to_numeric (value r0)); [|discriminate].
  injection Hf as <-. cbn [timestamp]. now apply filter_In in Hr0.
Qed.

Lemma normalize_notna {T V} `{ToDatetime T} `{ToNumeric V}
  (now : Z) (df : DataFrame T V) (out : Frame) :
  normalize now df = Ok out ->
  Forall (fun r => negb (isna (value r)) = true) out.
Proof.
  intros Hn. apply normalize_Ok in Hn as (d & c & _ & _ & ->).
  apply Forall_filter_true.
Qed.

(** The rows [normalize] returns, in terms of the rows it is given. *)
Lemma normalize_In {T V} `{ToDatetime T} `{ToNumeric V}
  (now : Z) (df : DataFrame T V) (out : Frame) :
  normalize now df = Ok out ->
  forall r, In r out <->
    exists raw t x,
      In raw df /\
      to_datetime (timestamp raw) = Ok t /\
      stamp_ge t (last_year now) = true /\
      to_numeric (value raw) = Ok x /\
      isna x = false /\
      r = mkRow (index raw) t x.
Proof.
  intros Hn r. apply normalize_Ok in Hn as (d & c & Hd & Hc & ->).
  unfold convert_timestamp in Hd. unfold convert_value in Hc.
  pose proof (omap_In _ _ Hd) as Hconv.
  pose proof (omap_In _ _ Hc) as Hcoer.
  unfold dropna, recent in *. rewrite filter_In, Hcoer. split.
  - intros ((r0 & Hr0 & Hx) & Hna).
    apply filter_In in Hr0 as [Hr0 Hge].
    apply (Permutation_in _ (sort_values_perm d)) in Hr0.
    apply Hconv in Hr0 as (raw & Hraw & Hf).
    destruct (to_datetime (timestamp raw)) as [t|] eqn:Et; [|discriminate].
    cbn [obind] in Hf. injection Hf as <-. cbn [timestamp index value] in *.
    destruct (to_numeric (value raw)) as [x|] eqn:Ex; [|discriminate].
    cbn [obind] in Hx. injection Hx as <-. cbn [value] in Hna.
    exists raw, t, x. repeat split; try assumption.
    now apply negb_true_iff.
  - intros (raw & t & x & Hraw & Et & Hge & Ex & Hna & ->).
    split; [|cbn [value]; now rewrite Hna].
    exists (mkRow (index raw) t (value raw)). split.
    + apply filter_In. split; [|exact Hge].
      apply (Permutation_in _ (Permutation_sym (sort_values_perm d))).
      apply Hconv. exists raw. split; [assumption|]. now rewrite Et.
    + cbn [value index timestamp]. now rewrite Ex.
Qed.

(** ** Results of the logging computations *)

Lemma fst_bind {A B} (m : M A) (f : A -> M B) :
  fst (bind m f) = obind (fst m) (fun a => fst (f a)).
Proof.
  destruct m as [[a|e] l]; simpl; [|reflexivity].
  now destruct (f a).
Qed.

Lemma fst_try_except {A} (body : M A) (handler : exn -> M A) :
  fst (try_except body handler) =
  match fst body with
  | Ok a => Ok a
  | Raise e => fst (handler e)
  end.
Proof.
  destruct body as [[a|e] l]; simpl; [reflexivity|].
  now destruct (handler e).
Qed.

Lemma fst_logger_then {B} lv ev (k : M B) :
  fst (bind (logger lv ev) (fun _ => k)) = fst k.
Proof. rewrite fst_bind. reflexivity. Qed.

Lemma fst_lift_bind {A B} (o : outcome A) (f : A -> M B) :
  fst (bind (lift o) f) = obind o (fun a => fst (f a)).
Proof. rewrite fst_bind. reflexivity. Qed.

Lemma time_series_data_entries items :
  fst (time_series_data items) = Ok (entries items).
Proof.
  induction items as [|item rest IH]; cbn [time_series_data entries];
    [reflexivity|].
  destruct (item_entry item) as [e|].
  - rewrite fst_bind, IH. reflexivity.
  - rewrite fst_logger_then. exact IH.
Qed.

Lemma component_time_series_data_entries key items :
  fst (component_time_series_data key items) = Ok (entries items).
Proof.
  induction items as [|item rest IH];
    cbn [component_time_series_data entries]; [reflexivity|].
  destruct item as [| | | | |fields]; cbn [item_entry];
    try (rewrite fst_logger_then; exact IH).
  unfold dict_has, py_getitem.
  destruct (dict_get "x" fields) as [x|]; cbn [andb];
    [|rewrite fst_logger_then; exact IH].
  destruct (dict_get "y" fields) as [y|];
    [|rewrite fst_logger_then; exact IH].
  do 2 (rewrite fst_lift_bind; cbn [obind]). rewrite fst_bind, IH. reflexivity.
Qed.

Ltac result_step :=
  first
    [ rewrite fst_logger_then
    | rewrite fst_lift_bind; cbn [obind]
    | rewrite fst_bind; cbn [obind] ].

Lemma returned_try_except {A} (body : M (option A)) handler :
  (forall e, fst (handler e) = Ok None) ->
  returned (try_except body handler) =
  match fst body with Ok r => r | Raise _ => None end.
Proof.
  intros Hh. unfold returned. rewrite fst_try_except.
  destruct (fst body); [reflexivity|]. now rewrite Hh.
Qed.

Lemma fst_fetch_json resp :
  fst (fetch_json resp) =
  match resp with
  | HttpOk data => Ok data
  | BodyNotJson => Raise json_error
  | _ => Raise RequestException
  end.
Proof. now destruct resp. Qed.

Lemma get_fear_greed_data_result resp now :
  returned (get_fear_greed_data resp now) = series_result HISTORICAL resp now.
Proof.
  unfold get_fear_greed_data.
  rewrite returned_try_except by (intros []; reflexivity).
  rewrite fst_bind, fst_fetch_json.
  destruct resp as [data| | |]; cbn [series_result obind]; try reflexivity.
  result_step.
  destruct (py_in HISTORICAL data) as [[|]|]; cbn [obind negb];
    [|now rewrite fst_logger_then|reflexivity].
  result_step.
  destruct (py_getitem data HISTORICAL) as [d|]; cbn [obind]; [|reflexivity].
  do 2 result_step.
  destruct (lacks_data d); [now do 2 result_step|].
  result_step.
  destruct (py_getitem d "data") as [[| | | |items|]|]; cbn [obind];
    try (now do 2 result_step); try reflexivity.
  destruct items as [|first items]; [now result_step|].
  do 2 result_step.
  rewrite fst_bind, time_series_data_entries. cbn [obind].
  result_step.
  destruct (empty (entries (first :: items))); [now result_step|].
  result_step.
  destruct (pd_DataFrame (entries (first :: items))) as [raw|];
    cbn [obind]; [|reflexivity].
  result_step.
  destruct (normalize now raw) as [df|]; cbn [obind]; [|reflexivity].
  destruct (empty df); now result_step.
Qed.

Lemma get_component_data_result key resp now :
  returned (get_component_data key resp now) = series_result key resp now.
Proof.
  unfold get_component_data.
  rewrite returned_try_except by (intros []; reflexivity).
  rewrite fst_bind, fst_fetch_json.
  destruct resp as [data| | |]; cbn [series_result obind]; try reflexivity.
  result_step.
  destruct (py_in key data) as [[|]|]; cbn [obind negb];
    [|now rewrite fst_logger_then|reflexivity].
  result_step.
  destruct (py_getitem data key) as [d|]; cbn [obind]; [|reflexivity].
  destruct (lacks_data d); [now do 2 result_step|].
  result_step.
  destruct (py_getitem d "data") as [[| | | |items|]|]; cbn [obind is_list negb];
    try (now do 2 result_step); try reflexivity.
  destruct (empty items) eqn:Ei.
  { destruct items; [|discriminate]. now result_step. }
  result_step.
  rewrite fst_bind, component_time_series_data_entries. cbn [obind].
  destruct (empty (entries items)); [now result_step|].
  result_step.
  destruct (pd_DataFrame (entries items)) as [raw|];
    cbn [obind]; [|reflexivity].
  unfold normalize.
  result_step.
  destruct (convert_timestamp raw) as [df|]; cbn [obind]; [|reflexivity].
  result_step.
  destruct (convert_value _) as [c|]; cbn [obind]; [|reflexivity].
  destruct (empty (dropna c)); now result_step.
Qed.

Lemma py_getitem_py_in obj key v :
  py_getitem obj key = Ok v -> py_in key obj = Ok true.
Proof.
  destruct obj as [| | | | |fields]; try discriminate.
  unfold py_getitem, py_in, dict_has.
  now destruct (dict_get key fields).
Qed.

Lemma py_getitem_has_data d v :
  py_getitem d "data" = Ok v -> lacks_data d = false.
Proof.
  destruct d as [| | | | |fields]; try discriminate.
  unfold py_getitem, lacks_data, dict_has.
  now destruct (dict_get "data" fields).
Qed.

(** For a document of the expected shape the result is decided by the
    normalisation of the extracted points. *)
Lemma series_result_shape key data d items now :
  py_getitem data key = Ok d ->
  py_getitem d "data" = Ok (JArr items) ->
  series_result key (HttpOk data) now =
  if empty (entries items) then None
  else match obind (pd_DataFrame (entries items)) (normalize now) with
       | Ok df => if empty df then None else Some df
       | Raise _ => None
       end.
Proof.
  intros Hd Hitems. unfold series_result.
  now rewrite (py_getitem_py_in _ _ Hd), Hd, (py_getitem_has_data _ Hitems),
    Hitems.
Qed.

(** A frame is returned only for a document of the expected shape. *)
Lemma series_result_inv key resp now df :
  series_result key resp now = Some df ->
  exists data d items,
    resp = HttpOk data /\
    py_getitem data key = Ok d /\
    py_getitem d "data" = Ok (JArr items) /\
    pd_DataFrame (entries items) = Ok (frame_from 0 (entries items)) /\
    normalize now (frame_from 0 (entries items)) = Ok df /\
    empty df = false.
Proof.
  unfold series_result.
  destruct resp as [data| | |]; try discriminate.
  destruct (py_in key data) as [[|]|]; try discriminate.
  destruct (py_getitem data key) as [d|] eqn:Ed; try discriminate.
  destruct (lacks_data d); try discriminate.
  destruct (py_getitem d "data") as [[| | | |items|]|] eqn:Ei;
    try discriminate.
  destruct (empty (entries items)); try discriminate.
  destruct (pd_DataFrame (entries items)) as [raw|] eqn:Er;
    cbn [obind]; try discriminate.
  pose proof (pd_DataFrame_rows _ Er) as ->.
  destruct (normalize now _) as [out|] eqn:En; try discriminate.
  destruct (empty out) eqn:Ee; try discriminate.
  intros [= <-]. now exists data, d, items.
Qed.

Lemma series_result_Some key resp now df :
  series_result key resp now = Some df ->
  exists items,
    normalize now (frame_from 0 (entries items)) = Ok df /\ empty df = false.
Proof.
  intros Hr.
  apply series_result_inv in Hr as (_ & _ & items & _ & _ & _ & _ & Hn & He).
  now exists items.
Qed.

Lemma stamp_ge_not_before {V} cutoff (r : row stamp V) :
  stamp_ge (timestamp r) cutoff = true -> not_before cutoff r.
Proof.
  unfold stamp_ge, not_before. destruct (timestamp r) as [z|]; [|discriminate].
  intros Hz. exists z. split; [reflexivity|]. now apply Z.leb_le.
Qed.

Lemma last_year_bounds now :
  now - 366 * NS_PER_DAY < last_year now <= now - 365 * NS_PER_DAY.
Proof.
  unfold last_year, normalize_day.
  assert (0 <= now mod NS_PER_DAY < NS_PER_DAY)
    by (apply Z.mod_pos_bound; reflexivity).
  lia.
Qed.

(** ** The window and the order of the series (C1) *)

(** C1 (as amended): whenever [get_fear_greed_data] returns a frame, the
    frame is in ascending order of its timestamps and every row holds an
    instant at or after the cutoff, which is the start of the day of [now]
    moved back 365 days; [now] is read once.  No upper bound is imposed. *)
Theorem get_fear_greed_data_window resp now df :
  returned (get_fear_greed_data resp now) = Some df ->
  ascending df /\
  Forall (not_before (last_year now)) df /\
  now - 366 * NS_PER_DAY < last_year now <= now - 365 * NS_PER_DAY.
Proof.
  rewrite get_fear_greed_data_result. intros Hr.
  apply series_result_Some in Hr as (items & Hn & _).
  split; [eapply (@normalize_ascending json json _ _); exact Hn|].
  split; [|apply last_year_bounds].
  eapply Forall_impl; [|eapply (@normalize_recent json json _ _); exact Hn].
  intros r. apply stamp_ge_not_before.
Qed.

(** ** The order of the steps (C2) *)

Lemma convert_timestamp_rows {V} (df : DataFrame json V)
  (d : DataFrame stamp V) :
  convert_timestamp df = Ok d -> Forall2 timestamp_converted df d.
Proof.
  intros Hd. apply omap_Forall2 in Hd.
  eapply Forall2_impl; [|exact Hd].
  intros raw c. cbn beta. unfold to_datetime, ToDatetime_json.
  destruct (to_datetime_ms (timestamp raw)) as [t|] eqn:Et; [|discriminate].
  intros [= <-]. now repeat split.
Qed.

Lemma convert_value_rows {T} (df : DataFrame T json)
  (c : DataFrame T pyfloat) :
  convert_value df = Ok c -> Forall2 value_coerced df c.
Proof.
  intros Hc. apply omap_Forall2 in Hc.
  eapply Forall2_impl; [|exact Hc].
  intros r k. cbn beta. unfold to_numeric, ToNumeric_json.
  destruct (to_numeric_coerce (value r)) as [x|] eqn:Ex; [|discriminate].
  intros [= <-]. now repeat split.
Qed.

(** When the coercion of a frame succeeds, dropping the rows without a
    number leaves what the specification words: each row that coerces to a
    number, in order. *)
Lemma dropna_convert_value {T} (df : DataFrame T json)
  (c : DataFrame T pyfloat) :
  convert_value df = Ok c -> dropna c = coerce_or_drop df.
Proof.
  unfold convert_value, coerce_or_drop, dropna. revert c.
  induction df as [|r df IH]; cbn [omap flat_map]; intros c.
  - now intros [= <-].
  - unfold coerce_row at 1. unfold to_numeric at 1, ToNumeric_json at 1.
    destruct (to_numeric_coerce (value r)) as [x|]; cbn [obind];
      [|discriminate].
    destruct (omap _ df) as [c'|]; cbn [obind]; [|discriminate].
    intros [= <-]. cbn [filter value]. rewrite (IH c' eq_refl).
    now destruct (isna x).
Qed.

(** The window and the coercion of the specification, in either order,
    are one pass over the rows. *)
Lemma coerce_or_drop_recent cutoff (df : DataFrame stamp json) :
  coerce_or_drop (recent cutoff df) = flat_map (kept_row cutoff) df.
Proof.
  unfold coerce_or_drop, recent, kept_row.
  induction df as [|r df IH]; cbn [filter flat_map]; [reflexivity|].
  destruct (stamp_ge (timestamp r) cutoff); cbn [flat_map app]; now rewrite IH.
Qed.

Lemma recent_coerce_or_drop cutoff (df : DataFrame stamp json) :
  recent cutoff (coerce_or_drop df) = flat_map (kept_row cutoff) df.
Proof.
  unfold coerce_or_drop, recent, kept_row.
  induction df as [|r df IH]; cbn [flat_map]; [reflexivity|].
  rewrite filter_app, IH. f_equal. unfold coerce_row.
  destruct (to_numeric_coerce (value r)) as [x|];
    [|now destruct (stamp_ge (timestamp r) cutoff)].
  destruct (isna x); cbn [filter timestamp];
    now destruct (stamp_ge (timestamp r) cutoff).
Qed.

Lemma kept_row_timestamp cutoff r c :
  In c (kept_row cutoff r) -> timestamp c = timestamp r.
Proof.
  unfold kept_row, coerce_row.
  destruct (stamp_ge (timestamp r) cutoff); [|intros []].
  destruct (to_numeric_coerce (value r)) as [x|]; [|intros []].
  destruct (isna x); [intros []|]. now intros [<-|[]].
Qed.

Lemma kept_row_length cutoff r : (length (kept_row cutoff r) <= 1)%nat.
Proof.
  unfold kept_row, coerce_row.
  destruct (stamp_ge (timestamp r) cutoff); [|cbn; lia].
  destruct (to_numeric_coerce (value r)) as [x|]; [|cbn; lia].
  destruct (isna x); cbn; lia.
Qed.


(** ** The loops over the items *)

Lemma item_entry_well_formed item :
  well_formed item = true -> exists e, item_entry item = Some e /\ made_from item e.
Proof.
  destruct item as [| | | | |fields]; simpl; try discriminate.
  unfold dict_has, made_from, py_getitem.
  destruct (dict_get "x" fields) as [x|]; [|discriminate].
  destruct (dict_get "y" fields) as [y|]; [|discriminate].
  intros _. now exists (mkEntry x y).
Qed.

Lemma item_entry_malformed item :
  well_formed item = false -> item_entry item = None.
Proof.
  destruct item as [| | | | |fields]; simpl; try reflexivity.
  unfold dict_has.
  destruct (dict_get "x" fields) as [x|]; [|reflexivity].
  destruct (dict_get "y" fields) as [y|]; [discriminate|reflexivity].
Qed.

Lemma well_formed_item_entry item :
  well_formed item = match item_entry item with Some _ => true | None => false end.
Proof.
  destruct item as [| | | | |fields]; simpl; try reflexivity.
  unfold dict_has.
  destruct (dict_get "x" fields); [|reflexivity].
  now destruct (dict_get "y" fields).
Qed.

(** The run of the loop of [get_fear_greed_data]. *)
Lemma time_series_data_run items :
  time_series_data items = (Ok (entries items), skipped HISTORICAL items).
Proof.
  unfold skipped.
  induction items as [|item rest IH];
    cbn [time_series_data entries filter map]; [reflexivity|].
  rewrite well_formed_item_entry.
  destruct (item_entry item) as [e|]; cbn [negb map]; rewrite IH;
    cbn [bind ret logger app lift]; rewrite ?app_nil_r; reflexivity.
Qed.

(** The run of the loop of [get_component_data]. *)
Lemma component_time_series_data_run key items :
  component_time_series_data key items = (Ok (entries items), skipped key items).
Proof.
  unfold skipped.
  induction items as [|item rest IH];
    cbn [component_time_series_data entries filter map]; [reflexivity|].
  destruct item as [| | | | |fields]; cbn [well_formed item_entry negb map];
    try (rewrite IH; reflexivity).
  unfold dict_has, py_getitem.
  destruct (dict_get "x" fields) as [x|]; cbn [andb negb map];
    [|rewrite IH; reflexivity].
  destruct (dict_get "y" fields) as [y|]; cbn [andb negb map];
    rewrite IH; cbn [bind ret logger app lift]; rewrite ?app_nil_r;
    reflexivity.
Qed.

(** ** The empty series (C3) *)

Lemma entries_not_empty items :
  empty (entries items) = false ->
  exists first rest, items = first :: rest.
Proof. destruct items as [|first rest]; [discriminate|eauto]. Qed.

(** C3 (as amended): for a document of the expected shape whose points are
    turned into the series [out], [get_fear_greed_data] returns [out] when
    it has at least one row; when [out] is empty it logs an error and
    returns [None].  So the function never hands back an empty series:
    whatever the response, a frame it returns has at least one row and is
    the normalisation of the points of that response. *)
Theorem get_fear_greed_data_not_empty (data d : json) (items : list json)
  (now : Z) (out : Frame) :
  py_getitem data HISTORICAL = Ok d ->
  py_getitem d "data" = Ok (JArr items) ->
  empty (entries items) = false ->
  obind (pd_DataFrame (entries items)) (normalize now) = Ok out ->
  get_fear_greed_data (HttpOk data) now
  = (Ok (if empty out then None else Some out),
     [(INFO, DictType d); (INFO, DictContent d);
      (INFO, ListLength HISTORICAL (length items));
      (INFO, FirstItem (hd JNull items))]
     ++ skipped HISTORICAL items
     ++ [(INFO, ExtractedLength (length (entries items)));
         if empty out then (ERROR, EmptyAfterProcessing HISTORICAL)
         else (INFO, Processed HISTORICAL (length out))]) /\
  (forall resp df,
      returned (get_fear_greed_data resp now) = Some df ->
      empty df = false /\
      exists data' d' items',
        resp = HttpOk data' /\
        py_getitem data' HISTORICAL = Ok d' /\
        py_getitem d' "data" = Ok (JArr items') /\
        normalize now (frame_from 0 (entries items')) = Ok df).
Proof.
  intros Hd Hi He Hout. split.
  - destruct (entries_not_empty _ He) as (first & rest & ->).
    unfold get_fear_greed_data. cbn [fetch_json ret bind].
    rewrite (py_getitem_py_in _ _ Hd). cbn [lift bind negb].
    rewrite Hd. cbn [lift bind logger].
    rewrite (py_getitem_has_data _ Hi), Hi.
    cbn [lift bind logger].
    rewrite time_series_data_run. cbn [bind logger].
    rewrite He.
    destruct (pd_DataFrame (entries (first :: rest))) as [raw|];
      cbn [obind] in Hout; [|discriminate].
    cbn [lift bind]. rewrite Hout. cbn [lift bind].
    destruct (empty out); cbn [bind logger ret try_except app hd];
      rewrite ?app_nil_r; reflexivity.
  - intros resp df. rewrite get_fear_greed_data_result. intros Hr.
    apply series_result_inv in Hr
      as (data' & d' & items' & -> & Hd' & Hi' & _ & Hn & Hne).
    split; [exact Hne|]. now exists data', d', items'.
Qed.

(** ** Idempotence (C4) *)


(** ** The failures of the extraction (C5) *)

(** C5 (as amended): a document without the historical key and a document
    whose historical data array is empty both make [get_fear_greed_data]
    return [None]; what tells them apart is the error that is logged. *)
Theorem extraction_failures (missing_doc empty_doc d : json) (now : Z) :
  py_in HISTORICAL missing_doc = Ok false ->
  py_getitem empty_doc HISTORICAL = Ok d ->
  py_getitem d "data" = Ok (JArr []) ->
  get_fear_greed_data (HttpOk missing_doc) now
  = (Ok None, [(ERROR, MissingKey HISTORICAL)]) /\
  get_fear_greed_data (HttpOk empty_doc) now
  = (Ok None,
     [(INFO, DictType d); (INFO, DictContent d);
      (ERROR, EmptyList HISTORICAL)]) /\
  MissingKey HISTORICAL <> EmptyList HISTORICAL.
Proof.
  intros Hmissing Hhist Hdata.
  split; [|split; [|discriminate]].
  - unfold get_fear_greed_data. cbn [fetch_json ret bind].
    rewrite Hmissing. reflexivity.
  - assert (Hin : py_in HISTORICAL empty_doc = Ok true).
    { destruct empty_doc as [| | | | |fields]; try discriminate.
      unfold py_getitem in Hhist. unfold py_in, dict_has.
      now destruct (dict_get HISTORICAL fields). }
    assert (Hlacks : lacks_data d = false).
    { destruct d as [| | | | |fields]; try discriminate.
      unfold py_getitem in Hdata. unfold lacks_data, dict_has.
      now destruct (dict_get "data" fields). }
    unfold get_fear_greed_data. cbn [fetch_json ret bind].
    rewrite Hin. cbn [lift bind negb]. rewrite Hhist. cbn [lift bind logger].
    rewrite Hlacks, Hdata. reflexivity.
Qed.

(** ** One malformed item (C6) *)

Lemma time_series_data_well_formed items :
  forallb well_formed items = true ->
  time_series_data items = (Ok (entries items), []) /\
  Forall2 made_from items (entries items).
Proof.
  induction items as [|item rest IH]; cbn [forallb time_series_data entries].
  - intros _. split; [reflexivity|constructor].
  - intros Hall. apply andb_prop in Hall as [Hitem Hrest].
    destruct (item_entry_well_formed item Hitem) as (e & -> & Hmade).
    destruct (IH Hrest) as [-> Hf]. split; [reflexivity|now constructor].
Qed.

Lemma time_series_data_skips before bad after :
  forallb well_formed before = true ->
  well_formed bad = false ->
  time_series_data (before ++ bad :: after) =
  let (r, l) := time_series_data after in
  (obind r (fun es => Ok (entries before ++ es)),
   (WARNING, SkippedItem HISTORICAL bad) :: l).
Proof.
  intros Hbefore Hbad.
  induction before as [|item rest IH];
    cbn [app forallb time_series_data entries] in *.
  - rewrite (item_entry_malformed bad Hbad).
    unfold bind, logger.
    destruct (time_series_data after) as [[es|e] l]; reflexivity.
  - apply andb_prop in Hbefore as [Hitem Hrest].
    destruct (item_entry_well_formed item Hitem) as (e & -> & _).
    rewrite (IH Hrest).
    destruct (time_series_data after) as [[es|e'] l];
      cbn [obind bind ret app]; rewrite ?app_nil_r; reflexivity.
Qed.

Lemma entries_app l1 l2 : entries (l1 ++ l2) = entries l1 ++ entries l2.
Proof.
  induction l1 as [|item rest IH]; simpl; [reflexivity|].
  destruct (item_entry item); simpl; now rewrite IH.
Qed.

(** C6: when exactly one item of the data array is not a dict with both
    [x] and [y], the loop appends one dict for every other item, in order
    and with that item's two fields, logs one warning for the malformed
    item and does not raise; the function then returns what it returns for
    the array without that item. *)
Theorem one_malformed_item_is_skipped (before after : list json)
  (bad : json) (now : Z) :
  well_formed bad = false ->
  forallb well_formed (before ++ after) = true ->
  exists records,
    time_series_data (before ++ bad :: after)
    = (Ok records, [(WARNING, SkippedItem HISTORICAL bad)]) /\
    Forall2 made_from (before ++ after) records /\
    returned (get_fear_greed_data
                (HttpOk (historical_document (before ++ bad :: after))) now)
    = returned (get_fear_greed_data
                  (HttpOk (historical_document (before ++ after))) now).
Proof.
  intros Hbad Hall.
  pose proof Hall as Hall'. rewrite forallb_app in Hall'.
  apply andb_prop in Hall' as [Hbefore Hafter].
  exists (entries (before ++ after)).
  split; [|split].
  - rewrite (time_series_data_skips before bad after Hbefore Hbad).
    destruct (time_series_data_well_formed after Hafter) as [-> _].
    cbn [obind]. now rewrite entries_app.
  - now apply time_series_data_well_formed.
  - rewrite !get_fear_greed_data_result.
    unfold series_result, historical_document.
    cbn -[entries normalize].
    rewrite !entries_app. cbn [entries].
    now rewrite (item_entry_malformed bad Hbad).
Qed.

(** ** The rows without a number (C7) *)

Lemma coerce_or_drop_In {T} (df : DataFrame T json) (c : row T pyfloat) :
  In c (coerce_or_drop df) <->
  exists r x,
    In r df /\ to_numeric_coerce (value r) = Ok x /\ isna x = false /\
    c = mkRow (index r) (timestamp r) x.
Proof.
  unfold coerce_or_drop. rewrite in_flat_map. unfold coerce_row. split.
  - intros (r & Hr & Hc).
    destruct (to_numeric_coerce (value r)) as [x|] eqn:Ex; [|contradiction].
    destruct (isna x) eqn:En; [contradiction|].
    destruct Hc as [<-|[]]. now exists r, x.
  - intros (r & x & Hr & Ex & En & ->). exists r. split; [assumption|].
    rewrite Ex, En. now left.
Qed.

Lemma to_datetime_ms_point z :
  - 2 ^ 63 < z * NS_PER_MS < 2 ^ 63 ->
  to_datetime (JNum (FFin (z # 1))) = Ok (Some (z * NS_PER_MS)).
Proof. exact (to_datetime_ms_integer z). Qed.

Lemma to_numeric_point z :
  Z.abs z <= 2 ^ 53 ->
  to_numeric (JNum (FFin (z # 1))) = Ok (FFin (z # 1)).
Proof. exact (to_numeric_integer z). Qed.

(** The scenario of the specification, on every library. *)
Lemma scenario_result :
  returned (get_fear_greed_data
              (HttpOk (historical_document scenario_items)) scenario_now)
  = Some scenario_frame.
Proof.
  rewrite get_fear_greed_data_result.
  rewrite (@series_result_shape HISTORICAL (historical_document scenario_items)
             (JObj [("data", JArr scenario_items)]) scenario_items scenario_now
             eq_refl eq_refl).
  change (entries scenario_items)
    with [mkEntry (number 1700000000000) (JStr "50");
          mkEntry (number 1700050000000) (number 60);
          mkEntry (number 1700100000000) JNull].
  cbn [empty].
  rewrite pd_DataFrame_fits by (vm_compute; reflexivity).
  cbn [obind frame_from entry_timestamp entry_value].
  unfold normalize, convert_timestamp. cbn [omap timestamp index value].
  unfold number, inject_Z.
  rewrite !to_datetime_ms_point by (split; reflexivity).
  cbn [obind].
  rewrite sort_values_distinct.
  2:{ cbn [map timestamp].
      repeat (constructor; [cbn; intuition discriminate|]). constructor. }
  2:{ repeat constructor. }
  match goal with
  | |- context [recent ?c ?l] =>
      replace (recent c l) with l by (vm_compute; reflexivity)
  end.
  unfold convert_value. cbn [omap timestamp index value].
  unfold to_numeric at 1, ToNumeric_json at 1.
  rewrite (@to_numeric_decimal _ "50" 50 eq_refl) by (cbn; lia).
  rewrite to_numeric_point by (vm_compute; discriminate).
  unfold to_numeric, ToNumeric_json. rewrite to_numeric_null.
  reflexivity.
Qed.

Lemma to_numeric_overflow_point z :
  2 ^ 1024 <= Z.abs z ->
  to_numeric_coerce (JNum (FFin (z # 1))) = Raise OverflowError.
Proof. exact (to_numeric_overflow z). Qed.

Lemma to_numeric_coerce_point z :
  Z.abs z <= 2 ^ 53 ->
  to_numeric_coerce (JNum (FFin (z # 1))) = Ok (FFin (z # 1)).
Proof. exact (to_numeric_integer z). Qed.

Ltac evaluate_entries items :=
  let e := eval cbv in (entries items) in
  change (entries items) with e.

(** An integer too large for a [float] among the values of the window:
    the function returns [None], on every library. *)
Lemma huge_value_result :
  returned (get_fear_greed_data
              (HttpOk (historical_document huge_items)) scenario_now) = None.
Proof.
  rewrite get_fear_greed_data_result.
  rewrite (@series_result_shape HISTORICAL (historical_document huge_items)
             (JObj [("data", JArr huge_items)]) huge_items scenario_now
             eq_refl eq_refl).
  evaluate_entries huge_items. cbn [empty].
  destruct (pd_DataFrame _) as [raw|] eqn:Eraw; cbn [obind]; [|reflexivity].
  apply pd_DataFrame_rows in Eraw. subst raw.
  cbn [frame_from entry_timestamp entry_value].
  unfold normalize, convert_timestamp. cbn [omap timestamp index value].
  rewrite !to_datetime_ms_point by (split; reflexivity).
  cbn [obind].
  rewrite sort_values_distinct.
  2:{ cbn [map timestamp].
      repeat (constructor; [cbn; intuition discriminate|]). constructor. }
  2:{ repeat constructor. }
  match goal with
  | |- context [recent ?c ?l] =>
      replace (recent c l) with l by (vm_compute; reflexivity)
  end.
  unfold convert_value. cbn [omap timestamp index value].
  unfold to_numeric at 1, ToNumeric_json at 1.
  rewrite to_numeric_overflow_point by (vm_compute; discriminate).
  reflexivity.
Qed.

(** The same points, taken through the steps as the specification words
    them: the point with the integer is dropped and the other one stays. *)
Lemma huge_value_specified :
  normalize_as_specified scenario_now (frame_from 0 (entries huge_items))
  = Ok [mkRow 1%nat (Some (1700050000000 * NS_PER_MS)) (FFin (60 # 1))].
Proof.
  evaluate_entries huge_items.
  cbn [frame_from entry_timestamp entry_value].
  unfold normalize_as_specified, convert_timestamp.
  cbn [omap timestamp index value].
  rewrite !to_datetime_ms_point by (split; reflexivity).
  cbn [obind]. f_equal.
  match goal with
  | |- context [stable_sort ?l] =>
      replace (stable_sort l) with l by (vm_compute; reflexivity)
  end.
  unfold coerce_or_drop. cbn [flat_map]. unfold coerce_row.
  cbn [timestamp index value].
  rewrite to_numeric_overflow_point by (vm_compute; discriminate).
  rewrite to_numeric_coerce_point by (vm_compute; discriminate).
  vm_compute. reflexivity.
Qed.

(** The coercion step, on the rows of the window. *)
Lemma coercion_of_the_window (now : Z) (df : DataFrame json json)
  (out : Frame) :
  normalize now df = Ok out ->
  (exists converted,
      convert_timestamp df = Ok converted /\
      out = coerce_or_drop (recent (last_year now) (sort_values converted)) /\
      forall r,
        In r (recent (last_year now) (sort_values converted)) ->
        exists x,
          to_numeric_coerce (value r) = Ok x /\
          (In (mkRow (index r) (timestamp r) x) out <-> isna x = false)) /\
  to_numeric_coerce (JStr "not-a-number") = Ok FNaN /\
  to_numeric_coerce JNull = Ok FNaN /\
  (forall (other : DataFrame json json) converted r e,
      convert_timestamp other = Ok converted ->
      In r (recent (last_year now) (sort_values converted)) ->
      to_numeric_coerce (value r) = Raise e ->
      exists e', normalize now other = Raise e') /\
  returned (get_fear_greed_data
              (HttpOk (historical_document scenario_items)) scenario_now)
  = Some scenario_frame /\
  returned (get_fear_greed_data
              (HttpOk (historical_document huge_items)) scenario_now)
  = None.
Proof.
  intros Hn. apply normalize_Ok in Hn as (d & c & Hd & Hc & ->).
  split; [|split; [|split; [|split; [|split; [|apply huge_value_result]]]]].
  - exists d. split; [exact Hd|].
    rewrite (dropna_convert_value _ Hc). split; [reflexivity|].
    intros r Hr. apply convert_value_rows in Hc.
    assert (Hx : exists x, to_numeric_coerce (value r) = Ok x).
    { clear -Hc Hr. induction Hc as [|a b l l' Hab _ IH]; [contradiction|].
      destruct Hr as [<-|Hr]; [|auto].
      destruct Hab as (Hv & _). eauto. }
    destruct Hx as (x & Hx). exists x. split; [exact Hx|].
    rewrite coerce_or_drop_In. split.
    + intros (r' & x' & _ & _ & Hna & [= _ _ ->]). exact Hna.
    + intros Hna. now exists r, x.
  - apply to_numeric_text; reflexivity.
  - apply to_numeric_null.
  - intros other converted r e Ho Hr He. unfold normalize.
    rewrite Ho. cbn [obind]. unfold convert_value.
    destruct (@omap_raise _ _
                (fun r0 : row stamp json =>
                   obind (to_numeric (value r0))
                     (fun x => Ok (mkRow (index r0) (timestamp r0) x)))
                _ r e Hr) as (e' & ->).
    + unfold to_numeric, ToNumeric_json. now rewrite He.
    + now exists e'.
  - apply scenario_result.
Qed.


(** ** The current reading and the caption (C8) *)

Lemma str_replace_length a b s :
  String.length (str_replace a b s) = String.length s.
Proof. induction s as [|c s IH]; simpl; congruence. Qed.

Lemma title_from_length flag s :
  String.length (title_from flag s) = String.length s.
Proof. revert flag. induction s as [|c s IH]; intros flag; simpl; congruence. Qed.

Lemma is_ascii_str_replace s :
  is_ascii s = true -> is_ascii (str_replace "_" " " s) = true.
Proof.
  unfold is_ascii.
  induction s as [|c s IH]; cbn [str_replace list_ascii_of_string forallb];
    [reflexivity|].
  intros Hs. apply andb_prop in Hs as [Hc Hs].
  rewrite (IH Hs), andb_true_r.
  destruct (Ascii.eqb c "_"); [reflexivity|exact Hc].
Qed.

Lemma get_str_replace a b s i :
  String.get i (str_replace a b s)
  = option_map (fun c => if Ascii.eqb c a then b else c) (String.get i s).
Proof.
  revert i. induction s as [|c s IH]; intros i; cbn; [reflexivity|].
  destruct i as [|i]; [reflexivity|apply IH].
Qed.

(** The character of a title at a position: raised at the start of a word,
    lowered inside it. *)
Lemma get_title_from s flag i c :
  String.get i s = Some c ->
  String.get i (title_from flag s)
  = Some (if match i with
             | O => flag
             | S j => match String.get j s with
                      | Some p => is_cased p
                      | None => false
                      end
             end
          then lower c else upper c).
Proof.
  revert flag i. induction s as [|a s IH]; intros flag i; cbn [String.get];
    [discriminate|].
  destruct i as [|i]; cbn [title_from String.get].
  - now intros [= ->].
  - intros Hc. rewrite (IH (is_cased a) i Hc).
    destruct i as [|i]; reflexivity.
Qed.

Lemma get_previous s i c :
  String.get (S i) s = Some c -> exists p, String.get i s = Some p.
Proof.
  revert i. induction s as [|a s IH]; intros i; cbn [String.get];
    [discriminate|].
  destruct i as [|i]; [eauto|apply IH].
Qed.

Lemma is_cased_space_for_underscore p :
  is_cased (if Ascii.eqb p "_" then " "%char else p) = is_cased p.
Proof.
  destruct (Ascii.eqb p "_") eqn:E; [|reflexivity].
  apply Ascii.eqb_eq in E. now subst.
Qed.

Lemma formatted_rating_ascii s :
  is_ascii s = true ->
  formatted_rating s = title_from false (str_replace "_" " " s).
Proof.
  intros Hs. unfold formatted_rating, str_title.
  now rewrite (is_ascii_str_replace _ Hs).
Qed.


(** ** The chart file (C9) *)

Lemma keeps_hret {A} (a : A) : keeps (hret a).
Proof. intros w path Hin. exact Hin. Qed.

Lemma keeps_hlift {A} (o : outcome A) : keeps (hlift o).
Proof. intros w path Hin. exact Hin. Qed.

Lemma keeps_hbind {A B} (m : H A) (f : A -> H B) :
  keeps m -> (forall a, keeps (f a)) -> keeps (hbind m f).
Proof.
  intros Hm Hf w path Hin. unfold hbind.
  specialize (Hm w path Hin).
  destruct (m w) as [[a|e] w']; simpl in *; [now apply Hf|assumption].
Qed.

Lemma keeps_htry {A} (body : H A) (handler : exn -> H A) :
  keeps body -> (forall e, keeps (handler e)) -> keeps (htry body handler).
Proof.
  intros Hb Hh w path Hin. unfold htry.
  specialize (Hb w path Hin).
  destruct (body w) as [[a|e] w']; simpl in *; [assumption|now apply Hh].
Qed.

Lemma keeps_telegram e m : keeps (telegram e m).
Proof.
  intros w path Hin. unfold telegram.
  now destruct (telegram_ok e (calls w)).
Qed.

Lemma keeps_open_rb path : keeps (open_rb path).
Proof.
  intros w p Hin. unfold open_rb. now destruct (exists_file path w).
Qed.

Lemma keeps_caption scheduled score rating t :
  keeps (caption scheduled score rating t).
Proof.
  unfold caption.
  apply keeps_hbind; [apply keeps_hlift|intros s].
  apply keeps_hbind; [apply keeps_hlift|intros r]. apply keeps_hret.
Qed.

Lemma savefig_writes filename w :
  In filename (files (snd (savefig filename w))).
Proof.
  unfold savefig, exists_file. simpl.
  destruct (existsb (String.eqb filename) (files w)) eqn:E; [|now left].
  apply existsb_exists in E as (f & Hf & Heq).
  apply String.eqb_eq in Heq. now subst.
Qed.

Ltac keeps_steps :=
  repeat first
    [ apply keeps_telegram | apply keeps_open_rb | apply keeps_caption
    | apply keeps_hret | apply keeps_hlift
    | apply keeps_hbind; [|intros ?]
    | apply keeps_htry; [|intros ?] ].

(** C9 (the code departs from it): when [/feargreed] has its current
    reading and its history and the chart is drawn, the chart file
    ["fear_greed_chart.png"] is still in the working directory when the
    handler ends, whichever of the later calls to the chat succeed or
    raise: no path of the handler removes it. *)
Theorem feargreed_leaves_chart_file (e : env) (w : world)
  (score rating : json) (df : Frame) :
  telegram_ok e (calls w) = true ->
  current_pair (get_current_fear_greed (current_response e)) = (score, rating) ->
  is_none score || is_none rating = false ->
  returned (get_fear_greed_data (history_response e) (now e)) = Some df ->
  render_ok e = true ->
  In "fear_greed_chart.png" (files (snd (feargreed e w))).
Proof.
  intros Htg Hcur Hnone Hdf Hrender.
  pose proof (get_fear_greed_data_result (history_response e) (now e)) as Hres.
  rewrite Hdf in Hres. symmetry in Hres.
  apply series_result_Some in Hres as (_ & _ & Hempty).
  unfold feargreed. unfold hbind at 1. unfold telegram at 1.
  rewrite Htg, Hcur, Hnone, Hdf.
  unfold htry at 1, hbind at 1, create_fear_greed_chart.
  rewrite Hempty, Hrender.
  unfold hbind at 1.
  set (w1 := mkWorld (files w) (S (calls w)) (outbox w ++ [Message Processing])).
  pose proof (savefig_writes "fear_greed_chart.png" w1) as Hin.
  destruct (savefig "fear_greed_chart.png" w1) as [[[]|ex] w2] eqn:Es;
    [|discriminate Es].
  cbn [snd hret] in *.
  match goal with
  | |- In _ (files (snd (match ?k w2 with _ => _ end))) =>
      assert (Hk : keeps k) by keeps_steps;
      specialize (Hk w2 _ Hin); destruct (k w2) as [[[]|ex] w3]
  end; cbn [snd] in *; [assumption|].
  assert (Hh : keeps (htry (telegram e (Message Failed)) (fun _ => hret tt)))
    by keeps_steps.
  now apply Hh.
Qed.

(** ** The two series functions (C10) *)

Lemma never_raises {A} (body : M (option A)) handler :
  (forall e, fst (handler e) = Ok None) ->
  fst (try_except body handler) = Ok (returned (try_except body handler)).
Proof.
  intros Hh. unfold returned. rewrite fst_try_except.
  destruct (fst body); [reflexivity|]. now rewrite Hh.
Qed.

(** C10: asked for the key ["fear_and_greed_historical"],
    [get_component_data] returns what [get_fear_greed_data] returns for the
    same answer of the server and the same clock: the same frame or [None],
    and neither raises. *)
Theorem component_data_matches_historical (resp : response) (now : Z) :
  returned (get_component_data HISTORICAL resp now)
  = returned (get_fear_greed_data resp now) /\
  fst (get_component_data HISTORICAL resp now)
  = fst (get_fear_greed_data resp now) /\
  exists r, fst (get_fear_greed_data resp now) = Ok r.
Proof.
  assert (Heq : returned (get_component_data HISTORICAL resp now)
                = returned (get_fear_greed_data resp now))
    by now rewrite get_component_data_result, get_fear_greed_data_result.
  split; [exact Heq|].
  assert (Hc : fst (get_component_data HISTORICAL resp now)
               = Ok (returned (get_component_data HISTORICAL resp now)))
    by (apply never_raises; intros []; reflexivity).
  assert (Hh : fst (get_fear_greed_data resp now)
               = Ok (returned (get_fear_greed_data resp now)))
    by (apply never_raises; intros []; reflexivity).
  split; [now rewrite Hc, Hh, Heq|eauto].
Qed.

(* ================================================================= *)
(** * Further properties of the pipeline *)

(** ** Failures and the log *)

Lemma logs_error_app l1 l2 :
  logs_error (l1 ++ l2) = logs_error l1 || logs_error l2.
Proof. apply existsb_app. Qed.

Lemma skipped_no_error key items : logs_error (skipped key items) = false.
Proof.
  unfold skipped, logs_error.
  induction (filter (fun item => negb (well_formed item)) items) as [|a l IH];
    [reflexivity|exact IH].
Qed.

Ltac close_log H :=
  cbn; rewrite ?existsb_app; unfold logs_error in H; rewrite ?H; reflexivity.

(** X1: [get_fear_greed_data] and [get_component_data] never raise, and
    each returns [None] exactly when it has logged an error line. *)
Theorem failures_are_logged (key : string) (resp : response) (now : Z) :
  (exists r, fst (get_fear_greed_data resp now) = Ok r) /\
  (exists r, fst (get_component_data key resp now) = Ok r) /\
  logs_error (logged (get_fear_greed_data resp now))
  = match returned (get_fear_greed_data resp now) with
    | None => true
    | Some _ => false
    end /\
  logs_error (logged (get_component_data key resp now))
  = match returned (get_component_data key resp now) with
    | None => true
    | Some _ => false
    end.
Proof.
  split; [|split; [|split]].
  - eexists. apply never_raises. intros []; reflexivity.
  - eexists. apply never_raises. intros []; reflexivity.
  - rewrite get_fear_greed_data_result.
    unfold logged, get_fear_greed_data, series_result.
    destruct resp as [data| | |]; try reflexivity;
      [|cbn [fetch_json lift bind]; destruct json_error; reflexivity].
    cbn [fetch_json ret bind].
    destruct (py_in HISTORICAL data) as [[|]|[]]; try reflexivity.
    cbn [lift bind negb].
    destruct (py_getitem data HISTORICAL) as [d|[]]; try reflexivity.
    cbn [lift bind logger].
    destruct (lacks_data d); try reflexivity.
    destruct (py_getitem d "data") as [[| | | |items|]|[]]; try reflexivity.
    destruct items as [|first items]; try reflexivity.
    cbn [lift bind logger].
    rewrite time_series_data_run. cbn [bind logger].
    pose proof (skipped_no_error HISTORICAL (first :: items)) as Hl.
    set (warnings := skipped HISTORICAL (first :: items)) in *.
    clearbody warnings.
    destruct (empty (entries (first :: items))); [close_log Hl|].
    destruct (pd_DataFrame (entries (first :: items))) as [raw|[]];
      cbn [obind lift bind]; try close_log Hl.
    destruct (normalize now raw) as [df|[]]; try close_log Hl.
    cbn [lift bind].
    destruct (empty df); close_log Hl.
  - rewrite get_component_data_result.
    unfold logged, get_component_data, series_result.
    destruct resp as [data| | |]; try reflexivity;
      [|cbn [fetch_json lift bind]; destruct json_error; reflexivity].
    cbn [fetch_json ret bind].
    destruct (py_in key data) as [[|]|[]]; try reflexivity.
    cbn [lift bind negb].
    destruct (py_getitem data key) as [d|[]]; try reflexivity.
    cbn [lift bind logger].
    destruct (lacks_data d); try reflexivity.
    destruct (py_getitem d "data") as [[| | | |items|]|[]]; try reflexivity.
    destruct items as [|first items]; try reflexivity.
    cbn [lift bind logger is_list negb empty].
    rewrite component_time_series_data_run. cbn [bind logger].
    pose proof (skipped_no_error key (first :: items)) as Hl.
    set (warnings := skipped key (first :: items)) in *.
    clearbody warnings.
    destruct (empty (entries (first :: items))); [close_log Hl|].
    destruct (pd_DataFrame (entries (first :: items))) as [raw|[]];
      cbn [obind lift bind]; try close_log Hl.
    unfold normalize.
    destruct (convert_timestamp raw) as [df|[]]; cbn [obind lift bind];
      try close_log Hl.
    destruct (convert_value _) as [c|[]]; cbn [obind lift bind];
      try close_log Hl.
    destruct (empty (dropna c)); close_log Hl.
Qed.


(** ** The shape of the document *)

(** X9: [get_component_data] returns a frame only when the document holds,
    under the key, a dict whose ["data"] entry is a list; the frame is then
    the normalisation of the points of that list, it is not empty, it is in
    ascending order and none of its rows is older than the cutoff. *)
Theorem get_component_data_frame (key : string) (resp : response) (now : Z)
  (df : Frame) :
  returned (get_component_data key resp now) = Some df ->
  exists data d items,
    resp = HttpOk data /\
    py_getitem data key = Ok d /\
    py_getitem d "data" = Ok (JArr items) /\
    pd_DataFrame (entries items) = Ok (frame_from 0 (entries items)) /\
    normalize now (frame_from 0 (entries items)) = Ok df /\
    empty df = false /\
    ascending df /\
    Forall (not_before (last_year now)) df.
Proof.
  rewrite get_component_data_result. intros Hr.
  apply series_result_inv in Hr
    as (data & d & items & -> & Hd & Hi & Hraw & Hn & He).
  exists data, d, items. split; [reflexivity|].
  repeat (split; [assumption|]).
  split; [eapply (@normalize_ascending json json _ _); exact Hn|].
  eapply Forall_impl; [|eapply (@normalize_recent json json _ _); exact Hn].
  intros r. apply stamp_ge_not_before.
Qed.

(** ** The rows of a returned frame *)

Lemma frame_from_In k records (r : row json json) :
  In r (frame_from k records) <->
  exists i en, nth_error records i = Some en /\
               r = mkRow (k + i) (entry_timestamp en) (entry_value en).
Proof.
  revert k. induction records as [|e rest IH]; intros k; cbn [frame_from].
  - split; [intros []|intros ([|i] & en & Hn & _); discriminate].
  - split.
    + intros [<-|Hin].
      * exists 0%nat, e. now rewrite Nat.add_0_r.
      * apply IH in Hin as (i & en & Hn & ->).
        exists (S i), en. split; [assumption|]. f_equal. lia.
    + intros ([|i] & en & Hn & ->); cbn [nth_error] in Hn.
      * injection Hn as <-. left. now rewrite Nat.add_0_r.
      * right. apply IH. exists i, en. split; [assumption|]. f_equal. lia.
Qed.

Lemma frame_from_index k records :
  map (@index json json) (frame_from k records) = seq k (length records).
Proof.
  revert k. induction records as [|e rest IH]; intros k; simpl;
    [reflexivity|]. now rewrite IH.
Qed.

(** X4: the rows of the frame that [get_fear_greed_data] returns are exactly
    the extracted points whose timestamp the library converts to an instant
    at or after the cutoff and whose value it coerces to a number; a row
    carries the position of its point as label, the instant and the
    number. *)
Theorem returned_rows (data d : json) (items : list json) (now : Z)
  (df : Frame) (r : row stamp pyfloat) :
  py_getitem data HISTORICAL = Ok d ->
  py_getitem d "data" = Ok (JArr items) ->
  returned (get_fear_greed_data (HttpOk data) now) = Some df ->
  In r df <->
    exists i en z x,
      nth_error (entries items) i = Some en /\
      to_datetime_ms (entry_timestamp en) = Ok (Some z) /\
      last_year now <= z /\
      to_numeric_coerce (entry_value en) = Ok x /\
      isna x = false /\
      r = mkRow i (Some z) x.
Proof.
  intros Hd Hi Hr.
  rewrite get_fear_greed_data_result, (@series_result_shape _ _ _ _ now Hd Hi) in Hr.
  destruct (empty (entries items)); [discriminate|].
  destruct (pd_DataFrame (entries items)) as [raw|] eqn:Eraw;
    cbn [obind] in Hr; [|discriminate].
  pose proof (pd_DataFrame_rows _ Eraw) as ->.
  destruct (normalize now (frame_from 0 (entries items))) as [out|] eqn:En;
    [|discriminate].
  destruct (empty out); [discriminate|]. injection Hr as ->.
  rewrite (@normalize_In _ _ _ _ _ _ _ En r). split.
  - intros (raw & t & x & Hraw & Et & Hge & Ex & Hna & ->).
    apply frame_from_In in Hraw as (i & en & Hn & ->).
    cbn [timestamp value index] in *.
    destruct t as [z|]; [|discriminate].
    exists i, en, z, x. repeat split; try assumption.
    now apply Z.leb_le.
  - intros (i & en & z & x & Hn & Et & Hge & Ex & Hna & ->).
    exists (mkRow i (entry_timestamp en) (entry_value en)), (Some z), x.
    repeat split; try assumption.
    + apply frame_from_In. now exists i, en.
    + now apply Z.leb_le.
Qed.

(** X3: one point whose timestamp the library refuses to convert makes the
    whole series fail: the function returns [None], whatever the other
    points. *)
Theorem unconvertible_timestamp (key : string) (data d : json)
  (items : list json) (now : Z) (en : entry) (ex : exn) :
  py_getitem data key = Ok d ->
  py_getitem d "data" = Ok (JArr items) ->
  In en (entries items) ->
  to_datetime_ms (entry_timestamp en) = Raise ex ->
  returned (get_component_data key (HttpOk data) now) = None /\
  (key = HISTORICAL ->
   returned (get_fear_greed_data (HttpOk data) now) = None).
Proof.
  intros Hd Hi Hin Hex.
  assert (Hs : series_result key (HttpOk data) now = None).
  { rewrite (@series_result_shape _ _ _ _ now Hd Hi).
    destruct (empty (entries items)); [reflexivity|].
    destruct (pd_DataFrame (entries items)) as [raw|] eqn:Eraw;
      cbn [obind]; [|reflexivity].
    pose proof (pd_DataFrame_rows _ Eraw) as ->.
    apply In_nth_error in Hin as (i & Hn).
    assert (Hrow : In (mkRow (0 + i) (entry_timestamp en) (entry_value en))
                      (frame_from 0 (entries items)))
      by (apply frame_from_In; now exists i, en).
    unfold normalize, convert_timestamp.
    destruct (@omap_raise _ _
                (fun r : row json json =>
                   obind (to_datetime (timestamp r))
                     (fun t => Ok (mkRow (index r) t (value r))))
                _ _ ex Hrow) as (e' & ->); [|reflexivity].
    cbn [timestamp]. unfold to_datetime, ToDatetime_json. now rewrite Hex. }
  split; [now rewrite get_component_data_result|].
  intros ->. now rewrite get_fear_greed_data_result.
Qed.

Lemma NoDup_map_filter {A B} (keep : A -> bool) (g : A -> B) (xs : list A) :
  NoDup (map g xs) -> NoDup (map g (filter keep xs)).
Proof.
  intros Hnd. induction xs as [|x xs IH]; cbn [map filter] in *;
    [constructor|].
  apply NoDup_cons_iff in Hnd as [Hnin Hnd].
  destruct (keep x); cbn [map]; [|auto].
  constructor; [|auto].
  intros Hin. apply Hnin. apply in_map_iff in Hin as (x' & Hg & Hx').
  apply filter_In in Hx' as [Hx' _]. rewrite <- Hg. now apply in_map.
Qed.

Lemma entries_length items : (length (entries items) <= length items)%nat.
Proof.
  induction items as [|item rest IH]; cbn [entries length]; [lia|].
  destruct (item_entry item); cbn [length]; lia.
Qed.

(** X5: in a frame that [get_fear_greed_data] returns no two rows carry the
    same label, no value is NaN, every label is a position in the data
    array of the document, and there are no more rows than the array has
    items. *)
Theorem returned_frame_invariants (resp : response) (now : Z) (df : Frame) :
  returned (get_fear_greed_data resp now) = Some df ->
  NoDup (map (@index stamp pyfloat) df) /\
  Forall (fun r => isna (value r) = false) df /\
  exists data d items,
    resp = HttpOk data /\
    py_getitem data HISTORICAL = Ok d /\
    py_getitem d "data" = Ok (JArr items) /\
    (length df <= length items)%nat /\
    Forall (fun r => (index r < length items)%nat) df.
Proof.
  rewrite get_fear_greed_data_result. intros Hr.
  apply series_result_inv in Hr
    as (data & d & items & -> & Hd & Hi & _ & Hn & _).
  pose proof (@normalize_In json json _ _ _ _ _ Hn) as Hin.
  pose proof (@normalize_notna json json _ _ _ _ _ Hn) as Hna.
  apply normalize_Ok in Hn as (c & k & Hc & Hk & ->).
  assert (Hidx : map (@index stamp json) c
                 = seq 0 (length (entries items))).
  { rewrite <- frame_from_index. unfold convert_timestamp in Hc.
    refine (@omap_map _ _ _ _ (@index json json) (@index stamp json)
              _ _ _ Hc).
    intros a b. destruct (to_datetime (timestamp a)); [|discriminate].
    now intros [= <-]. }
  destruct (convert_value_timestamps _ Hk) as [_ Hkidx].
  split; [|split].
  - unfold dropna. apply NoDup_map_filter. rewrite Hkidx.
    unfold recent. apply NoDup_map_filter.
    eapply Permutation_NoDup;
      [apply Permutation_map; symmetry; apply sort_values_perm|].
    rewrite Hidx. apply seq_NoDup.
  - eapply Forall_impl; [|exact Hna].
    intros r. now rewrite negb_true_iff.
  - exists data, d, items. repeat (split; [assumption || reflexivity|]).
    pose proof (entries_length items) as Hlen. split.
    + unfold dropna.
      etransitivity; [apply filter_length_le|].
      rewrite <- (length_map (@index stamp pyfloat)), Hkidx, length_map.
      unfold recent.
      etransitivity; [apply filter_length_le|].
      rewrite (Permutation_length (sort_values_perm c)).
      rewrite <- (length_map (@index stamp json)), Hidx, length_seq. exact Hlen.
    + apply Forall_forall. intros r Hr.
      apply Hin in Hr as (raw & t & x & Hraw & _ & _ & _ & _ & ->). cbn [index].
      apply frame_from_In in Hraw as (i & en & Hnth & ->). cbn [index].
      assert (i < length (entries items))%nat
        by (apply nth_error_Some; congruence).
      lia.
Qed.

(** ** The clock *)

Lemma normalize_day_div now : normalize_day now = NS_PER_DAY * (now / NS_PER_DAY).
Proof.
  unfold normalize_day. pose proof (Z.div_mod now NS_PER_DAY).
  assert (NS_PER_DAY <> 0) by discriminate. lia.
Qed.

Lemma last_year_mono now1 now2 :
  now1 <= now2 -> last_year now1 <= last_year now2.
Proof.
  intros Hle. unfold last_year. rewrite !normalize_day_div.
  assert (now1 / NS_PER_DAY <= now2 / NS_PER_DAY)
    by (apply Z.div_le_mono; [reflexivity|assumption]).
  assert (0 < NS_PER_DAY) by reflexivity. nia.
Qed.

Lemma filter_implied {A} (p q : A -> bool) (l : list A) :
  (forall a, p a = true -> q a = true) ->
  filter p (filter q l) = filter p l.
Proof.
  intros Hpq. induction l as [|a l IH]; cbn [filter]; [reflexivity|].
  destruct (q a) eqn:Eq; cbn [filter]; [now rewrite IH|].
  destruct (p a) eqn:Ep; [|exact IH].
  apply Hpq in Ep. congruence.
Qed.


(** X7: the cutoff is a midnight, and two readings of the clock on the
    same day give the same cutoff, hence the same result for the same
    document. *)
Theorem same_day_same_result (key : string) (resp : response) (now1 now2 : Z) :
  now1 / NS_PER_DAY = now2 / NS_PER_DAY ->
  last_year now1 mod NS_PER_DAY = 0 /\
  last_year now1 = last_year now2 /\
  returned (get_fear_greed_data resp now1)
  = returned (get_fear_greed_data resp now2) /\
  returned (get_component_data key resp now1)
  = returned (get_component_data key resp now2).
Proof.
  intros Hday.
  assert (Hcut : last_year now1 = last_year now2)
    by (unfold last_year; now rewrite !normalize_day_div, Hday).
  assert (Hres : forall k, series_result k resp now1 = series_result k resp now2).
  { intros k. unfold series_result, normalize. now rewrite Hcut. }
  split; [|split; [exact Hcut|split]].
  - unfold last_year. rewrite normalize_day_div.
    replace (NS_PER_DAY * (now1 / NS_PER_DAY) - 365 * NS_PER_DAY)
      with ((now1 / NS_PER_DAY - 365) * NS_PER_DAY) by ring.
    apply Z.mod_mul. discriminate.
  - now rewrite !get_fear_greed_data_result.
  - now rewrite !get_component_data_result.
Qed.

(** ** The loops over the items *)

(** X8: both loops over the data array return one dict for each item that
    is a dict with [x] and [y], in the order of the items and with these
    two fields, log one warning for each other item, in order, and never
    raise; every item is either kept or reported. *)
Theorem loops_keep_or_report (key : string) (items : list json) :
  time_series_data items = (Ok (entries items), skipped HISTORICAL items) /\
  component_time_series_data key items = (Ok (entries items), skipped key items) /\
  Forall2 made_from (filter well_formed items) (entries items) /\
  (length (entries items) + length (skipped key items) = length items)%nat.
Proof.
  split; [apply time_series_data_run|].
  split; [apply component_time_series_data_run|].
  unfold skipped. split.
  - induction items as [|item rest IH]; cbn [filter entries]; [constructor|].
    destruct (well_formed item) eqn:Ew.
    + destruct (item_entry_well_formed item Ew) as (e & -> & Hm).
      now constructor.
    + now rewrite (item_entry_malformed item Ew).
  - induction items as [|item rest IH]; cbn [filter entries map length];
      [reflexivity|].
    rewrite well_formed_item_entry.
    destruct (item_entry item); cbn [negb map length]; lia.
Qed.

(** ** The current reading *)

(** X10: [get_current_fear_greed] never raises; the pair it returns is
    either [(None, None)] or holds two values that are not [None]; it is
    [(None, None)] exactly when an error was logged; and two values are
    returned only when the document holds both under ["fear_and_greed"]. *)
Theorem current_reading_all_or_nothing (resp : response) (score rating : json) :
  current_pair (get_current_fear_greed resp) = (score, rating) ->
  fst (get_current_fear_greed resp) = Ok (score, rating) /\
  is_none score = is_none rating /\
  logs_error (logged (get_current_fear_greed resp)) = is_none score /\
  (is_none score = false ->
   exists data current,
     resp = HttpOk data /\
     py_getitem data CURRENT = Ok current /\
     py_get current "score" = Ok score /\
     py_get current "rating" = Ok rating).
Proof.
  unfold current_pair, logged, get_current_fear_greed.
  destruct resp as [data| | |];
    try (intros [= <- <-]; repeat split; discriminate);
    try (cbn [fetch_json lift bind]; destruct json_error;
         intros [= <- <-]; repeat split; discriminate).
  cbn [fetch_json ret bind].
  destruct (py_in CURRENT data) as [[|]|[]];
    try (intros [= <- <-]; repeat split; discriminate).
  cbn [lift bind negb].
  destruct (py_getitem data CURRENT) as [current|[]] eqn:Ec;
    try (intros [= <- <-]; repeat split; discriminate).
  cbn [lift bind].
  destruct (py_get current "score") as [s|[]] eqn:Es;
    try (intros [= <- <-]; repeat split; discriminate).
  cbn [bind].
  destruct (py_get current "rating") as [r|[]] eqn:Er;
    try (intros [= <- <-]; repeat split; discriminate).
  cbn [bind].
  destruct (is_none s) eqn:Hs; cbn [orb].
  { intros [= <- <-]. repeat split; discriminate. }
  destruct (is_none r) eqn:Hr.
  { intros [= <- <-]. repeat split; discriminate. }
  intros [= <- <-]. cbn. rewrite Hs, Hr. repeat split.
  intros _. now exists data, current.
Qed.

(** ** The caption *)

Lemma lower_lower c : lower (lower c) = lower c.
Proof. destruct c as [[] [] [] [] [] [] [] []]; reflexivity. Qed.

Lemma upper_upper c : upper (upper c) = upper c.
Proof. destruct c as [[] [] [] [] [] [] [] []]; reflexivity. Qed.

Lemma is_cased_lower c : is_cased (lower c) = is_cased c.
Proof. destruct c as [[] [] [] [] [] [] [] []]; reflexivity. Qed.

Lemma is_cased_upper c : is_cased (upper c) = is_cased c.
Proof. destruct c as [[] [] [] [] [] [] [] []]; reflexivity. Qed.

Lemma lower_underscore c : lower c = "_"%char -> c = "_"%char.
Proof.
  destruct c as [[] [] [] [] [] [] [] []]; vm_compute; intros E;
    first [reflexivity | discriminate E].
Qed.

Lemma upper_underscore c : upper c = "_"%char -> c = "_"%char.
Proof.
  destruct c as [[] [] [] [] [] [] [] []]; vm_compute; intros E;
    first [reflexivity | discriminate E].
Qed.

Lemma lower_ascii c :
  (nat_of_ascii c <? 128)%nat = true -> (nat_of_ascii (lower c) <? 128)%nat = true.
Proof.
  destruct c as [[] [] [] [] [] [] [] []]; vm_compute; intros E;
    first [reflexivity | discriminate E].
Qed.

Lemma upper_ascii c :
  (nat_of_ascii c <? 128)%nat = true -> (nat_of_ascii (upper c) <? 128)%nat = true.
Proof.
  destruct c as [[] [] [] [] [] [] [] []]; vm_compute; intros E;
    first [reflexivity | discriminate E].
Qed.

Lemma is_ascii_title_from flag s :
  is_ascii s = true -> is_ascii (title_from flag s) = true.
Proof.
  unfold is_ascii. revert flag.
  induction s as [|c s IH]; intros flag;
    cbn [title_from list_ascii_of_string forallb]; [reflexivity|].
  intros Hs. apply andb_prop in Hs as [Hc Hs].
  rewrite (IH _ Hs), andb_true_r.
  destruct flag; [now apply lower_ascii|now apply upper_ascii].
Qed.

Lemma title_from_idempotent flag s :
  title_from flag (title_from flag s) = title_from flag s.
Proof.
  revert flag. induction s as [|c s IH]; intros flag; cbn [title_from];
    [reflexivity|].
  destruct flag.
  - now rewrite lower_lower, is_cased_lower, IH.
  - now rewrite upper_upper, is_cased_upper, IH.
Qed.

Lemma str_replace_removes a b s :
  a <> b -> ~ In a (list_ascii_of_string (str_replace a b s)).
Proof.
  intros Hab. induction s as [|c s IH]; simpl; [tauto|].
  intros [Hc|Hin]; [|tauto].
  destruct (Ascii.eqb c a) eqn:E; [congruence|].
  apply Ascii.eqb_neq in E. congruence.
Qed.

Lemma title_from_underscore flag s :
  In "_"%char (list_ascii_of_string (title_from flag s)) ->
  In "_"%char (list_ascii_of_string s).
Proof.
  revert flag. induction s as [|c s IH]; intros flag; simpl; [tauto|].
  intros [Hc|Hin]; [left|right; eauto].
  destruct flag; [now apply lower_underscore|now apply upper_underscore].
Qed.

Lemma str_replace_absent a b s :
  ~ In a (list_ascii_of_string s) -> str_replace a b s = s.
Proof.
  induction s as [|c s IH]; cbn; [reflexivity|]. intros Hnin.
  destruct (Ascii.eqb c a) eqn:E.
  - apply Ascii.eqb_eq in E. tauto.
  - rewrite IH by tauto. reflexivity.
Qed.

(** X11: on a rating made of ASCII characters the formatting is
    idempotent, keeps the length, leaves no underscore, and changes letters
    only in their case: lowering the result gives the lowered rating with
    its underscores turned into spaces. *)
Theorem formatted_rating_shape (s : string) :
  is_ascii s = true ->
  formatted_rating (formatted_rating s) = formatted_rating s /\
  String.length (formatted_rating s) = String.length s /\
  ~ In "_"%char (list_ascii_of_string (formatted_rating s)) /\
  lowercase (formatted_rating s) = lowercase (str_replace "_" " " s).
Proof.
  intros Hs.
  assert (Hnone : ~ In "_"%char
                      (list_ascii_of_string
                         (title_from false (str_replace "_" " " s)))).
  { intros Hin. apply title_from_underscore in Hin. revert Hin.
    apply str_replace_removes. discriminate. }
  rewrite (formatted_rating_ascii _ Hs).
  rewrite formatted_rating_ascii
    by (apply is_ascii_title_from, is_ascii_str_replace, Hs).
  split; [|split; [|split]].
  - rewrite str_replace_absent by exact Hnone.
    apply title_from_idempotent.
  - now rewrite title_from_length, str_replace_length.
  - exact Hnone.
  - generalize (str_replace "_" " " s) as t. generalize false as flag.
    unfold lowercase. intros flag t. f_equal. revert flag.
    induction t as [|c t IH]; intros flag; cbn; [reflexivity|].
    rewrite IH. f_equal.
    destruct flag; destruct c as [[] [] [] [] [] [] [] []]; reflexivity.
Qed.

(* ================================================================= *)
(** * Further properties of the handlers *)

(** ** What a handler does to the working directory *)

Lemma untouched_hret {A} (a : A) : untouched (hret a).
Proof. intros w. reflexivity. Qed.

Lemma untouched_hlift {A} (o : outcome A) : untouched (hlift o).
Proof. intros w. reflexivity. Qed.

Lemma untouched_telegram e m : untouched (telegram e m).
Proof. intros w. unfold telegram. now destruct (telegram_ok e (calls w)). Qed.

Lemma untouched_open_rb path : untouched (open_rb path).
Proof. intros w. unfold open_rb. now destruct (exists_file path w). Qed.

Lemma untouched_hbind {A B} (m : H A) (f : A -> H B) :
  untouched m -> (forall a, untouched (f a)) -> untouched (hbind m f).
Proof.
  intros Hm Hf w. unfold hbind. specialize (Hm w).
  destruct (m w) as [[a|e] w']; cbn [snd] in *; [|assumption].
  now rewrite Hf.
Qed.

Lemma untouched_htry {A} (body : H A) (handler : exn -> H A) :
  untouched body -> (forall e, untouched (handler e)) ->
  untouched (htry body handler).
Proof.
  intros Hb Hh w. unfold htry. specialize (Hb w).
  destruct (body w) as [[a|e] w']; cbn [snd] in *; [assumption|].
  now rewrite Hh.
Qed.

Lemma untouched_caption scheduled score rating t :
  untouched (caption scheduled score rating t).
Proof.
  unfold caption.
  apply untouched_hbind; [apply untouched_hlift|intros s].
  apply untouched_hbind; [apply untouched_hlift|intros r].
  apply untouched_hret.
Qed.

Ltac untouched_steps :=
  repeat first
    [ apply untouched_telegram | apply untouched_open_rb
    | apply untouched_caption | apply untouched_hret | apply untouched_hlift
    | apply untouched_hbind; [|intros ?]
    | apply untouched_htry; [|intros ?] ].

Lemma untouched_writes_only name {A} (m : H A) :
  untouched m -> writes_only name m.
Proof. intros Hm w path Hin. left. now rewrite Hm in Hin. Qed.

Lemma writes_only_hbind name {A B} (m : H A) (f : A -> H B) :
  writes_only name m -> (forall a, writes_only name (f a)) ->
  writes_only name (hbind m f).
Proof.
  intros Hm Hf w path. unfold hbind. specialize (Hm w path).
  destruct (m w) as [[a|e] w']; cbn [snd] in *; [|assumption].
  intros Hin. apply Hf in Hin as [Hin | ->]; auto.
Qed.

Lemma writes_only_htry name {A} (body : H A) (handler : exn -> H A) :
  writes_only name body -> (forall e, writes_only name (handler e)) ->
  writes_only name (htry body handler).
Proof.
  intros Hb Hh w path. unfold htry. specialize (Hb w path).
  destruct (body w) as [[a|e] w']; cbn [snd] in *; [assumption|].
  intros Hin. apply Hh in Hin as [Hin | ->]; auto.
Qed.

Lemma writes_only_savefig name : writes_only name (savefig name).
Proof.
  intros w path. unfold savefig. cbn [snd files].
  destruct (exists_file name w); [now left|].
  intros [<-|Hin]; auto.
Qed.

Lemma writes_only_create_chart e df name :
  writes_only name (create_fear_greed_chart e df name).
Proof.
  unfold create_fear_greed_chart.
  destruct (empty df); [apply untouched_writes_only, untouched_hret|].
  destruct (render_ok e); [|apply untouched_writes_only, untouched_hret].
  apply writes_only_hbind; [apply writes_only_savefig|intros _].
  apply untouched_writes_only, untouched_hret.
Qed.

Lemma keeps_savefig name : keeps (savefig name).
Proof.
  intros w path Hin. unfold savefig. cbn [snd files].
  destruct (exists_file name w); [assumption|now right].
Qed.

Lemma keeps_create_chart e df name :
  keeps (create_fear_greed_chart e df name).
Proof.
  unfold create_fear_greed_chart.
  destruct (empty df); [apply keeps_hret|].
  destruct (render_ok e); [|apply keeps_hret].
  apply keeps_hbind; [apply keeps_savefig|intros _; apply keeps_hret].
Qed.

(** X12: [/feargreed] removes no file from the working directory and
    creates no file other than ["fear_greed_chart.png"], on any of its
    paths. *)
Theorem feargreed_touches_one_file (e : env) :
  keeps (feargreed e) /\ writes_only "fear_greed_chart.png" (feargreed e).
Proof.
  unfold feargreed. split.
  - apply keeps_hbind; [apply keeps_telegram|intros _].
    apply keeps_htry; [|intros ?; keeps_steps].
    destruct (current_pair _) as [score rating].
    destruct (is_none score || is_none rating); [keeps_steps|].
    destruct (returned _) as [df|]; [|keeps_steps].
    apply keeps_hbind; [apply keeps_create_chart|intros [path|]];
      keeps_steps.
  - apply writes_only_hbind;
      [apply untouched_writes_only, untouched_telegram|intros _].
    apply writes_only_htry;
      [|intros ?; apply untouched_writes_only; untouched_steps].
    destruct (current_pair _) as [score rating].
    destruct (is_none score || is_none rating);
      [apply untouched_writes_only; untouched_steps|].
    destruct (returned _) as [df|];
      [|apply untouched_writes_only; untouched_steps].
    apply writes_only_hbind; [apply writes_only_create_chart|intros [path|]];
      apply untouched_writes_only; untouched_steps.
Qed.

(** X13: the daily job never raises; [/feargreed] raises only when its first
    reply cannot be sent, and then nothing else has happened. *)
Theorem handlers_contain_failures (e : env) (w : world) :
  fst (scheduled_feargreed e w) = Ok tt /\
  ((telegram_ok e (calls w) = true /\ fst (feargreed e w) = Ok tt) \/
   (telegram_ok e (calls w) = false /\
    feargreed e w
    = (Raise TelegramError, mkWorld (files w) (S (calls w)) (outbox w)))).
Proof.
  assert (Hsafe : forall (body : H unit) w0,
             fst (htry body
                    (fun _ => htry (telegram e (Message Failed))
                                (fun _ => hret tt)) w0) = Ok tt).
  { intros body w0. unfold htry.
    destruct (body w0) as [ [ [] | ex ] w1 ]; [reflexivity|].
    destruct (telegram e (Message Failed) w1) as [ [ [] | ex' ] w2 ];
      reflexivity. }
  split.
  - unfold scheduled_feargreed.
    destruct (chat_id_set e); cbn [negb]; [apply Hsafe|reflexivity].
  - destruct (telegram_ok e (calls w)) eqn:Htg; [left|right];
      (split; [reflexivity|]);
      unfold feargreed, hbind at 1, telegram at 1; rewrite Htg;
      [apply Hsafe|reflexivity].
Qed.

Lemma exists_file_savefig name w :
  exists_file name (snd (savefig name w)) = true.
Proof.
  unfold exists_file. apply existsb_exists. exists name.
  split; [apply savefig_writes|apply String.eqb_refl].
Qed.

Lemma os_remove_files name w :
  files (snd (os_remove name w))
  = filter (fun f => negb (String.eqb name f)) (files w).
Proof.
  unfold os_remove. destruct (exists_file name w) eqn:E; [reflexivity|].
  cbn [snd]. symmetry. apply filter_all. apply Forall_forall. intros f Hf.
  apply negb_true_iff. destruct (String.eqb name f) eqn:Ef; [|reflexivity].
  unfold exists_file in E.
  assert (existsb (String.eqb name) (files w) = true)
    by (apply existsb_exists; now exists f).
  congruence.
Qed.

Lemma filter_savefig name w :
  filter (fun f => negb (String.eqb name f)) (files (snd (savefig name w)))
  = filter (fun f => negb (String.eqb name f)) (files w).
Proof.
  unfold savefig. cbn [snd files].
  destruct (exists_file name w); [reflexivity|].
  cbn [filter]. now rewrite String.eqb_refl.
Qed.

(** X14: once the daily job has sent its caption, its chart file is gone
    when the job ends, whether the photo is delivered or the delivery
    raises, and every other file of the working directory is as before. *)
Theorem scheduled_feargreed_cleans_up (e : env) (w : world)
  (score rating : json) (s : pyfloat) (r : string) (df : Frame) :
  chat_id_set e = true ->
  current_pair (get_current_fear_greed (current_response e)) = (score, rating) ->
  is_none score || is_none rating = false ->
  returned (get_fear_greed_data (history_response e) (now e)) = Some df ->
  render_ok e = true ->
  format_score score = Ok s ->
  format_rating rating = Ok r ->
  telegram_ok e (calls w) = true ->
  fst (scheduled_feargreed e w) = Ok tt /\
  files (snd (scheduled_feargreed e w))
  = filter (fun f => negb (String.eqb "scheduled_fear_greed_chart.png" f))
           (files w).
Proof.
  intros Hchat Hcur Hnone Hdf Hrender Hs Hr Htg.
  pose proof (get_fear_greed_data_result (history_response e) (now e)) as Hres.
  rewrite Hdf in Hres. symmetry in Hres.
  apply series_result_Some in Hres as (_ & _ & Hempty).
  destruct (scheduled_feargreed e w) as [o wf] eqn:E. cbn [fst snd].
  unfold scheduled_feargreed in E.
  rewrite Hchat, Hcur, Hnone, Hdf in E. cbn [negb] in E.
  unfold create_fear_greed_chart in E. rewrite Hempty, Hrender in E.
  unfold htry at 1, hbind at 1, hbind at 1 in E.
  pose proof (exists_file_savefig "scheduled_fear_greed_chart.png" w) as Hex.
  pose proof (filter_savefig "scheduled_fear_greed_chart.png" w) as Hfil.
  assert (Hcalls : calls (snd (savefig "scheduled_fear_greed_chart.png" w))
                   = calls w) by reflexivity.
  destruct (savefig "scheduled_fear_greed_chart.png" w) as [ [ [] | ex ] w1 ]
    eqn:Es; [|discriminate Es].
  cbn [snd hret] in *.
  unfold hbind at 1, caption, hbind at 1, hlift at 1 in E. rewrite Hs in E.
  unfold hbind at 1, hlift at 1 in E. rewrite Hr in E. cbn [hret] in E.
  unfold hbind at 1, telegram at 1 in E. rewrite Hcalls, Htg in E.
  unfold hfinally, hbind, open_rb, os_path_exists, os_remove, telegram,
    exists_file in *.
  cbn [files calls outbox] in E. rewrite Hex in E.
  cbn [files calls outbox] in E.
  destruct (telegram_ok e (S (calls w)));
    repeat (cbn [fst snd files calls outbox] in E; rewrite ?Hex in E);
    [|unfold htry, hret in E; cbn [files calls outbox] in E;
      destruct (telegram_ok e (S (S (calls w))))];
    injection E as <- <-; split; try reflexivity; exact Hfil.
Qed.

(** X15: when there is no current reading, no history, or the chart cannot
    be drawn, neither handler writes or removes a file. *)
Theorem no_chart_no_file (e : env) (w : world) (score rating : json) :
  current_pair (get_current_fear_greed (current_response e)) = (score, rating) ->
  is_none score || is_none rating = true \/
  returned (get_fear_greed_data (history_response e) (now e)) = None \/
  render_ok e = false ->
  files (snd (feargreed e w)) = files w /\
  files (snd (scheduled_feargreed e w)) = files w.
Proof.
  intros Hcur Hno.
  assert (Hchart : forall df name,
            render_ok e = false ->
            untouched (create_fear_greed_chart e df name)).
  { intros df name Hr. unfold create_fear_greed_chart. rewrite Hr.
    destruct (empty df); apply untouched_hret. }
  split.
  - revert w. change (untouched (feargreed e)). unfold feargreed.
    apply untouched_hbind; [apply untouched_telegram|intros _].
    apply untouched_htry; [|intros ?; untouched_steps].
    rewrite Hcur.
    destruct (is_none score || is_none rating); [untouched_steps|].
    destruct Hno as [Hno|[Hno|Hno]]; [discriminate|rewrite Hno; untouched_steps|].
    destruct (returned _) as [df|]; [|untouched_steps].
    apply untouched_hbind; [now apply Hchart|intros [path|]];
      untouched_steps.
  - revert w. change (untouched (scheduled_feargreed e)).
    unfold scheduled_feargreed.
    destruct (chat_id_set e); cbn [negb]; [|apply untouched_hret].
    apply untouched_htry; [|intros ?; untouched_steps].
    rewrite Hcur.
    destruct (is_none score || is_none rating); [untouched_steps|].
    destruct Hno as [Hno|[Hno|Hno]]; [discriminate|rewrite Hno; untouched_steps|].
    destruct (returned _) as [df|]; [|untouched_steps].
    assert (Hu : untouched
                   (message <- caption true score rating NoChart ;;
                    telegram e (Message message))%io) by untouched_steps.
    unfold create_fear_greed_chart. rewrite Hno.
    destruct (empty df); intros w0; apply Hu.
Qed.

(* ================================================================= *)
(** * Properties of the component handlers *)

(** ** The groups of at most ten media *)

Lemma firstn_plus {A} (n m : nat) (l : list A) :
  firstn (n + m) l = firstn n l ++ firstn m (skipn n l).
Proof.
  revert l. induction n as [|n IH]; intros l; [reflexivity|].
  destruct l as [|a l]; cbn [Nat.add firstn skipn app].
  - now rewrite firstn_nil.
  - now rewrite IH.
Qed.

Lemma concat_slices {A} (l : list A) (m : nat) :
  concat (map (slice l) (map (fun k => 10 * k)%nat (seq 0 m)))
  = firstn (10 * m) l.
Proof.
  induction m as [|m IH]; [reflexivity|].
  rewrite seq_S, !map_app, concat_app, IH. cbn [map concat Nat.add].
  rewrite app_nil_r. unfold slice.
  replace (10 * S m)%nat with (10 * m + 10)%nat by lia.
  now rewrite firstn_plus.
Qed.

Lemma groups_bound (n : nat) :
  (n <= 10 * ((n + 9) / 10) < n + 10)%nat.
Proof.
  pose proof (Nat.div_mod_eq (n + 9) 10) as Hdm.
  pose proof (Nat.mod_upper_bound (n + 9) 10) as Hub.
  lia.
Qed.

(** X16: the groups in which the media are sent, one after the other, are
    the media in their order; no group is empty, none holds more than ten
    media, every group but the last holds ten, and there are as many groups
    as tens in the number of media, rounded up. *)
Theorem batches_cover {A} (l : list A) :
  concat (batches l) = l /\
  Forall (fun group => (1 <= length group <= 10)%nat) (batches l) /\
  Forall (fun group => length group = 10%nat) (removelast (batches l)) /\
  length (batches l) = ((length l + 9) / 10)%nat.
Proof.
  unfold batches, range_by_10.
  pose proof (groups_bound (length l)) as Hb.
  set (m := ((length l + 9) / 10)%nat) in *.
  assert (Hlen : forall k, (k < m)%nat ->
            length (slice l (10 * k)) = Nat.min 10 (length l - 10 * k)).
  { intros k _. unfold slice. now rewrite length_firstn, length_skipn. }
  split; [|split; [|split]].
  - rewrite concat_slices. apply firstn_all2. lia.
  - apply Forall_forall. intros group Hin.
    apply in_map_iff in Hin as (i & <- & Hi).
    apply in_map_iff in Hi as (k & <- & Hk).
    apply in_seq in Hk. rewrite Hlen by lia. lia.
  - apply Forall_forall. intros group Hin.
    destruct m as [|m']; [contradiction|].
    rewrite seq_S, !map_app in Hin. cbn [map] in Hin.
    rewrite removelast_last in Hin.
    apply in_map_iff in Hin as (i & <- & Hi).
    apply in_map_iff in Hi as (k & <- & Hk).
    apply in_seq in Hk. rewrite Hlen by lia. lia.
  - now rewrite !length_map, length_seq.
Qed.

(** ** The working directory of the component handlers *)

Lemma get_component_data_not_empty key resp now df :
  returned (get_component_data key resp now) = Some df -> empty df = false.
Proof.
  rewrite get_component_data_result. intros Hr.
  now apply series_result_Some in Hr as (_ & _ & He).
Qed.

Lemma without_savefig names name w :
  In name names ->
  without names (files (snd (savefig name w))) = without names (files w).
Proof.
  intros Hin. unfold savefig, without. cbn [snd files].
  destruct (exists_file name w); [reflexivity|]. cbn [filter].
  replace (existsb (String.eqb name) names) with true; [reflexivity|].
  symmetry. apply existsb_exists. exists name.
  split; [assumption|apply String.eqb_refl].
Qed.

Lemma without_cons name names fs :
  without (name :: names) fs
  = without names (filter (fun f => negb (String.eqb name f)) fs).
Proof.
  unfold without. induction fs as [|f fs IH]; cbn [filter existsb];
    [reflexivity|].
  rewrite (String.eqb_sym name f).
  destruct (String.eqb f name); cbn [orb negb filter]; [exact IH|].
  destruct (existsb (String.eqb f) names); cbn [negb];
    [exact IH|f_equal; exact IH].
Qed.

Lemma without_app names1 names2 fs :
  without (names1 ++ names2) fs = without names2 (without names1 fs).
Proof.
  revert fs. induction names1 as [|name names1 IH]; intros fs; cbn [app].
  - replace (without [] fs) with fs; [reflexivity|].
    symmetry. apply filter_all. now apply Forall_forall.
  - now rewrite !without_cons, IH.
Qed.

(** What one pass of the loop of [components] does. *)
Lemma gather_charts_run ce info d :
  exists w',
    gather_charts ce info d
    = (Ok tt,
       mkDesk w' (posts d)
              (media_group d ++ drawn_charts ce false info)
              (chart_files_to_delete d ++ drawn_charts ce false info)
              (has_error d || some_missing ce info)) /\
    calls w' = calls (directory d) /\
    forall names,
      incl (drawn_charts ce false info) names ->
      without names (files w') = without names (files (directory d)).
Proof.
  revert d. induction info as [|[key [title color]] rest IH]; intros d.
  - exists (directory d). cbn [gather_charts drawn_charts some_missing
      filter map existsb]. rewrite !app_nil_r, orb_false_r.
    destruct d. repeat split.
  - cbn [gather_charts]. unfold drawn_charts, some_missing.
    cbn [filter existsb map fst].
    pose proof (eq_refl (drawn ce key)) as Hd. unfold drawn at 2 in Hd.
    unfold dbind at 1.
    destruct (returned (get_component_data key (component_response ce key)
                          (now (base ce)))) as [df|] eqn:Er.
    + apply get_component_data_not_empty in Er.
      unfold dbind at 1, in_directory at 1, create_component_chart.
      rewrite Er.
      destruct (component_render_ok ce key) eqn:Ek; rewrite Hd.
      * pose proof (exists_file_savefig ("component_" ++ key ++ "_chart.png")
                      (directory d)) as Hex.
        pose proof (fun names =>
                      without_savefig names ("component_" ++ key ++ "_chart.png")
                        (directory d)) as Hwo.
        assert (Hcalls :
                  calls (snd (savefig ("component_" ++ key ++ "_chart.png")
                                (directory d))) = calls (directory d))
          by reflexivity.
        unfold hbind at 1.
        destruct (savefig ("component_" ++ key ++ "_chart.png") (directory d))
          as [ [ [] | ex ] w1 ] eqn:Es; [|discriminate Es].
        cbn [snd hret] in *.
        unfold dbind at 1, in_directory at 1, open_rb. cbn [directory].
        rewrite Hex. cbn [posts media_group chart_files_to_delete has_error].
        unfold dbind at 1, append_media, append_file_to_delete.
        cbn [directory posts media_group chart_files_to_delete has_error].
        match goal with
        | |- context [gather_charts ce rest ?d1] =>
            destruct (IH d1) as (w' & -> & Hc & Hw)
        end.
        cbn [directory posts media_group chart_files_to_delete has_error] in *.
        exists w'. cbn [map negb orb fst]. rewrite <- !app_assoc. cbn [app].
        split; [reflexivity|]. split; [congruence|].
        intros names Hincl. rewrite Hw.
        -- apply Hwo. apply Hincl. now left.
        -- intros f Hf. apply Hincl. now right.
      * cbn [hret snd]. unfold set_has_error.
        cbn [directory posts media_group chart_files_to_delete has_error].
        match goal with
        | |- context [gather_charts ce rest ?d1] =>
            destruct (IH d1) as (w' & -> & Hc & Hw)
        end.
        cbn [directory posts media_group chart_files_to_delete has_error] in *.
        exists w'. cbn [negb orb]. rewrite orb_true_r. cbn [orb].
        repeat split; assumption.
    + rewrite Hd. unfold set_has_error.
      cbn [directory posts media_group chart_files_to_delete has_error].
      match goal with
      | |- context [gather_charts ce rest ?d1] =>
          destruct (IH d1) as (w' & -> & Hc & Hw)
      end.
      cbn [directory posts media_group chart_files_to_delete has_error] in *.
      exists w'. cbn [negb orb]. rewrite orb_true_r. cbn [orb].
      repeat split; assumption.
Qed.

Lemma remove_each_run paths d :
  exists w',
    remove_each paths d
    = (Ok tt, mkDesk w' (posts d) (media_group d) (chart_files_to_delete d)
                     (has_error d)) /\
    files w' = without paths (files (directory d)).
Proof.
  revert d. induction paths as [|f rest IH]; intros d; cbn [remove_each].
  - exists (directory d). split; [now destruct d|].
    symmetry. apply filter_all. now apply Forall_forall.
  - unfold dbind at 1, dtry, in_directory.
    pose proof (os_remove_files f (directory d)) as Hf.
    unfold os_remove in *.
    destruct (exists_file f (directory d)); cbn [snd files] in Hf;
      cbn [dret];
      match goal with
      | |- context [remove_each rest ?d1] =>
          destruct (IH d1) as (w' & -> & Hw)
      end;
      cbn [directory posts media_group chart_files_to_delete has_error files]
        in *;
      exists w'; (split; [reflexivity|]);
      rewrite Hw, without_cons; [reflexivity|now rewrite <- Hf].
Qed.

Lemma remove_each_existing_run paths d :
  exists w',
    remove_each_existing paths d
    = (Ok tt, mkDesk w' (posts d) (media_group d) (chart_files_to_delete d)
                     (has_error d)) /\
    files w' = without paths (files (directory d)).
Proof.
  revert d. induction paths as [|f rest IH]; intros d;
    cbn [remove_each_existing].
  - exists (directory d). split; [now destruct d|].
    symmetry. apply filter_all. now apply Forall_forall.
  - unfold dbind at 1, in_directory at 1, os_path_exists.
    cbn [directory posts media_group chart_files_to_delete has_error].
    pose proof (os_remove_files f (directory d)) as Hf.
    unfold dbind at 1. unfold dtry, in_directory, os_remove in *.
    destruct (exists_file f (directory d)) eqn:Ex; cbn [snd files] in Hf;
      cbn [dret directory]; rewrite ?Ex;
      match goal with
      | |- context [remove_each_existing rest ?d1] =>
          destruct (IH d1) as (w' & -> & Hw)
      end;
      cbn [directory posts media_group chart_files_to_delete has_error files]
        in *;
      exists w'; (split; [reflexivity|]);
      rewrite Hw, without_cons; [reflexivity|now rewrite <- Hf].
Qed.

Lemma quiet_dret {A} (a : A) : quiet (dret a).
Proof. intros d. repeat split. Qed.

Lemma quiet_read_locals : quiet read_locals.
Proof. intros d. repeat split. Qed.

Lemma quiet_post_call e p : quiet (post_call e p).
Proof.
  intros d. unfold post_call.
  destruct (telegram_ok e (calls (directory d))); repeat split.
Qed.

Lemma quiet_dbind {A B} (m : D A) (f : A -> D B) :
  quiet m -> (forall a, quiet (f a)) -> quiet (dbind m f).
Proof.
  intros Hm Hf d. unfold dbind. specialize (Hm d).
  destruct (m d) as [[a|e] d']; cbn [snd] in *; [|assumption].
  destruct (Hf a d') as (H1 & H2 & H3 & H4).
  destruct Hm as (G1 & G2 & G3 & G4).
  repeat split; congruence.
Qed.

Lemma quiet_dtry {A} (body : D A) (handler : exn -> D A) :
  quiet body -> (forall e, quiet (handler e)) -> quiet (dtry body handler).
Proof.
  intros Hb Hh d. unfold dtry. specialize (Hb d).
  destruct (body d) as [[a|e] d']; cbn [snd] in *; [assumption|].
  destruct (Hh e d') as (H1 & H2 & H3 & H4).
  destruct Hb as (G1 & G2 & G3 & G4).
  repeat split; congruence.
Qed.

Lemma quiet_send_groups e groups : quiet (send_groups e groups).
Proof.
  induction groups as [|g rest IH]; cbn [send_groups]; [apply quiet_dret|].
  apply quiet_dbind; [apply quiet_post_call|intros _; exact IH].
Qed.

Ltac quiet_steps :=
  repeat first
    [ apply quiet_post_call | apply quiet_send_groups | apply quiet_dret
    | apply quiet_read_locals
    | apply quiet_dbind; [|intros ?]
    | apply quiet_dtry; [|intros ?]
    | match goal with
      | |- quiet (if ?b then _ else _) => destruct b
      | |- quiet (match ?l with _ => _ end) => destruct l as [[? ?] ?]
      end ].

Lemma dtry_contained e p (body : D unit) d :
  fst (dtry body (fun _ => dtry (post_call e p) (fun _ => dret tt)) d) = Ok tt.
Proof.
  unfold dtry. destruct (body d) as [ [ [] | ex ] d1 ]; [reflexivity|].
  destruct (post_call e p d1) as [ [ [] | ex' ] d2 ]; reflexivity.
Qed.

(** X17: once its first reply has gone out, [/components] ends without
    raising and has removed every chart file it wrote, whichever of the
    later calls to the chat raise; the other files of the working
    directory are as before. *)
Theorem components_clean_up (ce : component_env) (d : desk) :
  telegram_ok (base ce) (calls (directory d)) = true ->
  fst (components ce d) = Ok tt /\
  files (directory (snd (components ce d)))
  = without (drawn_charts ce false COMPONENTS_INFO) (files (directory d)).
Proof.
  intros Htg. destruct (components ce d) as [o dz] eqn:E. cbn [fst snd].
  unfold components in E.
  unfold dbind at 1, post_call at 1 in E. rewrite Htg in E.
  unfold dbind at 1, init_locals in E.
  cbn [directory posts media_group chart_files_to_delete has_error] in E.
  unfold dbind at 1 in E.
  match type of E with
  | context [gather_charts ce COMPONENTS_INFO ?d1] =>
      destruct (gather_charts_run ce COMPONENTS_INFO d1) as (w1 & Hg & _ & Hw)
  end.
  rewrite Hg in E. clear Hg.
  cbn [directory posts media_group chart_files_to_delete has_error files app]
    in *.
  unfold dfinally in E.
  match type of E with
  | context [dtry ?body ?handler ?d3] =>
      pose proof (dtry_contained (base ce) (Notice (ComponentsFailed false))
                    body d3) as Hok;
      assert (Hq : quiet (dtry body handler)) by quiet_steps;
      specialize (Hq d3);
      destruct (dtry body handler d3) as [r d4]
  end.
  cbn [fst snd directory chart_files_to_delete] in *.
  destruct Hq as (Hfiles & _ & Hdel & _). subst r.
  unfold dbind, read_locals in E.
  destruct (remove_each_run (chart_files_to_delete d4) d4) as (w5 & Hr & Hw5).
  rewrite Hr in E. injection E as <- <-. split; [reflexivity|].
  cbn [directory]. rewrite Hw5, Hdel, Hfiles.
  apply Hw. apply incl_refl.
Qed.

(** What one pass of the loop of [scheduled_components] does. *)
Lemma gather_scheduled_charts_run ce info d :
  exists w',
    gather_scheduled_charts ce info d
    = (Ok tt,
       mkDesk w' (posts d)
              (media_group d ++ drawn_charts ce true info)
              (chart_files_to_delete d ++ drawn_charts ce true info)
              (has_error d || some_missing ce info)) /\
    calls w' = calls (directory d) /\
    forall names,
      incl (drawn_charts ce true info) names ->
      without names (files w') = without names (files (directory d)).
Proof.
  revert d. induction info as [|[key [title color]] rest IH]; intros d.
  - exists (directory d). cbn [gather_scheduled_charts drawn_charts
      some_missing filter map existsb]. rewrite !app_nil_r, orb_false_r.
    destruct d. repeat split.
  - cbn [gather_scheduled_charts]. unfold drawn_charts, some_missing.
    cbn [filter existsb map fst].
    pose proof (eq_refl (drawn ce key)) as Hd. unfold drawn at 2 in Hd.
    unfold dbind at 1.
    destruct (returned (get_component_data key (component_response ce key)
                          (now (base ce)))) as [df|] eqn:Er.
    + apply get_component_data_not_empty in Er.
      unfold dbind at 1, in_directory at 1, create_component_chart.
      rewrite Er.
      destruct (component_render_ok ce key) eqn:Ek; rewrite Hd.
      * pose proof (exists_file_savefig
                      ("scheduled_component_" ++ key ++ "_chart.png")
                      (directory d)) as Hex.
        pose proof (fun names =>
                      without_savefig names
                        ("scheduled_component_" ++ key ++ "_chart.png")
                        (directory d)) as Hwo.
        assert (Hcalls :
                  calls (snd (savefig
                                ("scheduled_component_" ++ key ++ "_chart.png")
                                (directory d))) = calls (directory d))
          by reflexivity.
        unfold hbind at 1.
        destruct (savefig ("scheduled_component_" ++ key ++ "_chart.png")
                    (directory d))
          as [ [ [] | ex ] w1 ] eqn:Es; [|discriminate Es].
        cbn [snd hret] in *.
        unfold dtry at 1, dbind at 1, in_directory at 1, open_rb.
        cbn [directory].
        rewrite Hex. cbn [posts media_group chart_files_to_delete has_error].
        unfold dbind at 1, append_media, append_file_to_delete.
        cbn [directory posts media_group chart_files_to_delete has_error].
        match goal with
        | |- context [gather_scheduled_charts ce rest ?d1] =>
            destruct (IH d1) as (w' & -> & Hc & Hw)
        end.
        cbn [directory posts media_group chart_files_to_delete has_error] in *.
        exists w'. cbn [map negb orb fst]. rewrite <- !app_assoc. cbn [app].
        split; [reflexivity|]. split; [congruence|].
        intros names Hincl. rewrite Hw.
        -- apply Hwo. apply Hincl. now left.
        -- intros f Hf. apply Hincl. now right.
      * cbn [hret snd]. unfold set_has_error.
        cbn [directory posts media_group chart_files_to_delete has_error].
        match goal with
        | |- context [gather_scheduled_charts ce rest ?d1] =>
            destruct (IH d1) as (w' & -> & Hc & Hw)
        end.
        cbn [directory posts media_group chart_files_to_delete has_error] in *.
        exists w'. cbn [negb orb]. rewrite orb_true_r. cbn [orb].
        repeat split; assumption.
    + rewrite Hd. unfold set_has_error.
      cbn [directory posts media_group chart_files_to_delete has_error].
      match goal with
      | |- context [gather_scheduled_charts ce rest ?d1] =>
          destruct (IH d1) as (w' & -> & Hc & Hw)
      end.
      cbn [directory posts media_group chart_files_to_delete has_error] in *.
      exists w'. cbn [negb orb]. rewrite orb_true_r. cbn [orb].
      repeat split; assumption.
Qed.

(** X18: the daily job for the components never raises, and when it ends
    every chart file it wrote has been removed, whichever calls to the chat
    raise; the other files are as before.  Without a chat id it does
    nothing at all. *)
Theorem scheduled_components_clean_up (ce : component_env) (d : desk) :
  fst (scheduled_components ce d) = Ok tt /\
  files (directory (snd (scheduled_components ce d)))
  = (if chat_id_set (base ce)
     then without (drawn_charts ce true COMPONENTS_INFO) (files (directory d))
     else files (directory d)) /\
  (if chat_id_set (base ce) then True
   else scheduled_components ce d = (Ok tt, d)).
Proof.
  destruct (scheduled_components ce d) as [o dz] eqn:E. cbn [fst snd].
  unfold scheduled_components in E.
  destruct (chat_id_set (base ce)); cbn [negb] in E.
  2:{ injection E as <- <-. repeat split. }
  unfold dbind at 1, init_locals in E.
  unfold dfinally in E.
  match type of E with
  | context [dtry ?body ?handler ?d3] =>
      pose proof (dtry_contained (base ce) (Notice (ComponentsFailed true))
                    body d3) as Hok;
      destruct (gather_scheduled_charts_run ce COMPONENTS_INFO d3)
        as (w1 & Hg & _ & Hw);
      destruct (dtry body handler d3) as [r d4] eqn:Eb
  end.
  cbn [fst snd directory posts media_group chart_files_to_delete has_error
         app] in *.
  subst r.
  assert (Hb : files (directory d4) = files w1 /\
               chart_files_to_delete d4
               = drawn_charts ce true COMPONENTS_INFO).
  { unfold dtry at 1, dbind at 1 in Eb. rewrite Hg in Eb.
    match type of Eb with
    | context [match ?k ?d1 with _ => _ end] =>
        assert (Hq : quiet k) by quiet_steps;
        specialize (Hq d1); destruct (k d1) as [ [ [] | ex ] d2 ]
    end; cbn [snd directory chart_files_to_delete] in Hq;
      destruct Hq as (H1 & _ & H3 & _).
    - injection Eb as <-. now split.
    - match type of Eb with
      | context [dtry ?m ?h d2] =>
          assert (Hq2 : quiet (dtry m h)) by quiet_steps;
          specialize (Hq2 d2); rewrite Eb in Hq2
      end.
      cbn [snd] in Hq2. destruct Hq2 as (G1 & _ & G3 & _).
      split; congruence. }
  destruct Hb as (Hfiles & Hdel).
  unfold dbind, read_locals in E.
  destruct (remove_each_existing_run (chart_files_to_delete d4) d4)
    as (w5 & Hr & Hw5).
  rewrite Hr in E. injection E as <- <-. split; [reflexivity|].
  split; [|exact I].
  cbn [directory]. rewrite Hw5, Hdel, Hfiles.
  apply Hw. apply incl_refl.
Qed.

(** ** What the component handlers post *)

Section AllCallsSucceed.
Variable e : env.
Hypothesis chat_works : forall n, telegram_ok e n = true.

Lemma posting_post_call p : posting [p] (post_call e p).
Proof. intros d. unfold post_call. rewrite chat_works. repeat split. Qed.

Lemma posting_dret : posting [] (dret tt).
Proof. intros d. cbn. rewrite app_nil_r. repeat split. Qed.

Lemma posting_dbind ps1 ps2 (m k : D unit) :
  posting ps1 m -> posting ps2 k -> posting (ps1 ++ ps2) (dbind m (fun _ => k)).
Proof.
  intros Hm Hk d. unfold dbind.
  destruct (Hm d) as (M1 & M2 & M3 & M4 & M5 & M6).
  destruct (m d) as [r d1]. cbn [fst snd] in *. subst r.
  destruct (Hk d1) as (K1 & K2 & K3 & K4 & K5 & K6).
  rewrite app_assoc, <- M2. repeat split; congruence.
Qed.

Lemma posting_send_groups groups :
  posting (map MediaGroup groups) (send_groups e groups).
Proof.
  induction groups as [|g rest IH]; cbn [send_groups map];
    [apply posting_dret|].
  apply (@posting_dbind [MediaGroup g] (map MediaGroup rest));
    [apply posting_post_call|exact IH].
Qed.
End AllCallsSucceed.

(** X19: when every call to the chat succeeds, [/components] posts its
    notice of progress and then, if at least one chart was drawn, deletes
    that notice, announces the charts, sends them in their groups and adds
    one note when some component is missing; if no chart was drawn it posts
    a single message instead.  A partial failure still delivers the charts
    that were drawn. *)
Theorem components_posts (ce : component_env) (d : desk) :
  (forall n, telegram_ok (base ce) n = true) ->
  let charts := drawn_charts ce false COMPONENTS_INFO in
  let missing := some_missing ce COMPONENTS_INFO in
  posts (snd (components ce d))
  = posts d ++
    Notice ComponentsProcessing ::
    (if empty charts then
       [Notice (if missing then NoChartAtAll false else NoComponents false)]
     else
       Deleted :: Notice (ChartsFollow false) ::
       map MediaGroup (batches charts) ++
       (if missing then [Notice PartialFailure] else [])).
Proof.
  intros Hchat charts missing.
  destruct (components ce d) as [o dz] eqn:E. cbn [snd].
  unfold components in E.
  unfold dbind at 1, post_call at 1 in E. rewrite Hchat in E.
  unfold dbind at 1, init_locals in E.
  cbn [directory posts media_group chart_files_to_delete has_error] in E.
  unfold dbind at 1 in E.
  match type of E with
  | context [gather_charts ce COMPONENTS_INFO ?d1] =>
      destruct (gather_charts_run ce COMPONENTS_INFO d1) as (w1 & Hg & _ & _)
  end.
  rewrite Hg in E. clear Hg.
  cbn [directory posts media_group chart_files_to_delete has_error app orb]
    in E.
  fold charts missing in E.
  unfold dfinally, dtry at 1, dbind at 1, read_locals at 1 in E.
  cbn [media_group has_error] in E.
  assert (Hdeliver :
            posting
              (if empty charts then
                 [Notice (if missing then NoChartAtAll false
                          else NoComponents false)]
               else
                 Deleted :: Notice (ChartsFollow false) ::
                 map MediaGroup (batches charts) ++
                 (if missing then [Notice PartialFailure] else []))
              (if negb (empty charts) then
                 (post_call (base ce) Deleted ;;;
                  post_call (base ce) (Notice (ChartsFollow false)) ;;;
                  send_groups (base ce) (batches charts) ;;;
                  if missing then post_call (base ce) (Notice PartialFailure)
                  else dret tt)%desk
               else if missing
                    then post_call (base ce) (Notice (NoChartAtAll false))
                    else post_call (base ce) (Notice (NoComponents false)))).
  { pose proof (@posting_post_call (base ce) Hchat) as Hpost.
    destruct (empty charts); cbn [negb].
    - destruct missing; apply Hpost.
    - apply (@posting_dbind [Deleted] _ _ _ (Hpost Deleted)).
      apply (@posting_dbind [Notice (ChartsFollow false)] _ _ _
               (Hpost (Notice (ChartsFollow false)))).
      apply (@posting_dbind _ _ _ _
               (@posting_send_groups (base ce) Hchat (batches charts))).
      destruct missing; [apply Hpost|apply posting_dret]. }
  match type of E with
  | context [match ?k ?d3 with _ => _ end] =>
      destruct (Hdeliver d3) as (D1 & D2 & _ & _ & D5 & _);
      destruct (k d3) as [r d4]
  end.
  cbn [fst snd posts chart_files_to_delete] in *. subst r.
  unfold dbind, read_locals in E.
  destruct (remove_each_run (chart_files_to_delete d4) d4) as (w5 & Hr & _).
  rewrite Hr in E. injection E as <- <-. cbn [posts].
  rewrite D2, <- app_assoc. reflexivity.
Qed.

(** ** The names of the chart files *)

Lemma list_ascii_of_string_app a b :
  list_ascii_of_string (a ++ b)%string
  = list_ascii_of_string a ++ list_ascii_of_string b.
Proof. induction a as [|c a IH]; cbn; [reflexivity|now rewrite IH]. Qed.

Lemma string_app_inv_tail a b suffix :
  (a ++ suffix)%string = (b ++ suffix)%string -> a = b.
Proof.
  intros Heq. apply (f_equal list_ascii_of_string) in Heq.
  rewrite !list_ascii_of_string_app in Heq. apply app_inv_tail in Heq.
  rewrite <- (string_of_list_ascii_of_string a),
    <- (string_of_list_ascii_of_string b). now rewrite Heq.
Qed.

Lemma eqb_app_tail a b suffix :
  String.eqb (a ++ suffix) (b ++ suffix) = String.eqb a b.
Proof.
  destruct (String.eqb a b) eqn:E.
  - apply String.eqb_eq in E. subst. apply String.eqb_refl.
  - apply String.eqb_neq. apply String.eqb_neq in E.
    intros Heq. apply E. eapply string_app_inv_tail. exact Heq.
Qed.

(** X20: the chart files of the four handlers never share a name: the
    command and the daily job use different names for the same component,
    two components have different names, none of them is the name of an
    overall chart, and the keys of [COMPONENTS_INFO] are pairwise
    distinct. *)
Theorem chart_names_do_not_collide (scheduled scheduled' : bool)
  (key key' : string) :
  String.eqb (chart_name scheduled key) (chart_name scheduled' key')
  = Bool.eqb scheduled scheduled' && String.eqb key key' /\
  String.eqb (chart_name scheduled key) "fear_greed_chart.png" = false /\
  String.eqb (chart_name scheduled key) "scheduled_fear_greed_chart.png"
  = false /\
  String.eqb "fear_greed_chart.png" "scheduled_fear_greed_chart.png" = false /\
  NoDup (map fst COMPONENTS_INFO).
Proof.
  split; [|split; [|split; [|split]]].
  - unfold chart_name.
    destruct scheduled, scheduled'; cbn [Bool.eqb andb];
      try reflexivity; cbn -[String.append String.eqb];
      repeat (cbn [String.append String.eqb Ascii.eqb Bool.eqb]);
      apply eqb_app_tail.
  - destruct scheduled; reflexivity.
  - destruct scheduled; reflexivity.
  - reflexivity.
  - unfold COMPONENTS_INFO. cbn [map fst].
    repeat (constructor; [cbn; intuition discriminate|]). constructor.
Qed.


End Properties.

(* ================================================================= *)
(** * Examples, on the sample libraries *)

#[export] Existing Instance Sample.

(** ** Runs of the pipeline *)

Example str_title_samples :
  str_title "fEAR-and gREED 2x" = "Fear-And Greed 2X" /\
  formatted_rating "extreme_greed" = "Extreme Greed".
Proof. repeat split. Qed.

Example reordering_sample :
  map (@index stamp pyfloat)
      (@sort_values Reordering pyfloat
         [ mkRow 0%nat (Some 5) (FFin 1); mkRow 1%nat (Some 5) (FFin 2);
           mkRow 2%nat (Some 3) (FFin 3) ])
  = [2; 1; 0]%nat.
Proof. reflexivity. Qed.

Lemma get_fear_greed_data_window_witness :
  ascending scenario_frame /\
  Forall (not_before (last_year scenario_now)) scenario_frame /\
  scenario_now - 366 * NS_PER_DAY < last_year scenario_now
    <= scenario_now - 365 * NS_PER_DAY.
Proof.
  apply (@get_fear_greed_data_window Sample
           (HttpOk (historical_document scenario_items)) scenario_now).
  vm_compute. reflexivity.
Defined.

(** C1, counterexample: a point dated after [now] is kept, so the upper
    bound of the stated interval does not hold. *)
Lemma window_claim_counterexample :
  ~ window_claim (HttpOk (historical_document future_items)) scenario_now.
Proof.
  intros Hc.
  destruct (Hc [mkRow 0%nat (Some (1700300000000 * NS_PER_MS)) (FFin (50 # 1))])
    as [_ Hall]; [vm_compute; reflexivity|].
  apply Forall_inv in Hall. destruct Hall as (z & Hz & _ & Hhi).
  injection Hz as <-. vm_compute in Hhi. now apply Hhi.
Qed.



Lemma get_fear_greed_data_not_empty_witness :
  get_fear_greed_data (HttpOk (historical_document null_items)) scenario_now
  = (Ok (if empty (@nil (row stamp pyfloat)) then None else Some []),
     [(INFO, DictType (JObj [("data", JArr null_items)]));
      (INFO, DictContent (JObj [("data", JArr null_items)]));
      (INFO, ListLength HISTORICAL (length null_items));
      (INFO, FirstItem (hd JNull null_items))]
     ++ skipped HISTORICAL null_items
     ++ [(INFO, ExtractedLength (length (entries null_items)));
         if empty (@nil (row stamp pyfloat))
         then (ERROR, EmptyAfterProcessing HISTORICAL)
         else (INFO, Processed HISTORICAL (length (@nil (row stamp pyfloat))))])
  /\
  (forall resp df,
      returned (get_fear_greed_data resp scenario_now) = Some df ->
      empty df = false /\
      exists data' d' items',
        resp = HttpOk data' /\
        py_getitem data' HISTORICAL = Ok d' /\
        py_getitem d' "data" = Ok (JArr items') /\
        normalize scenario_now (frame_from 0 (entries items')) = Ok df).
Proof.
  apply (@get_fear_greed_data_not_empty Sample
           (historical_document null_items)
           (JObj [("data", JArr null_items)]) null_items scenario_now []);
    vm_compute; reflexivity.
Defined.

(** C3, counterexample: the only point has a null value, the normalised
    series is empty, and the function returns [None] after logging an
    error instead of returning the empty series. *)
Lemma empty_series_claim_counterexample :
  ~ empty_series_claim null_items scenario_now /\
  In (ERROR, EmptyAfterProcessing HISTORICAL)
     (logged (get_fear_greed_data
                (HttpOk (historical_document null_items)) scenario_now)).
Proof.
  split.
  - intros Hc. specialize (Hc eq_refl). vm_compute in Hc. discriminate.
  - vm_compute. auto 10.
Qed.



Lemma extraction_failures_witness :
  get_fear_greed_data (HttpOk current_document) scenario_now
  = (Ok None, [(ERROR, MissingKey HISTORICAL)]) /\
  get_fear_greed_data (HttpOk (historical_document [])) scenario_now
  = (Ok None,
     [(INFO, DictType (JObj [("data", JArr [])]));
      (INFO, DictContent (JObj [("data", JArr [])]));
      (ERROR, EmptyList HISTORICAL)]) /\
  MissingKey HISTORICAL <> EmptyList HISTORICAL.
Proof.
  apply (@extraction_failures Sample current_document (historical_document [])
           (JObj [("data", JArr [])]) scenario_now); reflexivity.
Defined.

(** C5, counterexample: the value returned is the same in both cases, so
    the two failures are not distinct outcomes for a caller. *)
Lemma distinct_failures_claim_counterexample :
  ~ distinct_failures_claim (historical_document []) current_document
      scenario_now.
Proof. intros Hc. apply Hc. reflexivity. Qed.

Lemma one_malformed_item_is_skipped_witness :
  exists records,
    time_series_data
      ([point 1700000000000 (JStr "50")]
         ++ JObj [("x", number 1700050000000)]
         :: [point 1700100000000 (number 70)])
    = (Ok records,
       [(WARNING, SkippedItem HISTORICAL (JObj [("x", number 1700050000000)]))])
    /\
    Forall2 made_from
      ([point 1700000000000 (JStr "50")] ++ [point 1700100000000 (number 70)])
      records /\
    returned (get_fear_greed_data
                (HttpOk (historical_document
                   ([point 1700000000000 (JStr "50")]
                      ++ JObj [("x", number 1700050000000)]
                      :: [point 1700100000000 (number 70)]))) scenario_now)
    = returned (get_fear_greed_data
                  (HttpOk (historical_document
                     ([point 1700000000000 (JStr "50")]
                        ++ [point 1700100000000 (number 70)]))) scenario_now).
Proof.
  apply (@one_malformed_item_is_skipped Sample
           [point 1700000000000 (JStr "50")]
           [point 1700100000000 (number 70)]
           (JObj [("x", number 1700050000000)]) scenario_now); reflexivity.
Defined.




Lemma feargreed_leaves_chart_file_witness :
  In "fear_greed_chart.png"
     (files (snd (feargreed delivery_env empty_directory))).
Proof.
  apply (@feargreed_leaves_chart_file Sample delivery_env empty_directory
           (JNum (FFin (85 # 2))) (JStr "fear") scenario_frame);
    vm_compute; reflexivity.
Defined.

(** The run of [/feargreed] in which every call succeeds, next to the runs
    of the daily job: the photo is delivered and the file stays; the daily
    job removes its file after the delivery of the photo, but leaves it
    when the caption cannot be sent. *)
Example delivery_runs :
  let manual := feargreed delivery_env empty_directory in
  let daily := scheduled_feargreed delivery_env empty_directory in
  let daily_failed := scheduled_feargreed caption_fails_env empty_directory in
  fst manual = Ok tt /\
  outbox (snd manual)
  = [ Message Processing;
      Message (Caption false (FFin (85 # 2)) "Fear" ChartFollows);
      Photo "fear_greed_chart.png" ] /\
  files (snd manual) = ["fear_greed_chart.png"] /\
  files (snd daily) = [] /\
  files (snd daily_failed) = ["scheduled_fear_greed_chart.png"].
Proof. vm_compute. repeat split. Qed.

(** ** Runs for the further properties *)


Lemma unconvertible_timestamp_witness :
  returned (get_component_data HISTORICAL
              (HttpOk (historical_document
                 [point 1700000000000 (number 50);
                  JObj [("x", JBool true); ("y", number 60)]]))
              scenario_now) = None /\
  (HISTORICAL = HISTORICAL ->
   returned (get_fear_greed_data
               (HttpOk (historical_document
                  [point 1700000000000 (number 50);
                   JObj [("x", JBool true); ("y", number 60)]]))
               scenario_now) = None).
Proof.
  apply (@unconvertible_timestamp Sample HISTORICAL _
           (JObj [("data", JArr [point 1700000000000 (number 50);
                    JObj [("x", JBool true); ("y", number 60)]])])
           [point 1700000000000 (number 50);
            JObj [("x", JBool true); ("y", number 60)]]
           scenario_now (mkEntry (JBool true) (number 60)) ValueError);
    try reflexivity.
  simpl. auto.
Defined.

Lemma returned_rows_witness :
  In (mkRow 1%nat (Some (1700050000000 * NS_PER_MS)) (FFin (60 # 1)))
     scenario_frame <->
    exists i en z x,
      nth_error (entries scenario_items) i = Some en /\
      to_datetime_ms (entry_timestamp en) = Ok (Some z) /\
      last_year scenario_now <= z /\
      to_numeric_coerce (entry_value en) = Ok x /\
      isna x = false /\
      mkRow 1%nat (Some (1700050000000 * NS_PER_MS)) (FFin (60 # 1))
      = mkRow i (Some z) x.
Proof.
  apply (@returned_rows Sample (historical_document scenario_items)
           (JObj [("data", JArr scenario_items)]) scenario_items scenario_now
           scenario_frame
           (mkRow 1%nat (Some (1700050000000 * NS_PER_MS)) (FFin (60 # 1))));
    vm_compute; reflexivity.
Defined.

Lemma returned_frame_invariants_witness :
  NoDup (map (@index stamp pyfloat) scenario_frame) /\
  Forall (fun r => isna (value r) = false) scenario_frame /\
  exists data d items,
    HttpOk (historical_document scenario_items) = HttpOk data /\
    py_getitem data HISTORICAL = Ok d /\
    py_getitem d "data" = Ok (JArr items) /\
    (length scenario_frame <= length items)%nat /\
    Forall (fun r => (index r < length items)%nat) scenario_frame.
Proof.
  apply (@returned_frame_invariants Sample
           (HttpOk (historical_document scenario_items)) scenario_now).
  vm_compute. reflexivity.
Defined.


(** Without the earlier success the later one says nothing about the
    earlier time: a row that only the earlier window holds, with a value on
    which the coercion raises, makes the earlier normalisation raise and
    leaves the later one alone. *)
Example window_moves_forward_after_failure :
  let df := frame_from 0
              [ mkEntry (number 1700000000000) (number (10 ^ 400));
                mkEntry (number 1700190000000) (number 60) ] in
  normalize scenario_now df = Raise OverflowError /\
  normalize (scenario_now + 365 * NS_PER_DAY) df
  = Ok [mkRow 1%nat (Some (1700190000000 * NS_PER_MS)) (FFin (60 # 1))].
Proof. vm_compute. split; reflexivity. Qed.

Lemma same_day_same_result_witness :
  last_year scenario_now mod NS_PER_DAY = 0 /\
  last_year scenario_now = last_year (scenario_now + 3600 * 1000 * NS_PER_MS) /\
  returned (get_fear_greed_data
              (HttpOk (historical_document scenario_items)) scenario_now)
  = returned (get_fear_greed_data
                (HttpOk (historical_document scenario_items))
                (scenario_now + 3600 * 1000 * NS_PER_MS)) /\
  returned (get_component_data HISTORICAL
              (HttpOk (historical_document scenario_items)) scenario_now)
  = returned (get_component_data HISTORICAL
                (HttpOk (historical_document scenario_items))
                (scenario_now + 3600 * 1000 * NS_PER_MS)).
Proof.
  apply (@same_day_same_result Sample HISTORICAL
           (HttpOk (historical_document scenario_items)) scenario_now
           (scenario_now + 3600 * 1000 * NS_PER_MS)).
  reflexivity.
Defined.

Lemma get_component_data_frame_witness :
  exists data d items,
    HttpOk (component_document "junk_bond_demand" scenario_items) = HttpOk data /\
    py_getitem data "junk_bond_demand" = Ok d /\
    py_getitem d "data" = Ok (JArr items) /\
    pd_DataFrame (entries items) = Ok (frame_from 0 (entries items)) /\
    normalize scenario_now (frame_from 0 (entries items)) = Ok scenario_frame /\
    empty scenario_frame = false /\
    ascending scenario_frame /\
    Forall (not_before (last_year scenario_now)) scenario_frame.
Proof.
  apply (@get_component_data_frame Sample "junk_bond_demand"
           (HttpOk (component_document "junk_bond_demand" scenario_items))
           scenario_now scenario_frame).
  vm_compute. reflexivity.
Defined.

Lemma current_reading_all_or_nothing_witness :
  fst (get_current_fear_greed (HttpOk current_document))
  = Ok (JNum (FFin (85 # 2)), JStr "fear") /\
  is_none (JNum (FFin (85 # 2))) = is_none (JStr "fear") /\
  logs_error (logged (get_current_fear_greed (HttpOk current_document)))
  = is_none (JNum (FFin (85 # 2))) /\
  (is_none (JNum (FFin (85 # 2))) = false ->
   exists data current,
     HttpOk current_document = HttpOk data /\
     py_getitem data CURRENT = Ok current /\
     py_get current "score" = Ok (JNum (FFin (85 # 2))) /\
     py_get current "rating" = Ok (JStr "fear")).
Proof.
  apply (@current_reading_all_or_nothing Sample (HttpOk current_document)).
  reflexivity.
Defined.

Lemma formatted_rating_shape_witness :
  formatted_rating (formatted_rating "extreme_fear")
  = formatted_rating "extreme_fear" /\
  String.length (formatted_rating "extreme_fear")
  = String.length "extreme_fear" /\
  ~ In "_"%char (list_ascii_of_string (formatted_rating "extreme_fear")) /\
  lowercase (formatted_rating "extreme_fear")
  = lowercase (str_replace "_" " " "extreme_fear").
Proof.
  apply (@formatted_rating_shape Sample "extreme_fear"). reflexivity.
Defined.

Lemma scheduled_feargreed_cleans_up_witness :
  fst (scheduled_feargreed delivery_env empty_directory) = Ok tt /\
  files (snd (scheduled_feargreed delivery_env empty_directory))
  = filter (fun f => negb (String.eqb "scheduled_fear_greed_chart.png" f))
           (files empty_directory).
Proof.
  apply (@scheduled_feargreed_cleans_up Sample delivery_env empty_directory
           (JNum (FFin (85 # 2))) (JStr "fear") (FFin (85 # 2)) "Fear"
           scenario_frame); vm_compute; reflexivity.
Defined.

Lemma no_chart_no_file_witness :
  files (snd (feargreed
                (mkEnv true (HttpOk (historical_document scenario_items))
                       (HttpOk current_document) scenario_now true
                       (fun _ => true))
                empty_directory)) = files empty_directory /\
  files (snd (scheduled_feargreed
                (mkEnv true (HttpOk (historical_document scenario_items))
                       (HttpOk current_document) scenario_now true
                       (fun _ => true))
                empty_directory)) = files empty_directory.
Proof.
  apply (@no_chart_no_file Sample
           (mkEnv true (HttpOk (historical_document scenario_items))
                  (HttpOk current_document) scenario_now true (fun _ => true))
           empty_directory JNull JNull); [reflexivity|].
  left. reflexivity.
Defined.

Lemma components_clean_up_witness :
  fst (components two_components_env empty_desk) = Ok tt /\
  files (directory (snd (components two_components_env empty_desk)))
  = without (drawn_charts two_components_env false COMPONENTS_INFO)
            (files (directory empty_desk)).
Proof.
  apply (@components_clean_up Sample two_components_env empty_desk).
  reflexivity.
Defined.

Lemma components_posts_witness :
  posts (snd (components two_components_env empty_desk))
  = posts empty_desk ++
    Notice ComponentsProcessing ::
    (if empty (drawn_charts two_components_env false COMPONENTS_INFO) then
       [Notice (if some_missing two_components_env COMPONENTS_INFO
                then NoChartAtAll false else NoComponents false)]
     else
       Deleted :: Notice (ChartsFollow false) ::
       map MediaGroup
         (batches (drawn_charts two_components_env false COMPONENTS_INFO)) ++
       (if some_missing two_components_env COMPONENTS_INFO
        then [Notice PartialFailure] else [])).
Proof.
  apply (@components_posts Sample two_components_env empty_desk).
  intros n. reflexivity.
Defined.
